(** * go-bench: counters, classification and reporting

    A shallow embedding of the two programs of the repository:

    - [Gobench]: [cmd/gobench/gobench.go], the concurrent load generator
      built on fasthttp (types [Result], [MyConn], the functions [client]
      and [printResults], the process-wide counters [readThroughput] and
      [writeThroughput]);
    - [Client]: package [client] ([Request], [Statistic], [Client] and its
      methods [PerformRequestWithContent], [RunForAmount],
      [RunForDuration]).

    Go's [int64] (and [int], on the 64-bit targets the tool is built for)
    is an integer of [Z] kept in the signed 64-bit range by [wrap64].
    [time.Duration.Seconds] is computed as the standard library computes
    it, in [float64] ([Float64]: exact rationals, rounded to nearest).
    Whatever lies outside the repository (the HTTP transport, the TCP
    connection under [MyConn], the clock, URL parsing) is an interface
    the code is written against: a type class whose instance is the
    environment of a run. *)

From Stdlib Require Import ZArith List Ascii String Lia.
From Stdlib.Strings Require Import Byte.
From stdpp Require Import base numbers list gmap strings.

Local Open Scope Z_scope.

(** ** Signed 64-bit arithmetic *)

Module Int64.

Definition min_int64 : Z := - 2 ^ 63.
Definition max_int64 : Z := 2 ^ 63 - 1.

(** The value an [int64] holds after an operation whose exact result is [z]. *)
Definition wrap64 (z : Z) : Z := (z + 2 ^ 63) `mod` 2 ^ 64 - 2 ^ 63.

Definition in_int64 (z : Z) : Prop := min_int64 ≤ z ≤ max_int64.

Definition add64 (a b : Z) : Z := wrap64 (a + b).
Definition sub64 (a b : Z) : Z := wrap64 (a - b).

(** [x++] and [x--]. *)
Definition incr (x : Z) : Z := add64 x 1.
Definition decr (x : Z) : Z := sub64 x 1.

(** Go's [/] on integers truncates toward zero. The divisors of this
    program are at least 1 where the division is reached, so the quotient
    of an [int64] is an [int64] and nothing wraps. *)
Definition div64 (a b : Z) : Z := a ÷ b.

(** [int64(len(x))] *)
Definition len64 {A} (l : list A) : Z := Z.of_nat (length l).

End Int64.

Import Int64.

(** ** float64, as far as [time.Duration.Seconds] needs it *)

Module Float64.

(** A finite non-negative [float64] is the rational it denotes, kept as a
    fraction [(n, d)] with [d > 0]. Every operation computes the exact
    rational result and rounds it to the nearest number with a 53-bit
    significand, ties to even (the magnitudes of this program, 0 or
    between 1e-9 and 1e10, are far from overflow and from subnormals). *)
Definition t : Type := Z * Z.

(** The integer nearest to [n / d], ties to even. *)
Definition half_even (n d : Z) : Z :=
  let q := n `div` d in
  let r := n `mod` d in
  if 2 * r <? d then q
  else if d <? 2 * r then q + 1
  else if Z.even q then q else q + 1.

(** The exponent [e] of [n / d > 0]: [2^52 <= (n / d) / 2^e < 2^53]. *)
Definition exponent (n d : Z) : Z :=
  let e0 := Z.log2 n - Z.log2 d - 52 in
  let below :=
    if e0 <=? 0 then n * 2 ^ (- e0) <? 2 ^ 52 * d
    else n <? 2 ^ 52 * d * 2 ^ e0 in
  if below then e0 - 1 else e0.

(** [n / d >= 0] rounded to a [float64]. *)
Definition round (n d : Z) : t :=
  if n =? 0 then (0, 1)
  else
    let e := exponent n d in
    if e <=? 0 then (half_even (n * 2 ^ (- e)) d, 2 ^ (- e))
    else (half_even n (d * 2 ^ e) * 2 ^ e, 1).

(** [float64(z)] for [z >= 0]. *)
Definition of_int64 (z : Z) : t := round z 1.

(** [x + y] and [x / y]. *)
Definition add (x y : t) : t := round (fst x * snd y + fst y * snd x) (snd x * snd y).
Definition div (x y : t) : t := round (fst x * snd y) (snd x * fst y).

(** [int64(x)]: the fraction is cut off. *)
Definition to_int64 (x : t) : Z := fst x `div` snd x.

End Float64.

(** ** cmd/gobench *)

Module Gobench.

Record configuration := {
  urls : list string;
  method : string;
  postData : option (list byte);
  contentType : string;
  requestCount : Z;
  requestsDuration : Z;
  keepAlive : bool;
  authHeader : string
}.

Record Result := {
  requests : Z;
  success : Z;
  networkFailed : Z;
  badFailed : Z
}.

(** [&Result{}] *)
Definition new_Result : Result :=
  {| requests := 0; success := 0; networkFailed := 0; badFailed := 0 |}.

(** [r.requests == r.success + r.networkFailed + r.badFailed], as Go
    evaluates it. *)
Definition Result_balanced (r : Result) : Prop :=
  requests r = wrap64 (success r + networkFailed r + badFailed r).

(** The same over the integers, for counters that have not wrapped. *)
Definition Result_exact (r : Result) : Prop :=
  0 ≤ success r ∧ 0 ≤ networkFailed r ∧ 0 ≤ badFailed r ∧
  requests r = success r + networkFailed r + badFailed r.

(** The two package-level counters [readThroughput] and [writeThroughput]. *)
Record Meter := {
  readThroughput : Z;
  writeThroughput : Z
}.

Definition new_Meter : Meter := {| readThroughput := 0; writeThroughput := 0 |}.

(** *** MyConn: the counting wrapper around [net.Conn] *)

(** A Go [error] value; [None] is [nil]. *)
Definition error := option string.

(** What a call of [Read] or [Write] hands back: the connection after the
    call, the caller's buffer after the call, the byte count and the error. *)
Record io_result (C : Type) := IoResult {
  io_conn : C;
  io_buf : list byte;
  io_n : Z;
  io_err : error
}.
Arguments IoResult {C}.
Arguments io_conn {C}.
Arguments io_buf {C}.
Arguments io_n {C}.
Arguments io_err {C}.

(** The part of the [net.Conn] interface that [MyConn] overrides. *)
Class NetConn (C : Type) := {
  conn_Read : C → list byte → io_result C;
  conn_Write : C → list byte → io_result C
}.

(** The contract of [io.Reader] and [io.Writer]: [0 <= n <= len(b)]. *)
Class NetConnContract (C : Type) `{NetConn C} : Prop := {
  conn_Read_n : ∀ c b, 0 ≤ io_n (conn_Read c b) ≤ len64 b;
  conn_Write_n : ∀ c b, 0 ≤ io_n (conn_Write c b) ≤ len64 b
}.

Section MyConn.
Context {C : Type} `{NetConn C}.

(** [atomic.AddInt64(&readThroughput, int64(len))] *)
Definition add_read (m : Meter) (len : Z) : Meter :=
  {| readThroughput := add64 (readThroughput m) len;
     writeThroughput := writeThroughput m |}.

(** [atomic.AddInt64(&writeThroughput, int64(len))] *)
Definition add_write (m : Meter) (len : Z) : Meter :=
  {| readThroughput := readThroughput m;
     writeThroughput := add64 (writeThroughput m) len |}.

(** [func (conn *MyConn) Read(b []byte) (n int, err error)] *)
Definition MyConn_Read (conn : C) (b : list byte) (m : Meter) : io_result C * Meter :=
  let r := conn_Read conn b in
  let m' := match io_err r with
            | None => add_read m (io_n r)
            | Some _ => m
            end in
  (IoResult (io_conn r) (io_buf r) (io_n r) (io_err r), m').

(** [func (conn *MyConn) Write(b []byte) (n int, err error)] *)
Definition MyConn_Write (conn : C) (b : list byte) (m : Meter) : io_result C * Meter :=
  let r := conn_Write conn b in
  let m' := match io_err r with
            | None => add_write m (io_n r)
            | Some _ => m
            end in
  (IoResult (io_conn r) (io_buf r) (io_n r) (io_err r), m').

(** A run's traffic: every goroutine reads and writes through some wrapped
    connection of the pool, and the atomic additions make the calls take
    effect one after the other. *)
Inductive io_op :=
| OpRead (i : nat) (b : list byte)
| OpWrite (i : nat) (b : list byte).

Definition op_buf (o : io_op) : list byte :=
  match o with OpRead _ b | OpWrite _ b => b end.

Definition io_step (st : list C * Meter) (o : io_op) : list C * Meter :=
  let '(conns, m) := st in
  match o with
  | OpRead i b =>
      match conns !! i with
      | Some c => let '(r, m') := MyConn_Read c b m in (<[i := io_conn r]> conns, m')
      | None => st
      end
  | OpWrite i b =>
      match conns !! i with
      | Some c => let '(r, m') := MyConn_Write c b m in (<[i := io_conn r]> conns, m')
      | None => st
      end
  end.

Definition io_run (ops : list io_op) (st : list C * Meter) : list C * Meter :=
  fold_left io_step ops st.

(** Room the buffers of [ops] offer: a bound on the bytes they can move. *)
Definition ops_room (ops : list io_op) : Z :=
  foldr (λ o acc, len64 (op_buf o) + acc) 0 ops.

End MyConn.

(** *** The worker loop [client] *)

(** The request the loop body assembles with fasthttp's setters. *)
Record request := {
  req_uri : string;
  req_method : string;
  req_headers : list (string * string);
  req_body : option (list byte)
}.

Definition build_request (cfg : configuration) (tmpUrl : string) : request :=
  {| req_uri := tmpUrl;
     req_method := method cfg;
     req_headers :=
       [("Connection", if keepAlive cfg then "keep-alive" else "close")%string]
       ++ (if (0 <? len64 (list_ascii_of_string (authHeader cfg)))
           then [("Authorization"%string, authHeader cfg)] else [])
       ++ (if (0 <? len64 (list_ascii_of_string (contentType cfg)))
           then [("Content-Type"%string, contentType cfg)] else []);
     req_body := postData cfg |}.

(** What the loop body looks at after [myClient.Do(req, resp)]: the error
    and [resp.StatusCode()]. *)
Record reply := {
  err : error;
  statusCode : Z
}.

(** [configuration.myClient], a [fasthttp.Client]: the server and the network
    seen through [Do]. *)
Class FastHTTP (W : Type) := {
  Do : W → request → W * reply
}.

Section Worker.
Context {W : Type} `{FastHTTP W}.

(** The body of the inner [for _, tmpUrl := range configuration.urls]. *)
Definition attempt (cfg : configuration) (st : W * Result) (tmpUrl : string) : W * Result :=
  let '(w, result) := st in
  let req := build_request cfg tmpUrl in
  let '(w', resp) := Do w req in
  let statusCode := statusCode resp in
  let requests' := incr (requests result) in
  match err resp with
  | Some _ =>
      (w', {| requests := requests';
              success := success result;
              networkFailed := incr (networkFailed result);
              badFailed := badFailed result |})
  | None =>
      if (200 <=? statusCode) && (statusCode <=? 226)
      then (w', {| requests := requests';
                   success := incr (success result);
                   networkFailed := networkFailed result;
                   badFailed := badFailed result |})
      else (w', {| requests := requests';
                   success := success result;
                   networkFailed := networkFailed result;
                   badFailed := incr (badFailed result) |})
  end.

(** One pass over [configuration.urls]. *)
Definition pass (cfg : configuration) (st : W * Result) : W * Result :=
  fold_left (attempt cfg) (urls cfg) st.

(** The guard of the outer [for]. *)
Definition keep_going (cfg : configuration) (result : Result) : bool :=
  (requests result <? requestCount cfg) || negb (requestsDuration cfg =? -1).

(** [func client(configuration, result, done)]: [fuel] bounds the passes;
    [None] means the loop is still running after [fuel] passes. *)
Fixpoint client (fuel : nat) (cfg : configuration) (st : W * Result) : option (W * Result) :=
  match fuel with
  | O => None
  | S fuel' =>
      if keep_going cfg (snd st)
      then client fuel' cfg (pass cfg st)
      else Some st
  end.

(** The [for i := 0; i < clients; i++] of [main] followed by [done.Wait()]:
    goroutine [i] gets a fresh [Result] stored at [results[i]]; [ws] lists,
    per goroutine, the environment as that goroutine meets it. *)
Fixpoint dispatch (fuel : nat) (cfg : configuration) (i : nat) (ws : list W)
    (results : gmap nat Result) : option (gmap nat Result) :=
  match ws with
  | [] => Some results
  | w :: ws' =>
      match client fuel cfg (w, new_Result) with
      | Some (_, result) => dispatch fuel cfg (S i) ws' (<[i := result]> results)
      | None => None
      end
  end.

End Worker.

(** The passes over the URL set that [client] makes in count mode from a
    [requests] counter [a], for [n] requests and [k] URLs. *)
Definition passes_needed (a n k : Z) : Z :=
  if a <? n then (n - a + k - 1) `div` k else 0.

(** *** printResults *)

(** [time.Second], in nanoseconds. *)
Definition Second : Z := 1000000000.

(** [d.Seconds()] for a [time.Duration] [d >= 0]:
    [float64(d / Second) + float64(d % Second) / 1e9]. *)
Definition Seconds (d : Z) : Float64.t :=
  Float64.add (Float64.of_int64 (d ÷ Second))
    (Float64.div (Float64.of_int64 (Z.rem d Second)) (Float64.of_int64 1000000000)).

(** [int64(d.Seconds())]. For a negative [d] quotient and remainder are
    the negated ones of [-d], rounding to nearest is symmetric and the
    conversion truncates toward zero, so the result is the negated one
    of [-d]. *)
Definition whole_seconds (d : Z) : Z :=
  Z.sgn d * Float64.to_int64 (Seconds (Z.abs d)).

(** The eight numbers [printResults] prints, in the order of its lines. *)
Record Report := {
  rep_requests : Z;
  rep_success : Z;
  rep_networkFailed : Z;
  rep_badFailed : Z;
  rep_rate : Z;
  rep_read : Z;
  rep_write : Z;
  rep_elapsed : Z
}.

(** The body of [for _, result := range results]. *)
Definition accumulate (_ : nat) (result : Result) (acc : Result) : Result :=
  {| requests := add64 (requests acc) (requests result);
     success := add64 (success acc) (success result);
     networkFailed := add64 (networkFailed acc) (networkFailed result);
     badFailed := add64 (badFailed acc) (badFailed result) |}.

(** [func printResults(results map[int]*Result, startTime time.Time)];
    [since] is [time.Since(startTime)] and [m] the counters when it runs. *)
Definition printResults (results : gmap nat Result) (m : Meter) (since : Z) : Report :=
  let sums := map_fold accumulate new_Result results in
  let elapsed := whole_seconds since in
  let elapsed := if elapsed =? 0 then 1 else elapsed in
  {| rep_requests := requests sums;
     rep_success := success sums;
     rep_networkFailed := networkFailed sums;
     rep_badFailed := badFailed sums;
     rep_rate := div64 (success sums) elapsed;
     rep_read := div64 (readThroughput m) elapsed;
     rep_write := div64 (writeThroughput m) elapsed;
     rep_elapsed := elapsed |}.

(** The exact sum of a counter over all results. *)
Definition total (f : Result → Z) (results : gmap nat Result) : Z :=
  foldr Z.add 0 (f ∘ snd <$> map_to_list results).

End Gobench.

(** ** package client *)

Module Client.

Record Request := {
  URL : string;
  PostBody : option (list byte);
  ContentType : string;
  KeepAlive : bool;
  AdditionalHeaders : option (gmap string string)
}.

Record Statistic := {
  ReadThroughput : Z;
  WriteThroughput : Z;
  RequestCount : Z;
  SuccessCount : Z;
  FailureCount : Z;
  NetworkFailedCount : Z;
  IOFailedCount : Z
}.

Definition new_Statistic : Statistic :=
  {| ReadThroughput := 0; WriteThroughput := 0; RequestCount := 0;
     SuccessCount := 0; FailureCount := 0; NetworkFailedCount := 0;
     IOFailedCount := 0 |}.

(** [RequestCount == SuccessCount + FailureCount + NetworkFailedCount], as
    Go evaluates it: "always equal to the sum of failed and successfull
    requests". *)
Definition Statistic_balanced (s : Statistic) : Prop :=
  RequestCount s = wrap64 (SuccessCount s + FailureCount s + NetworkFailedCount s).

(** [type Client struct]; its [HTTPClient] is the environment [HTTP] below. *)
Record Client := {
  cStatistic : Statistic;
  cRequest : Request
}.

(** A [context.Context]: its deadline on the clock, [None] for
    [context.Background()]. *)
Definition Ctx := option Z.

(** The [*http.Request] under construction. *)
Record http_request := {
  hr_method : string;
  hr_url : string;
  hr_body : option (list byte);
  hr_header : gmap string string
}.

(** Why [HTTPClient.Do] returned a non-nil error. *)
Inductive net_error :=
| DeadlineExceeded
| TransportError (msg : string).

(** A response as the method uses it: the status code and what
    [io.ReadAll(resp.Body)] returns. *)
Record response := {
  StatusCode : Z;
  Body : list byte;
  BodyErr : Gobench.error
}.

(** net/http, net/url, net/textproto and the clock. *)
Class HTTP (W : Type) := {
  url_Parse_ok : string → bool;
  CanonicalMIMEHeaderKey : string → string;
  now : W → Z;
  HTTPClient_Do : W → Ctx → http_request → W * (net_error + response)
}.

(** How a call ends. *)
Inductive panic :=
| PanicMessage (msg : string)
| NilPointerDereference.

Inductive outcome :=
| Returned
| Panicked (p : panic).

Section Methods.
Context {W : Type} `{HTTP W}.

(** [http.NewRequestWithContext]: with a non-nil context and the methods
    GET and POST it fails only on a URL that does not parse, and then the
    request it returns is nil. *)
Definition NewRequestWithContext (ctx : Ctx) (method url : string)
    (body : option (list byte)) : option http_request :=
  if url_Parse_ok url
  then Some {| hr_method := method; hr_url := url; hr_body := body; hr_header := ∅ |}
  else None.

(** [req.Header.Set(k, v)] *)
Definition Header_Set (k v : string) (req : http_request) : http_request :=
  {| hr_method := hr_method req; hr_url := hr_url req; hr_body := hr_body req;
     hr_header := <[CanonicalMIMEHeaderKey k := v]> (hr_header req) |}.

Definition set_Statistic (c : Client) (s : Statistic) : Client :=
  {| cStatistic := s; cRequest := cRequest c |}.

(** The [Connection] header and the additional headers. *)
Definition set_headers (rq : Request) (req : http_request) : http_request :=
  let req := Header_Set "Connection" (if KeepAlive rq then "keep-alive" else "close") req in
  match AdditionalHeaders rq with
  | Some hs => map_fold Header_Set req hs
  | None => req
  end.

(** [PerformRequestWithContent] from [if c.Request.KeepAlive] to its end. *)
Definition perform (ctx : Ctx) (w : W) (c : Client) (req : http_request) : W * Client :=
  let rq := cRequest c in
  let req := set_headers rq req in
  let s := cStatistic c in
  let RequestCount' := incr (RequestCount s) in
  match HTTPClient_Do w ctx req with
  | (w', inl _) =>
      (w', set_Statistic c
             {| ReadThroughput := ReadThroughput s;
                WriteThroughput := WriteThroughput s;
                RequestCount := RequestCount';
                SuccessCount := SuccessCount s;
                FailureCount := FailureCount s;
                NetworkFailedCount := incr (NetworkFailedCount s);
                IOFailedCount := IOFailedCount s |})
  | (w', inr resp) =>
      let ok := (200 <=? StatusCode resp) && (StatusCode resp <=? 299) in
      (w', set_Statistic c
             {| ReadThroughput := add64 (ReadThroughput s) (len64 (Body resp));
                WriteThroughput :=
                  add64 (WriteThroughput s) (len64 (default [] (PostBody rq)));
                RequestCount := RequestCount';
                SuccessCount := if ok then incr (SuccessCount s) else SuccessCount s;
                FailureCount := if ok then FailureCount s else incr (FailureCount s);
                NetworkFailedCount := NetworkFailedCount s;
                IOFailedCount :=
                  match BodyErr resp with
                  | Some _ => incr (IOFailedCount s)
                  | None => IOFailedCount s
                  end |})
  end.

(** [func (c *Client) PerformRequestWithContent(ctx context.Context)] *)
Definition PerformRequestWithContent (ctx : Ctx) (st : W * Client) : (W * Client) * outcome :=
  let '(w, c) := st in
  let rq := cRequest c in
  match PostBody rq with
  | Some body =>
      match NewRequestWithContext ctx "POST" (URL rq) (Some body) with
      | None => (st, Panicked NilPointerDereference)
      | Some req => (perform ctx w c (Header_Set "Content-Type" (ContentType rq) req), Returned)
      end
  | None =>
      match NewRequestWithContext ctx "GET" (URL rq) None with
      | None => (st, Panicked (PanicMessage "Could not create http request"))
      | Some req => (perform ctx w c req, Returned)
      end
  end.

(** [func (c *Client) PerformRequest()] *)
Definition PerformRequest (st : W * Client) : (W * Client) * outcome :=
  PerformRequestWithContent None st.

(** The loop of [RunForAmount] with [n] iterations left. *)
Fixpoint amount_loop (n : nat) (st : W * Client) : (W * Client) * outcome :=
  match n with
  | O => (st, Returned)
  | S n' =>
      match PerformRequest st with
      | (st', Returned) => amount_loop n' st'
      | (st', Panicked p) => (st', Panicked p)
      end
  end.

(** [func (c *Client) RunForAmount(requestCount int)] *)
Definition RunForAmount (requestCount : Z) (st : W * Client) : (W * Client) * outcome :=
  amount_loop (Z.to_nat requestCount) st.

(** The loop of [RunForDuration]; [None]: still looping after [fuel] rounds. *)
Fixpoint duration_loop (fuel : nat) (timeout startTime : Z) (ctx : Ctx)
    (st : W * Client) : option ((W * Client) * outcome) :=
  match fuel with
  | O => None
  | S fuel' =>
      if now (fst st) - startTime <? timeout
      then match PerformRequestWithContent ctx st with
           | (st', Returned) => duration_loop fuel' timeout startTime ctx st'
           | (st', Panicked p) => Some (st', Panicked p)
           end
      else Some (st, Returned)
  end.

(** The [if c.Statistic.NetworkFailedCount == 1] that ends [RunForDuration]. *)
Definition discount_last (s : Statistic) : Statistic :=
  if NetworkFailedCount s =? 1
  then {| ReadThroughput := ReadThroughput s;
          WriteThroughput := WriteThroughput s;
          RequestCount := decr (RequestCount s);
          SuccessCount := SuccessCount s;
          FailureCount := FailureCount s;
          NetworkFailedCount := decr (NetworkFailedCount s);
          IOFailedCount := IOFailedCount s |}
  else s.

(** [func (c *Client) RunForDuration(timeout time.Duration)] *)
Definition RunForDuration (fuel : nat) (timeout : Z) (st : W * Client)
    : option ((W * Client) * outcome) :=
  let startTime := now (fst st) in
  let ctx := Some (startTime + timeout) in
  match duration_loop fuel timeout startTime ctx st with
  | Some ((w, c), Returned) => Some ((w, set_Statistic c (discount_last (cStatistic c))), Returned)
  | other => other
  end.

(** The transport answers every request sent from [w] under [ctx]. *)
Definition responds (w : W) (ctx : Ctx) : Prop :=
  ∀ req, ∃ resp, snd (HTTPClient_Do w ctx req) = inr resp.

(** The transport fails every request sent from [w] under [ctx]. *)
Definition fails (w : W) (ctx : Ctx) : Prop :=
  ∀ req, ∃ e, snd (HTTPClient_Do w ctx req) = inl e.

(** Every call of the transport takes time. *)
Definition takes_time : Prop :=
  ∀ (w : W) ctx req, now w < now (fst (HTTPClient_Do w ctx req)).

End Methods.

End Client.

(** ** Scripted environments

    Small executable instances of the three interfaces, on which the
    models run by computation. *)

Module Sim.

(** A server for [Gobench.client] that answers from a script and refuses
    connections once the script is used up (a fresh fasthttp response
    reports status 200). *)
#[global] Instance scripted_server : Gobench.FastHTTP (list Gobench.reply) := {|
  Gobench.Do w _ :=
    match w with
    | [] => ([], {| Gobench.err := Some "connection refused"%string; Gobench.statusCode := 200 |})
    | r :: w' => (w', r)
    end
|}.

(** [gobench -f urls -r n] and [gobench -f urls -t seconds]. *)
Definition by_count (us : list string) (n : Z) : Gobench.configuration :=
  {| Gobench.urls := us; Gobench.method := "GET"; Gobench.postData := None;
     Gobench.contentType := EmptyString; Gobench.requestCount := n;
     Gobench.requestsDuration := -1; Gobench.keepAlive := true;
     Gobench.authHeader := EmptyString |}.

Definition by_duration (us : list string) (seconds : Z) : Gobench.configuration :=
  {| Gobench.urls := us; Gobench.method := "GET"; Gobench.postData := None;
     Gobench.contentType := EmptyString; Gobench.requestCount := -1;
     Gobench.requestsDuration := seconds; Gobench.keepAlive := true;
     Gobench.authHeader := EmptyString |}.

(** Two URLs and three requests per client. *)
Definition two_urls_three_requests : Gobench.configuration :=
  by_count ["http://localhost/a"; "http://localhost/b"]%string 3.

(** Two clients' results and the counters after a run of 2.5 seconds. *)
Definition sample_results : gmap nat Gobench.Result :=
  <[0%nat := {| Gobench.requests := 10; Gobench.success := 7;
                Gobench.networkFailed := 1; Gobench.badFailed := 2 |}]>
  (<[1%nat := {| Gobench.requests := 5; Gobench.success := 4;
                 Gobench.networkFailed := 1; Gobench.badFailed := 0 |}]> ∅).

Definition sample_meter : Gobench.Meter :=
  {| Gobench.readThroughput := 1501; Gobench.writeThroughput := 900 |}.

Definition ok (status : Z) : Gobench.reply :=
  {| Gobench.err := None; Gobench.statusCode := status |}.

Definition refused : Gobench.reply :=
  {| Gobench.err := Some "connection refused"%string; Gobench.statusCode := 200 |}.

(** A connection with [incoming] bytes still to deliver and room for
    [room] more outgoing bytes. [Read] hands over as much as fits the
    buffer and reports EOF together with the last bytes; [Write] accepts
    what there is room for and reports a broken pipe on a short write. *)
Record conn := {
  incoming : list byte;
  room : nat;
  sent : list byte
}.

Definition conn_read (c : conn) (b : list byte) : Gobench.io_result conn :=
  let n := Nat.min (length b) (length (incoming c)) in
  Gobench.IoResult
    {| incoming := drop n (incoming c); room := room c; sent := sent c |}
    (take n (incoming c) ++ drop n b)
    (Z.of_nat n)
    (if decide (length (incoming c) ≤ length b)%nat then Some "EOF"%string else None).

Definition conn_write (c : conn) (b : list byte) : Gobench.io_result conn :=
  let n := Nat.min (length b) (room c) in
  Gobench.IoResult
    {| incoming := incoming c; room := (room c - n)%nat; sent := sent c ++ take n b |}
    b
    (Z.of_nat n)
    (if decide (length b ≤ room c)%nat then None else Some "broken pipe"%string).

#[global] Instance conn_NetConn : Gobench.NetConn conn := {|
  Gobench.conn_Read := conn_read;
  Gobench.conn_Write := conn_write
|}.

Definition abcd : list byte := ["a"; "b"; "c"; "d"]%byte.
Definition buf3 : list byte := ["x"; "x"; "x"]%byte.

(** Four bytes wait on the connection and ten more can be sent. *)
Definition open_conn : conn :=
  {| incoming := abcd; room := 10; sent := [] |}.

(** Two bytes are left before EOF and one more byte can be sent. *)
Definition closing_conn : conn :=
  {| incoming := ["y"; "z"]%byte; room := 1; sent := [] |}.

(** A transport for [Client.Client]: the clock, the scripted exchanges
    still to come and the results handed out so far. An exchange takes
    [latency] nanoseconds, at least one; an exchange that would pass the
    deadline of the context ends at the deadline with [DeadlineExceeded]. *)
Record exchange := {
  latency : Z;
  result : Client.net_error + Client.response
}.

Record world := {
  clock : Z;
  pending : list exchange;
  served : list (Client.net_error + Client.response)
}.

Definition world_Do (w : world) (ctx : Client.Ctx) (_ : Client.http_request)
    : world * (Client.net_error + Client.response) :=
  let '(lat, res, rest) :=
    match pending w with
    | [] => (1, inl (Client.TransportError "connection refused"), [])
    | e :: rest => (latency e, result e, rest)
    end in
  let lat := Z.max 1 lat in
  let '(t, res) :=
    match ctx with
    | Some deadline =>
        if deadline <=? clock w + lat
        then (Z.max (clock w + 1) deadline, inl Client.DeadlineExceeded)
        else (clock w + lat, res)
    | None => (clock w + lat, res)
    end in
  ({| clock := t; pending := rest; served := served w ++ [res] |}, res).

#[global] Instance world_HTTP : Client.HTTP world := {|
  Client.url_Parse_ok u := String.prefix "http://" u;
  Client.CanonicalMIMEHeaderKey k := k;
  Client.now := clock;
  Client.HTTPClient_Do := world_Do
|}.

(** The failures of a run that the deadline of its context caused. *)
Definition is_cutoff (r : Client.net_error + Client.response) : bool :=
  match r with
  | inl Client.DeadlineExceeded => true
  | _ => false
  end.

Definition cutoff_failures (w : world) : Z :=
  len64 (List.filter is_cutoff (served w)).

Definition answer (lat status : Z) (body : list byte) : exchange :=
  {| latency := lat;
     result := inr {| Client.StatusCode := status; Client.Body := body; Client.BodyErr := None |} |}.

Definition failure (lat : Z) : exchange :=
  {| latency := lat; result := inl (Client.TransportError "connection reset") |}.

Definition fresh (script : list exchange) : world :=
  {| clock := 0; pending := script; served := [] |}.

Definition new_Client (url : string) (body : option (list byte)) : Client.Client :=
  {| Client.cStatistic := Client.new_Statistic;
     Client.cRequest := {| Client.URL := url; Client.PostBody := body;
                            Client.ContentType := "text/plain";
                            Client.KeepAlive := true;
                            Client.AdditionalHeaders := None |} |}.

(** A pool of two connections and the calls of a run, in two parts. *)
Definition pool : list conn := [open_conn; closing_conn].

Definition ops1 : list Gobench.io_op :=
  [Gobench.OpRead 0 buf3; Gobench.OpWrite 1 buf3].

Definition ops2 : list Gobench.io_op :=
  [Gobench.OpRead 1 buf3; Gobench.OpWrite 0 buf3; Gobench.OpRead 0 buf3].

(** For a run of 1000 nanoseconds: the first exchange fails after 400, the
    second would need 700. *)
Definition failure_then_cutoff : world * Client.Client :=
  (fresh [failure 400; answer 700 200 []], new_Client "http://localhost" None).

(** For a run of 1000 nanoseconds: the first exchange is answered after
    400, the second would need 700. *)
Definition answer_then_cutoff : world * Client.Client :=
  (fresh [answer 400 200 abcd; answer 700 200 abcd], new_Client "http://localhost" None).

(** A client posting three bytes to a server that answers 200, to one that
    cannot be reached, and to a URL that does not parse. *)
Definition post3_answered : world * Client.Client :=
  (fresh [answer 400 200 abcd], new_Client "http://localhost" (Some buf3)).

Definition post3_unreachable : world * Client.Client :=
  (fresh [failure 400], new_Client "http://localhost" (Some buf3)).

Definition post3_bad_url : world * Client.Client :=
  (fresh [answer 400 200 abcd], new_Client "://localhost" (Some buf3)).

Definition get_bad_url : world * Client.Client :=
  (fresh [answer 400 200 abcd], new_Client "://localhost" None).

End Sim.

(** ** Start-up of cmd/gobench: flags, readLines, newConfiguration *)

Module Startup.

(** The errors of the file functions; [readLines] tells [io.EOF] apart. *)
Inductive io_error :=
| EOF
| IOError (msg : string).

(** [os.ReadFile]. *)
Class FileSystem := {
  os_ReadFile : string → list byte + io_error
}.

(** [os.Open] followed by [bufio.NewReader], and [ReadLine] on the reader:
    the fragment, [isPrefix] and the error. *)
Class LineReader (R : Type) := {
  os_Open : string → R + io_error;
  ReadLine : R → R * (string * bool * option io_error)
}.

Definition is_empty (s : string) : bool :=
  match s with
  | EmptyString => true
  | String _ _ => false
  end.

Section ReadLines.
Context {R : Type} `{LineReader R}.

(** The [for] of [readLines], with [buffer] and [lines] as they stand;
    [None]: the reader has not failed after [fuel] calls. *)
Fixpoint readLines_loop (fuel : nat) (reader : R) (buffer : string) (lines : list string)
    : option (list string * io_error) :=
  match fuel with
  | O => None
  | S fuel' =>
      let '(reader', (part, prefix, err)) := ReadLine reader in
      match err with
      | Some e => Some (lines, e)
      | None =>
          let buffer := (buffer ++ part)%string in
          if prefix
          then readLines_loop fuel' reader' buffer lines
          else readLines_loop fuel' reader' EmptyString (lines ++ [buffer])
      end
  end.

(** [func readLines(path string) (lines []string, err error)] *)
Definition readLines (fuel : nat) (path : string) : option (list string * option io_error) :=
  match os_Open path with
  | inr e => Some ([], Some e)
  | inl reader =>
      match readLines_loop fuel reader EmptyString [] with
      | None => None
      | Some (lines, EOF) => Some (lines, None)
      | Some (lines, e) => Some (lines, Some e)
      end
  end.

(** What the reader hands out until it fails: the fragments with their
    [isPrefix], and the error. *)
Fixpoint fragments (fuel : nat) (reader : R) : option (list (string * bool) * io_error) :=
  match fuel with
  | O => None
  | S fuel' =>
      let '(reader', (part, prefix, err)) := ReadLine reader in
      match err with
      | Some e => Some ([], e)
      | None =>
          match fragments fuel' reader' with
          | Some (fs, e) => Some ((part, prefix) :: fs, e)
          | None => None
          end
      end
  end.

End ReadLines.

(** The bytes of the fragments, in order. *)
Definition bytes_of (fs : list (string * bool)) : string :=
  foldr (λ f acc, (fst f ++ acc)%string) EmptyString fs.

(** The bytes of the lines, in order. *)
Definition joined (lines : list string) : string :=
  foldr (λ l acc, (l ++ acc)%string) EmptyString lines.

(** The fragments after the last one that ends a line. *)
Fixpoint unfinished (fs : list (string * bool)) : list (string * bool) :=
  match fs with
  | [] => []
  | f :: fs' => if forallb snd (f :: fs') then f :: fs' else unfinished fs'
  end.

(** The fragments that end a line. *)
Definition line_ends (fs : list (string * bool)) : nat :=
  length (List.filter (λ f, negb (snd f)) fs).

(** The package-level variables the flags are parsed into. *)
Record flags := {
  requestCount : Z;
  requestsDuration : Z;
  clients : Z;
  url : string;
  urlsFilePath : string;
  keepAlive : bool;
  postDataFilePath : string;
  postBody : string;
  contentType : string;
  writeTimeout : Z;
  readTimeout : Z;
  authHeader : string
}.

(** The defaults that [init] registers. *)
Definition defaults : flags :=
  {| requestCount := -1; requestsDuration := -1; clients := 100;
     url := EmptyString; urlsFilePath := EmptyString; keepAlive := true;
     postDataFilePath := EmptyString; postBody := EmptyString;
     contentType := EmptyString; writeTimeout := 5000; readTimeout := 5000;
     authHeader := EmptyString |}.

(** The settings of [configuration.myClient]. *)
Record client_settings := {
  ReadTimeout : Z;
  WriteTimeout : Z;
  MaxConnsPerHost : Z
}.

(** [time.Millisecond], in nanoseconds. *)
Definition Millisecond : Z := 1000000.

(** The ways [newConfiguration] ends the process, all with status 1:
    [flag.Usage] alone, a message and [flag.Usage], and the two
    [log.Fatalf]. *)
Inductive exit :=
| ExitUsage
| ExitMessage (msg : string)
| FatalURLs (path : string) (e : io_error)
| FatalBody (path : string) (e : io_error).

Section NewConfiguration.
Context {R : Type} `{LineReader R} `{FileSystem}.

(** [func newConfiguration() configuration], after [flag.Parse()] has
    filled [fl]; [None]: [readLines] is still reading after [fuel] calls. *)
Definition newConfiguration (fuel : nat) (fl : flags)
    : option (exit + Gobench.configuration * client_settings) :=
  if is_empty (urlsFilePath fl) && is_empty (url fl) then Some (inl ExitUsage)
  else if (requestCount fl =? -1) && (requestsDuration fl =? -1)
  then Some (inl (ExitMessage "Requests or period must be provided"))
  else if negb (requestCount fl =? -1) && negb (requestsDuration fl =? -1)
  then Some (inl (ExitMessage "Only one should be provided: [requests|period]"))
  else
    let from_file :=
      if is_empty (urlsFilePath fl) then Some (inr [])
      else match readLines fuel (urlsFilePath fl) with
           | None => None
           | Some (_, Some e) => Some (inl (FatalURLs (urlsFilePath fl) e))
           | Some (fileLines, None) => Some (inr fileLines)
           end in
    match from_file with
    | None => None
    | Some (inl stop) => Some (inl stop)
    | Some (inr urls) =>
        let urls := if is_empty (url fl) then urls else urls ++ [url fl] in
        let from_data :=
          if is_empty (postDataFilePath fl) then inr ("GET"%string, None)
          else match os_ReadFile (postDataFilePath fl) with
               | inr e => inl (FatalBody (postDataFilePath fl) e)
               | inl data => inr ("POST"%string, Some data)
               end in
        match from_data with
        | inl stop => Some (inl stop)
        | inr (method, postData) =>
            let '(method, postData) :=
              if is_empty (postBody fl) then (method, postData)
              else ("POST"%string, Some (list_byte_of_string (postBody fl))) in
            Some (inr ({| Gobench.urls := urls;
                          Gobench.method := method;
                          Gobench.postData := postData;
                          Gobench.contentType := contentType fl;
                          Gobench.requestCount := requestCount fl;
                          Gobench.requestsDuration := requestsDuration fl;
                          Gobench.keepAlive := keepAlive fl;
                          Gobench.authHeader := authHeader fl |},
                       {| ReadTimeout := wrap64 (readTimeout fl * Millisecond);
                          WriteTimeout := wrap64 (writeTimeout fl * Millisecond);
                          MaxConnsPerHost := clients fl |}))
        end
    end.

End NewConfiguration.

End Startup.

(** ** [main] of cmd/gobench, for a run by count *)

Module Main.


Section Main.
Context {R : Type} `{Startup.LineReader R} `{Startup.FileSystem}.
Context {W : Type} `{Gobench.FastHTTP W}.


End Main.

End Main.

(** ** The constructors of package client *)

Module Construct.

(** [strings.Split(s, sep)] for a separator of one byte. *)
Fixpoint Split (s : string) (sep : Ascii.ascii) : list string :=
  match s with
  | EmptyString => [EmptyString]
  | String c s' =>
      if Ascii.eqb c sep then EmptyString :: Split s' sep
      else match Split s' sep with
           | [] => [String c EmptyString]
           | x :: xs => String c x :: xs
           end
  end.

(** The occurrences of [sep] in [s]. *)
Fixpoint occurrences (sep : Ascii.ascii) (s : string) : nat :=
  match s with
  | EmptyString => 0
  | String c s' => (if Ascii.eqb c sep then 1 else 0) + occurrences sep s'
  end.

(** A header item with exactly one ["="]. *)
Definition well_formed (header : string) : bool :=
  Nat.eqb (occurrences "=" header) 1.

(** A key or value free of [","] and ["="], and the item [key=value]. *)
Definition clean (s : string) : Prop :=
  occurrences "," s = 0%nat ∧ occurrences "=" s = 0%nat.

Definition item (kv : string * string) : string :=
  (fst kv ++ String "=" (snd kv))%string.

(** [strings.TrimSpace]. *)
Class Strings := {
  TrimSpace : string → string
}.

Section NewRequest.
Context `{Strings} `{Startup.FileSystem}.

(** The body of [for _, header := range headers]. *)
Definition add_header (m : gmap string string) (header : string) : gmap string string :=
  match Split header "="%char with
  | [k; v] => <[TrimSpace k := TrimSpace v]> m
  | _ => m
  end.

(** [func NewRequest(...) *Request]; on the left, the [log.Fatalf] that
    ends the process when the post data file cannot be read. *)
Definition NewRequest (url postDataFilePath postBody contentType : string)
    (keepAlive : bool) (authHeader additionalHeaders : string)
    : Startup.io_error + Client.Request :=
  let body :=
    if Startup.is_empty postDataFilePath
    then inr (if Startup.is_empty postBody then None
              else Some (list_byte_of_string postBody))
    else match Startup.os_ReadFile postDataFilePath with
         | inr e => inl e
         | inl data => inr (Some data)
         end in
  match body with
  | inl e => inl e
  | inr PostBody =>
      let headers0 : gmap string string :=
        if Startup.is_empty authHeader then ∅ else <[ "Authorization"%string := authHeader ]> ∅ in
      inr {| Client.URL := url;
             Client.PostBody := PostBody;
             Client.ContentType := contentType;
             Client.KeepAlive := keepAlive;
             Client.AdditionalHeaders :=
               Some (fold_left add_header (Split additionalHeaders ","%char) headers0) |}
  end.

(** The headers before the additional ones. *)
Definition headers0 (authHeader : string) : gmap string string :=
  if Startup.is_empty authHeader then ∅ else <[ "Authorization"%string := authHeader ]> ∅.

(** [func NewClient(timeout time.Duration, Request Request) *Client]; the
    timeout goes to the [http.Client], which is the transport. *)
Definition NewClient (timeout : Z) (Request : Client.Request) : Client.Client :=
  {| Client.cStatistic := Client.new_Statistic; Client.cRequest := Request |}.

End NewRequest.

End Construct.

(** ** More scripted environments *)

Module Lab.

(** A reader over the fragments still to come, failing with [final]
    once they are used up; every path opens but [missing.txt]. *)
Record reader := {
  coming : list (string * bool);
  final : Startup.io_error
}.

Definition reader_ReadLine (r : reader)
    : reader * (string * bool * option Startup.io_error) :=
  match coming r with
  | [] => (r, (EmptyString, false, Some (final r)))
  | (part, prefix) :: rest =>
      ({| coming := rest; final := final r |}, (part, prefix, None))
  end.

(** The file every path opens: two short lines, then a line in two
    fragments, then end of file. *)
Definition urls_txt : reader :=
  {| coming := [("http://localhost/a"%string, false); ("http://localhost/b"%string, false);
                ("http://local"%string, true); ("host/c"%string, false)];
     final := Startup.EOF |}.

#[global] Instance reader_LineReader : Startup.LineReader reader := {|
  Startup.os_Open path :=
    if String.eqb path "missing.txt" then inr (Startup.IOError "no such file")
    else inl urls_txt;
  Startup.ReadLine := reader_ReadLine
|}.

(** A disk with one readable file. *)
Definition disk : Startup.FileSystem := {|
  Startup.os_ReadFile path :=
    if String.eqb path "data.json" then inl Sim.buf3
    else inr (Startup.IOError "no such file")
|}.

(** Trimming of blanks only. *)
Fixpoint trim_left (s : string) : string :=
  match s with
  | String " "%char s' => trim_left s'
  | _ => s
  end.

Definition blanks : Construct.Strings := {|
  Construct.TrimSpace s := String.rev (trim_left (String.rev (trim_left s)))
|}.

(** The mock server of the package's tests: it answers every request
    after [pace] nanoseconds, at least one, with status 200 and the 13
    bytes of "test response", unless the deadline of the context comes
    first. *)
Record steady := {
  time : Z;
  pace : Z
}.

Definition test_response : list byte := list_byte_of_string "test response".

Definition steady_Do (w : steady) (ctx : Client.Ctx) (_ : Client.http_request)
    : steady * (Client.net_error + Client.response) :=
  let lat := Z.max 1 (pace w) in
  let answer := inr {| Client.StatusCode := 200; Client.Body := test_response;
                       Client.BodyErr := None |} in
  match ctx with
  | Some deadline =>
      if deadline <=? time w + lat
      then ({| time := Z.max (time w + 1) deadline; pace := pace w |},
            inl Client.DeadlineExceeded)
      else ({| time := time w + lat; pace := pace w |}, answer)
  | None => ({| time := time w + lat; pace := pace w |}, answer)
  end.

#[global] Instance steady_HTTP : Client.HTTP steady := {|
  Client.url_Parse_ok u := String.prefix "http://" u;
  Client.CanonicalMIMEHeaderKey k := k;
  Client.now := time;
  Client.HTTPClient_Do := steady_Do
|}.

(** A fresh client before the mock server. *)
Definition test_client : steady * Client.Client :=
  ({| time := 0; pace := 300 |}, Sim.new_Client "http://localhost" None).

(** A client whose exchanges are answered, fail and are answered with an
    error status. *)
Definition mixed_client : Sim.world * Client.Client :=
  (Sim.fresh [Sim.answer 10 200 Sim.abcd; Sim.failure 10; Sim.answer 10 500 Sim.abcd],
   Sim.new_Client "http://localhost" None).

(** The flags after [gobench -u url -f file -r r -t t -d data -b body]. *)
Definition run_flags (url file : string) (r t : Z) (data body : string) : Startup.flags :=
  {| Startup.requestCount := r; Startup.requestsDuration := t; Startup.clients := 100;
     Startup.url := url; Startup.urlsFilePath := file; Startup.keepAlive := true;
     Startup.postDataFilePath := data; Startup.postBody := body;
     Startup.contentType := EmptyString; Startup.writeTimeout := 5000;
     Startup.readTimeout := 5000; Startup.authHeader := EmptyString |}.



(** The additional headers of the package's test, as pairs. *)
Definition test_headers : list (string * string) :=
  [("key1", "value1"); ("key2", "value2"); (" key3", "value3")]%string.

(** A POST of the three bytes of [Sim.buf3] as a client writes it to the
    connection, in one call: request line, headers, empty line, body. *)
Definition crlf : list byte := [x0d; x0a]%byte.

Definition post3_head : list byte :=
  list_byte_of_string "POST / HTTP/1.1" ++ crlf
  ++ list_byte_of_string "Host: localhost" ++ crlf
  ++ list_byte_of_string "Content-Length: 3" ++ crlf ++ crlf.

Definition post3_wire : list Gobench.io_op :=
  [Gobench.OpWrite 0 (post3_head ++ Sim.buf3)].

(** A connection that takes 4096 bytes. *)
Definition wide_conn : Sim.conn :=
  {| Sim.incoming := []; Sim.room := 4096; Sim.sent := [] |}.

(** The counters after a run of 194 days. *)
Definition long_run_meter : Gobench.Meter :=
  {| Gobench.readThroughput := 16777216; Gobench.writeThroughput := 16777216 |}.

(** One URL and three requests per client; two clients' servers. *)
Definition one_url_three_requests : Gobench.configuration :=
  Sim.by_count ["http://localhost/a"%string] 3.

Definition two_servers : list (list Gobench.reply) := [[Sim.ok 200]; []].

End Lab.

(** ** Transports that behave *)

Module Behaviour.

(** Counters that have not wrapped: none is negative, the requests are
    the successes, failures and network failures together, and no more
    bodies failed to read than responses came. *)
Definition Statistic_exact (s : Client.Statistic) : Prop :=
  0 ≤ Client.SuccessCount s ∧ 0 ≤ Client.FailureCount s ∧
  0 ≤ Client.NetworkFailedCount s ∧ 0 ≤ Client.IOFailedCount s ∧
  Client.RequestCount s
  = Client.SuccessCount s + Client.FailureCount s + Client.NetworkFailedCount s ∧
  Client.IOFailedCount s ≤ Client.SuccessCount s + Client.FailureCount s.

(** No failure so far: every request was a success. *)
Definition all_succeeded (s : Client.Statistic) : Prop :=
  Client.NetworkFailedCount s = 0 ∧ Client.FailureCount s = 0 ∧
  Client.RequestCount s = Client.SuccessCount s ∧
  in_int64 (Client.RequestCount s).

(** The statistic after a request that was cut off in a run without any
    other failure. *)
Definition cut_off (s : Client.Statistic) : Prop :=
  Client.NetworkFailedCount s = 1 ∧ Client.FailureCount s = 0 ∧
  Client.RequestCount s = incr (Client.SuccessCount s) ∧
  in_int64 (Client.SuccessCount s).

Section Transports.
Context {W : Type} `{Client.HTTP W}.

(** Without a deadline every request is answered, with a status in
    [200,299], a body of [size] bytes and no error in reading it. *)
Definition always_answers (size : Z) : Prop :=
  ∀ (w : W) req, ∃ resp,
    snd (Client.HTTPClient_Do w None req) = inr resp ∧
    200 ≤ Client.StatusCode resp ≤ 299 ∧
    Client.BodyErr resp = None ∧
    len64 (Client.Body resp) = size.

(** Under a deadline a request is either answered with a status in
    [200,299], or it fails and the deadline has then passed. *)
Definition answers_until_deadline : Prop :=
  ∀ (w : W) deadline req,
    match Client.HTTPClient_Do w (Some deadline) req with
    | (_, inr resp) => 200 ≤ Client.StatusCode resp ≤ 299
    | (w', inl _) => deadline ≤ Client.now w'
    end.

(** The request that [PerformRequestWithContent] hands to
    [HTTPClient.Do] when the client posts [body] to a URL that parses. *)
Definition post_request (rq : Client.Request) (body : list byte) : Client.http_request :=
  Client.set_headers rq
    (Client.Header_Set "Content-Type" (Client.ContentType rq)
       {| Client.hr_method := "POST"; Client.hr_url := Client.URL rq;
          Client.hr_body := Some body; Client.hr_header := ∅ |}).

End Transports.

End Behaviour.

(** ** The traffic under the counters *)

Module Traffic.

Section Raw.
Context {C : Type} `{Gobench.NetConn C}.

(** The calls of [ops] made on the connections themselves, without
    [MyConn]: the connections afterwards and the byte counts of the reads
    and of the writes that returned no error. *)
Definition raw_step (st : list C * (Z * Z)) (o : Gobench.io_op) : list C * (Z * Z) :=
  let '(conns, (rd, wr)) := st in
  match o with
  | Gobench.OpRead i b =>
      match conns !! i with
      | Some c =>
          let r := Gobench.conn_Read c b in
          (<[i := Gobench.io_conn r]> conns,
           (match Gobench.io_err r with None => rd + Gobench.io_n r | Some _ => rd end, wr))
      | None => st
      end
  | Gobench.OpWrite i b =>
      match conns !! i with
      | Some c =>
          let r := Gobench.conn_Write c b in
          (<[i := Gobench.io_conn r]> conns,
           (rd, match Gobench.io_err r with None => wr + Gobench.io_n r | Some _ => wr end))
      | None => st
      end
  end.

Definition raw_run (ops : list Gobench.io_op) (st : list C * (Z * Z)) : list C * (Z * Z) :=
  fold_left raw_step ops st.

End Raw.

End Traffic.

(** * Properties *)

Import Gobench Client.

(** ** Facts about 64-bit arithmetic *)

Section Int64Facts.

Lemma wrap64_range z : in_int64 (wrap64 z).
Proof.
  unfold in_int64, wrap64, min_int64, max_int64.
  pose proof (Z.mod_pos_bound (z + 2 ^ 63) (2 ^ 64) ltac:(lia)). lia.
Qed.

Lemma wrap64_id z : in_int64 z → wrap64 z = z.
Proof.
  unfold in_int64, wrap64, min_int64, max_int64. intros Hz.
  rewrite Z.mod_small by lia. lia.
Qed.

Lemma wrap64_add_l a b : wrap64 (wrap64 a + b) = wrap64 (a + b).
Proof.
  unfold wrap64.
  replace ((a + 2 ^ 63) `mod` 2 ^ 64 - 2 ^ 63 + b + 2 ^ 63)
    with ((a + 2 ^ 63) `mod` 2 ^ 64 + b) by lia.
  rewrite Zplus_mod_idemp_l. f_equal. f_equal. lia.
Qed.

Lemma wrap64_add_r a b : wrap64 (a + wrap64 b) = wrap64 (a + b).
Proof. rewrite (Z.add_comm a), wrap64_add_l. f_equal. lia. Qed.

Lemma wrap64_add3_l a b c : wrap64 (wrap64 a + b + c) = wrap64 (a + b + c).
Proof. rewrite <- Z.add_assoc, wrap64_add_l. f_equal. lia. Qed.

Lemma wrap64_add3_m a b c : wrap64 (a + wrap64 b + c) = wrap64 (a + b + c).
Proof.
  replace (a + wrap64 b + c) with (wrap64 b + (a + c)) by lia.
  rewrite wrap64_add_l. f_equal. lia.
Qed.

Lemma add64_exact a b : in_int64 (a + b) → add64 a b = a + b.
Proof. apply wrap64_id. Qed.

Lemma incr_exact x : min_int64 ≤ x < max_int64 → incr x = x + 1.
Proof. intros Hx. apply wrap64_id. unfold in_int64. lia. Qed.

Lemma decr_exact x : min_int64 < x ≤ max_int64 → decr x = x - 1.
Proof. intros Hx. apply wrap64_id. unfold in_int64. lia. Qed.

Lemma incr_neq x : in_int64 x → incr x ≠ x.
Proof.
  unfold in_int64, min_int64, max_int64. intros Hx.
  destruct (decide (x = 2 ^ 63 - 1)) as [->|Hne]; [by vm_compute|].
  rewrite incr_exact; [lia|]. unfold min_int64, max_int64. lia.
Qed.

Lemma len64_nonneg {A} (l : list A) : 0 ≤ len64 l.
Proof. unfold len64. lia. Qed.

End Int64Facts.

(** ** MyConn and the throughput counters *)

Section MyConnFacts.
Context {C : Type} `{NetConn C}.

Lemma io_result_eta (r : io_result C) :
  IoResult (io_conn r) (io_buf r) (io_n r) (io_err r) = r.
Proof. by destruct r. Qed.

Lemma MyConn_Read_result conn b m : fst (MyConn_Read conn b m) = conn_Read conn b.
Proof. apply io_result_eta. Qed.

Lemma MyConn_Write_result conn b m : fst (MyConn_Write conn b m) = conn_Write conn b.
Proof. apply io_result_eta. Qed.

Lemma MyConn_Read_error conn b m :
  io_err (conn_Read conn b) ≠ None → snd (MyConn_Read conn b m) = m.
Proof. unfold MyConn_Read. simpl. by destruct (io_err _). Qed.

Lemma MyConn_Write_error conn b m :
  io_err (conn_Write conn b) ≠ None → snd (MyConn_Write conn b m) = m.
Proof. unfold MyConn_Write. simpl. by destruct (io_err _). Qed.

End MyConnFacts.

Section MyConnClaims.
Context {C : Type} `{NetConn C}.

(** C6. A [Read] or [Write] through [MyConn] hands the caller exactly what
    the wrapped connection returned (connection, buffer, count, error).
    When the call returned no error its count [n] is added to
    [readThroughput] (for [Read]) or [writeThroughput] (for [Write]) and the
    other counter is untouched: the new value is the [int64] sum, which is
    the exact sum whenever that fits. When the call returned an error,
    neither counter changes. *)
Theorem MyConn_counts_successful_transfers (conn : C) (b : list byte) (m : Meter) :
  let r := conn_Read conn b in
  let w := conn_Write conn b in
  let rd := MyConn_Read conn b m in
  let wr := MyConn_Write conn b m in
  (fst rd = r ∧ fst wr = w) ∧
  (io_err r = None →
     readThroughput (snd rd) = wrap64 (readThroughput m + io_n r) ∧
     writeThroughput (snd rd) = writeThroughput m ∧
     (in_int64 (readThroughput m + io_n r) →
        readThroughput (snd rd) = readThroughput m + io_n r)) ∧
  (io_err w = None →
     writeThroughput (snd wr) = wrap64 (writeThroughput m + io_n w) ∧
     readThroughput (snd wr) = readThroughput m ∧
     (in_int64 (writeThroughput m + io_n w) →
        writeThroughput (snd wr) = writeThroughput m + io_n w)) ∧
  (io_err r ≠ None → snd rd = m) ∧
  (io_err w ≠ None → snd wr = m).
Proof.
  intros r w rd wr. repeat split.
  - apply MyConn_Read_result.
  - apply MyConn_Write_result.
  - subst rd r. unfold MyConn_Read. simpl. by rewrite H0.
  - subst rd r. unfold MyConn_Read. simpl. by rewrite H0.
  - intros Hfit. subst rd r. unfold MyConn_Read. simpl. rewrite H0. simpl.
    by apply add64_exact.
  - subst wr w. unfold MyConn_Write. simpl. by rewrite H0.
  - subst wr w. unfold MyConn_Write. simpl. by rewrite H0.
  - intros Hfit. subst wr w. unfold MyConn_Write. simpl. rewrite H0. simpl.
    by apply add64_exact.
  - by apply MyConn_Read_error.
  - by apply MyConn_Write_error.
Qed.

(** C10. When the wrapped connection moves [n > 0] bytes and also returns an
    error, [MyConn] passes the [n] bytes and the error on to the caller and
    leaves [readThroughput] (for [Read]) and [writeThroughput] (for [Write])
    as they were: the [n] bytes are missing from the counter. *)
Theorem MyConn_drops_bytes_returned_with_error (conn : C) (b : list byte) (m : Meter) :
  (io_err (conn_Read conn b) ≠ None → 0 < io_n (conn_Read conn b) →
     0 < io_n (fst (MyConn_Read conn b m)) ∧
     io_buf (fst (MyConn_Read conn b m)) = io_buf (conn_Read conn b) ∧
     snd (MyConn_Read conn b m) = m) ∧
  (io_err (conn_Write conn b) ≠ None → 0 < io_n (conn_Write conn b) →
     0 < io_n (fst (MyConn_Write conn b m)) ∧
     snd (MyConn_Write conn b m) = m).
Proof.
  split; intros Herr Hn.
  - rewrite MyConn_Read_result. by rewrite MyConn_Read_error.
  - rewrite MyConn_Write_result. by rewrite MyConn_Write_error.
Qed.

End MyConnClaims.

Lemma MyConn_counts_successful_transfers_witness :
  (io_err (conn_Read Sim.open_conn Sim.buf3) = None ∧
   in_int64 (readThroughput new_Meter + io_n (conn_Read Sim.open_conn Sim.buf3)) ∧
   readThroughput (snd (MyConn_Read Sim.open_conn Sim.buf3 new_Meter)) = 3) ∧
  (io_err (conn_Write Sim.open_conn Sim.buf3) = None ∧
   in_int64 (writeThroughput new_Meter + io_n (conn_Write Sim.open_conn Sim.buf3)) ∧
   writeThroughput (snd (MyConn_Write Sim.open_conn Sim.buf3 new_Meter)) = 3) ∧
  (io_err (conn_Read Sim.closing_conn Sim.buf3) ≠ None ∧
   snd (MyConn_Read Sim.closing_conn Sim.buf3 new_Meter) = new_Meter).
Proof.
  pose proof (MyConn_counts_successful_transfers Sim.open_conn Sim.buf3 new_Meter)
    as (_ & Hr & Hw & _ & _).
  pose proof (MyConn_counts_successful_transfers Sim.closing_conn Sim.buf3 new_Meter)
    as (_ & _ & _ & He & _).
  assert (Hfit : in_int64 3) by (unfold in_int64, min_int64, max_int64; lia).
  split; [|split].
  - split; [reflexivity|]. split; [exact Hfit|].
    destruct (Hr eq_refl) as (_ & _ & Hexact). exact (Hexact Hfit).
  - split; [reflexivity|]. split; [exact Hfit|].
    destruct (Hw eq_refl) as (_ & _ & Hexact). exact (Hexact Hfit).
  - assert (Herr : io_err (conn_Read Sim.closing_conn Sim.buf3) ≠ None) by (simpl; discriminate).
    split; [exact Herr|]. exact (He Herr).
Defined.

Lemma MyConn_drops_bytes_returned_with_error_witness :
  (io_err (conn_Read Sim.closing_conn Sim.buf3) ≠ None ∧
   0 < io_n (conn_Read Sim.closing_conn Sim.buf3) ∧
   io_n (fst (MyConn_Read Sim.closing_conn Sim.buf3 new_Meter)) = 2 ∧
   readThroughput (snd (MyConn_Read Sim.closing_conn Sim.buf3 new_Meter)) = 0) ∧
  (io_err (conn_Write Sim.closing_conn Sim.buf3) ≠ None ∧
   0 < io_n (conn_Write Sim.closing_conn Sim.buf3) ∧
   io_n (fst (MyConn_Write Sim.closing_conn Sim.buf3 new_Meter)) = 1 ∧
   writeThroughput (snd (MyConn_Write Sim.closing_conn Sim.buf3 new_Meter)) = 0).
Proof.
  pose proof (MyConn_drops_bytes_returned_with_error Sim.closing_conn Sim.buf3 new_Meter)
    as (Hr & Hw).
  assert (Her : io_err (conn_Read Sim.closing_conn Sim.buf3) ≠ None) by (simpl; discriminate).
  assert (Hew : io_err (conn_Write Sim.closing_conn Sim.buf3) ≠ None) by (simpl; discriminate).
  assert (Hnr : 0 < io_n (conn_Read Sim.closing_conn Sim.buf3)) by (simpl; lia).
  assert (Hnw : 0 < io_n (conn_Write Sim.closing_conn Sim.buf3)) by (simpl; lia).
  split.
  - split; [exact Her|]. split; [exact Hnr|].
    destruct (Hr Her Hnr) as (_ & _ & Hm). split; [reflexivity|]. by rewrite Hm.
  - split; [exact Hew|]. split; [exact Hnw|].
    destruct (Hw Hew Hnw) as (_ & Hm). split; [reflexivity|]. by rewrite Hm.
Defined.

Section Monotone.
Context {C : Type} `{NetConnContract C}.

(** A counter below [hi] stays an exact sum when at most [n <= room] is
    added. *)
Lemma add64_within x n room :
  0 ≤ x → 0 ≤ n ≤ room → x + room ≤ max_int64 →
  x ≤ add64 x n ≤ x + room.
Proof.
  intros Hx Hn Hroom. rewrite add64_exact; [lia|].
  unfold in_int64, min_int64, max_int64 in *. lia.
Qed.

Lemma io_step_bounds conns m o :
  0 ≤ readThroughput m → 0 ≤ writeThroughput m →
  readThroughput m + len64 (op_buf o) ≤ max_int64 →
  writeThroughput m + len64 (op_buf o) ≤ max_int64 →
  let m' := snd (io_step (conns, m) o) in
  readThroughput m ≤ readThroughput m' ≤ readThroughput m + len64 (op_buf o) ∧
  writeThroughput m ≤ writeThroughput m' ≤ writeThroughput m + len64 (op_buf o).
Proof.
  intros Hr Hw Hrr Hwr. pose proof (len64_nonneg (op_buf o)) as Hlen.
  destruct o as [i b|i b]; simpl in *; destruct (conns !! i) as [c|]; simpl; try lia.
  - pose proof (conn_Read_n c b) as Hn.
    destruct (io_err (conn_Read c b)); simpl; [lia|].
    split; [by apply add64_within|lia].
  - pose proof (conn_Write_n c b) as Hn.
    destruct (io_err (conn_Write c b)); simpl; [lia|].
    split; [lia|by apply add64_within].
Qed.

Lemma ops_room_cons o ops : ops_room (o :: ops) = len64 (op_buf o) + ops_room ops.
Proof. reflexivity. Qed.

Lemma ops_room_nonneg ops : 0 ≤ ops_room ops.
Proof.
  induction ops as [|o ops IH]; [by vm_compute|].
  rewrite ops_room_cons. pose proof (len64_nonneg (op_buf o)). lia.
Qed.

Lemma io_run_bounds ops : ∀ conns m,
  0 ≤ readThroughput m → 0 ≤ writeThroughput m →
  readThroughput m + ops_room ops ≤ max_int64 →
  writeThroughput m + ops_room ops ≤ max_int64 →
  let m' := snd (io_run ops (conns, m)) in
  readThroughput m ≤ readThroughput m' ≤ readThroughput m + ops_room ops ∧
  writeThroughput m ≤ writeThroughput m' ≤ writeThroughput m + ops_room ops.
Proof.
  induction ops as [|o ops IH]; intros conns m Hr Hw Hrr Hwr.
  { change (ops_room []) with 0. simpl. lia. }
  rewrite ops_room_cons in *.
  pose proof (ops_room_nonneg ops) as Hroom.
  pose proof (len64_nonneg (op_buf o)) as Hlen.
  pose proof (io_step_bounds conns m o Hr Hw ltac:(lia) ltac:(lia)) as Hstep.
  cbv zeta in *. unfold io_run in *. cbn [fold_left].
  destruct (io_step (conns, m) o) as [conns1 m1] eqn:Hst.
  cbn [snd] in Hstep.
  specialize (IH conns1 m1 ltac:(lia) ltac:(lia) ltac:(lia) ltac:(lia)).
  lia.
Qed.

Lemma ops_room_app ops1 ops2 : ops_room (ops1 ++ ops2) = ops_room ops1 + ops_room ops2.
Proof.
  induction ops1 as [|o ops1 IH]; [reflexivity|].
  rewrite <- app_comm_cons, !ops_room_cons, IH. lia.
Qed.

(** C7. Take any pool of wrapped connections that keep the contract of
    [io.Reader] and [io.Writer], counters that start non-negative, and any
    sequence of [Read] and [Write] calls on connections of the pool whose
    buffers together leave the counters within [int64]. Then at every
    point of the run [readThroughput] and [writeThroughput] are at least
    what they were at any earlier point: no call decreases either. (Nothing
    else writes the counters: [attempt] has no access to them and
    [printResults] only reads them.) *)
Theorem throughput_counters_never_decrease (ops1 ops2 : list io_op)
    (conns : list C) (m : Meter) :
  0 ≤ readThroughput m → 0 ≤ writeThroughput m →
  readThroughput m + ops_room (ops1 ++ ops2) ≤ max_int64 →
  writeThroughput m + ops_room (ops1 ++ ops2) ≤ max_int64 →
  let earlier := snd (io_run ops1 (conns, m)) in
  let later := snd (io_run (ops1 ++ ops2) (conns, m)) in
  readThroughput earlier ≤ readThroughput later ∧
  writeThroughput earlier ≤ writeThroughput later.
Proof.
  intros Hr Hw Hrr Hwr earlier later. subst earlier later.
  rewrite ops_room_app in Hrr, Hwr.
  pose proof (ops_room_nonneg ops1) as Hroom1.
  pose proof (ops_room_nonneg ops2) as Hroom2.
  pose proof (io_run_bounds ops1 conns m Hr Hw ltac:(lia) ltac:(lia)) as Hfst.
  cbv zeta in Hfst. unfold io_run in *. rewrite fold_left_app.
  destruct (fold_left io_step ops1 (conns, m)) as [conns1 m1]. cbn [snd] in *.
  pose proof (io_run_bounds ops2 conns1 m1 ltac:(lia) ltac:(lia) ltac:(lia) ltac:(lia))
    as Hsnd.
  cbv zeta in Hsnd. unfold io_run in Hsnd. lia.
Qed.

End Monotone.

#[global] Instance conn_NetConnContract : NetConnContract Sim.conn.
Proof.
  split; intros c b; simpl; unfold len64; lia.
Qed.

Lemma throughput_counters_never_decrease_witness :
  (0 ≤ readThroughput new_Meter ∧ 0 ≤ writeThroughput new_Meter ∧
   readThroughput new_Meter + ops_room (Sim.ops1 ++ Sim.ops2) ≤ max_int64 ∧
   writeThroughput new_Meter + ops_room (Sim.ops1 ++ Sim.ops2) ≤ max_int64) ∧
  readThroughput (snd (io_run Sim.ops1 (Sim.pool, new_Meter)))
    ≤ readThroughput (snd (io_run (Sim.ops1 ++ Sim.ops2) (Sim.pool, new_Meter))) ∧
  writeThroughput (snd (io_run Sim.ops1 (Sim.pool, new_Meter)))
    ≤ writeThroughput (snd (io_run (Sim.ops1 ++ Sim.ops2) (Sim.pool, new_Meter))).
Proof.
  assert (Hpre : 0 ≤ readThroughput new_Meter ∧ 0 ≤ writeThroughput new_Meter ∧
    readThroughput new_Meter + ops_room (Sim.ops1 ++ Sim.ops2) ≤ max_int64 ∧
    writeThroughput new_Meter + ops_room (Sim.ops1 ++ Sim.ops2) ≤ max_int64).
  { vm_compute. repeat split; discriminate. }
  split; [exact Hpre|].
  destruct Hpre as (H1 & H2 & H3 & H4).
  exact (throughput_counters_never_decrease Sim.ops1 Sim.ops2 Sim.pool new_Meter
           H1 H2 H3 H4).
Defined.

(** ** The worker of cmd/gobench *)

Section WorkerFacts.
Context {W : Type} `{FastHTTP W}.

(** What one attempt does to the counters, by the three outcomes. *)
Lemma attempt_cases cfg (w : W) (r : Result) tmpUrl :
  let resp := snd (Do w (build_request cfg tmpUrl)) in
  let r' := snd (attempt cfg (w, r) tmpUrl) in
  fst (attempt cfg (w, r) tmpUrl) = fst (Do w (build_request cfg tmpUrl)) ∧
  requests r' = incr (requests r) ∧
  match err resp with
  | Some _ =>
      networkFailed r' = incr (networkFailed r) ∧
      success r' = success r ∧ badFailed r' = badFailed r
  | None =>
      if (200 <=? statusCode resp) && (statusCode resp <=? 226)
      then success r' = incr (success r) ∧
           networkFailed r' = networkFailed r ∧ badFailed r' = badFailed r
      else badFailed r' = incr (badFailed r) ∧
           networkFailed r' = networkFailed r ∧ success r' = success r
  end.
Proof.
  unfold attempt. cbv zeta.
  destruct (Do w (build_request cfg tmpUrl)) as [w' resp]. cbn [fst snd].
  destruct (err resp); [done|].
  by destruct ((200 <=? statusCode resp) && (statusCode resp <=? 226)).
Qed.

(** C3. One attempt of the worker always increments [requests]. If [Do]
    returned an error it increments [networkFailed] and nothing else. If
    [Do] returned a response, it increments [success] and nothing else when
    the status code is in [200,226], and [badFailed] and nothing else for
    any other status code. *)
Theorem attempt_classifies (cfg : configuration) (w : W) (r : Result) (tmpUrl : string) :
  let resp := snd (Do w (build_request cfg tmpUrl)) in
  let r' := snd (attempt cfg (w, r) tmpUrl) in
  requests r' = incr (requests r) ∧
  (err resp = None → 200 ≤ statusCode resp ≤ 226 →
     success r' = incr (success r) ∧
     badFailed r' = badFailed r ∧ networkFailed r' = networkFailed r) ∧
  (err resp = None → ¬ (200 ≤ statusCode resp ≤ 226) →
     badFailed r' = incr (badFailed r) ∧
     success r' = success r ∧ networkFailed r' = networkFailed r) ∧
  (err resp ≠ None →
     networkFailed r' = incr (networkFailed r) ∧
     success r' = success r ∧ badFailed r' = badFailed r).
Proof.
  intros resp r'. pose proof (attempt_cases cfg w r tmpUrl) as (_ & Hreq & Hcase).
  fold resp r' in Hreq, Hcase.
  split; [exact Hreq|]. split; [|split].
  - intros Herr Hsc. rewrite Herr in Hcase.
    replace ((200 <=? statusCode resp) && (statusCode resp <=? 226)) with true in Hcase
      by (symmetry; apply andb_true_iff; lia).
    tauto.
  - intros Herr Hsc. rewrite Herr in Hcase.
    replace ((200 <=? statusCode resp) && (statusCode resp <=? 226)) with false in Hcase
      by (symmetry; apply andb_false_iff; lia).
    tauto.
  - intros Herr. destruct (err resp); [tauto|done].
Qed.

Lemma attempt_balanced cfg (st : W * Result) tmpUrl :
  Result_balanced (snd st) → Result_balanced (snd (attempt cfg st tmpUrl)).
Proof.
  destruct st as [w r]. unfold Result_balanced. cbn [snd]. intros Hbal.
  pose proof (attempt_cases cfg w r tmpUrl) as (_ & Hreq & Hcase). cbv zeta in *.
  rewrite Hreq, Hbal. unfold incr, add64. rewrite wrap64_add_l.
  destruct (err _).
  - destruct Hcase as (-> & -> & ->). unfold incr, add64.
    rewrite wrap64_add3_m. f_equal. lia.
  - destruct ((200 <=? _) && _); destruct Hcase as (-> & -> & ->); unfold incr, add64.
    + rewrite wrap64_add3_l. f_equal. lia.
    + rewrite wrap64_add_r. f_equal. lia.
Qed.

Lemma attempts_balanced cfg us : ∀ st : W * Result,
  Result_balanced (snd st) → Result_balanced (snd (fold_left (attempt cfg) us st)).
Proof.
  induction us as [|u us IH]; intros st Hbal; [done|].
  cbn [fold_left]. apply IH. by apply attempt_balanced.
Qed.

Lemma client_balanced fuel cfg : ∀ st st' : W * Result,
  Result_balanced (snd st) → client fuel cfg st = Some st' → Result_balanced (snd st').
Proof.
  induction fuel as [|fuel IH]; intros st st' Hbal Hrun; [done|].
  cbn [client] in Hrun. destruct (keep_going cfg (snd st)).
  - eapply IH; [|exact Hrun]. by apply attempts_balanced.
  - by inversion Hrun; subst.
Qed.

(** From a fresh [Result], fewer than 2^63 attempts leave every counter
    non-negative and [requests] equal to their number. *)
Lemma attempts_count cfg us : ∀ st : W * Result,
  let r := snd st in
  let r' := snd (fold_left (attempt cfg) us st) in
  0 ≤ requests r → requests r + len64 us ≤ max_int64 →
  requests r' = requests r + len64 us.
Proof.
  induction us as [|u us IH]; intros [w r]; cbv zeta; cbn [snd fold_left].
  { unfold len64. simpl. lia. }
  unfold len64 in *. rewrite length_cons. intros Hr Hfit.
  pose proof (attempt_cases cfg w r u) as (_ & Hreq & _). cbv zeta in Hreq.
  destruct (attempt cfg (w, r) u) as [w1 r1] eqn:Hat. cbn [snd] in *.
  rewrite incr_exact in Hreq by (unfold min_int64, max_int64 in *; lia).
  specialize (IH (w1, r1)). cbv zeta in IH. cbn [snd] in IH.
  rewrite IH; lia.
Qed.

Lemma pass_count cfg (st : W * Result) :
  0 ≤ requests (snd st) → requests (snd st) + len64 (urls cfg) ≤ max_int64 →
  requests (snd (pass cfg st)) = requests (snd st) + len64 (urls cfg).
Proof. apply attempts_count. Qed.

Lemma passes_needed_step a n k :
  0 < k → a < n → passes_needed a n k = passes_needed (a + k) n k + 1.
Proof.
  intros Hk Han. unfold passes_needed.
  destruct (Z.ltb_spec a n) as [_|?]; [|lia].
  destruct (Z.ltb_spec (a + k) n) as [Hlt|Hge].
  - replace (n - a + k - 1) with (n - (a + k) + k - 1 + 1 * k) by lia.
    by rewrite Z.div_add by lia.
  - symmetry. apply (Z.div_unique _ _ 1 (n - a - 1)); lia.
Qed.

Lemma passes_needed_nonneg a n k : 0 < k → 0 ≤ passes_needed a n k.
Proof.
  intros Hk. unfold passes_needed. destruct (Z.ltb_spec a n); [|lia].
  apply Z.div_pos; lia.
Qed.

(** In count mode the loop ends, after [passes_needed] passes. *)
Lemma client_by_count cfg fuel : ∀ st : W * Result,
  let k := len64 (urls cfg) in
  let p := passes_needed (requests (snd st)) (requestCount cfg) k in
  requestsDuration cfg = -1 → 0 < k → 0 ≤ requests (snd st) →
  requests (snd st) + p * k ≤ max_int64 →
  (Z.to_nat p < fuel)%nat →
  ∃ st', client fuel cfg st = Some st' ∧
         requests (snd st') = requests (snd st) + p * k.
Proof.
  induction fuel as [|fuel IH]; intros st k p Hmode Hk Ha Hfit Hfuel; [lia|].
  cbn [client]. unfold keep_going. rewrite Hmode. cbn [Z.eqb negb Pos.eqb].
  rewrite orb_false_r.
  destruct (Z.ltb_spec (requests (snd st)) (requestCount cfg)) as [Hlt|Hge].
  - pose proof (passes_needed_step _ _ k Hk Hlt) as Hstep. fold p in Hstep.
    pose proof (passes_needed_nonneg (requests (snd st) + k) (requestCount cfg) k Hk) as Hp1.
    assert (requests (snd (pass cfg st)) = requests (snd st) + k) as Hpass
      by (apply pass_count; [done|fold k; nia]).
    destruct (IH (pass cfg st)) as (st' & Hrun & Hreq); try done.
    + rewrite Hpass. lia.
    + rewrite Hpass. fold k. nia.
    + rewrite Hpass. fold k. lia.
    + exists st'. split; [done|]. rewrite Hreq, Hpass. fold k. lia.
  - exists st. split; [done|]. subst p. unfold passes_needed.
    destruct (Z.ltb_spec (requests (snd st)) (requestCount cfg)); lia.
Qed.

(** In duration mode the loop never leaves by itself. *)
Lemma client_by_duration cfg fuel : ∀ st : W * Result,
  requestsDuration cfg ≠ -1 → client fuel cfg st = None.
Proof.
  induction fuel as [|fuel IH]; intros st Hmode; [done|].
  cbn [client]. unfold keep_going.
  destruct (Z.eqb_spec (requestsDuration cfg) (-1)) as [?|_]; [done|].
  rewrite orb_true_r. by apply IH.
Qed.

End WorkerFacts.

Lemma attempt_classifies_witness :
  (err (snd (Do [Sim.ok 204] (build_request Sim.two_urls_three_requests "http://localhost/a")))
     = None ∧
   200 ≤ statusCode (snd (Do [Sim.ok 204]
            (build_request Sim.two_urls_three_requests "http://localhost/a"))) ≤ 226 ∧
   success (snd (attempt Sim.two_urls_three_requests ([Sim.ok 204], new_Result)
                   "http://localhost/a")) = 1) ∧
  (err (snd (Do [Sim.ok 227] (build_request Sim.two_urls_three_requests "http://localhost/a")))
     = None ∧
   ¬ (200 ≤ statusCode (snd (Do [Sim.ok 227]
            (build_request Sim.two_urls_three_requests "http://localhost/a"))) ≤ 226) ∧
   badFailed (snd (attempt Sim.two_urls_three_requests ([Sim.ok 227], new_Result)
                     "http://localhost/a")) = 1) ∧
  (err (snd (Do [Sim.refused] (build_request Sim.two_urls_three_requests "http://localhost/a")))
     ≠ None ∧
   networkFailed (snd (attempt Sim.two_urls_three_requests ([Sim.refused], new_Result)
                         "http://localhost/a")) = 1).
Proof.
  split; [|split].
  - assert (Hsc : 200 ≤ 204 ≤ 226) by lia.
    split; [reflexivity|]. split; [exact Hsc|].
    destruct (attempt_classifies Sim.two_urls_three_requests [Sim.ok 204] new_Result
                "http://localhost/a") as (_ & Hok & _).
    destruct (Hok eq_refl Hsc) as (-> & _). reflexivity.
  - assert (Hsc : ¬ (200 ≤ 227 ≤ 226)) by lia.
    split; [reflexivity|]. split; [exact Hsc|].
    destruct (attempt_classifies Sim.two_urls_three_requests [Sim.ok 227] new_Result
                "http://localhost/a") as (_ & _ & Hbad & _).
    destruct (Hbad eq_refl Hsc) as (-> & _). reflexivity.
  - assert (Herr : Some "connection refused"%string ≠ None) by discriminate.
    split; [exact Herr|].
    destruct (attempt_classifies Sim.two_urls_three_requests [Sim.refused] new_Result
                "http://localhost/a") as (_ & _ & _ & Hnet).
    destruct (Hnet Herr) as (-> & _). reflexivity.
Defined.

(** ** The conversion of the elapsed time to whole seconds *)

Section SecondsFacts.

Lemma half_even_bounds (n d : Z) :
  0 <= n -> 0 < d ->
  n `div` d <= Float64.half_even n d /\ 2 * d * Float64.half_even n d <= 2 * n + d.
Proof.
  intros Hn Hd. unfold Float64.half_even.
  pose proof (Z.div_mod n d ltac:(lia)) as E.
  pose proof (Z.mod_pos_bound n d Hd) as B.
  set (q := n `div` d) in *. set (r := n `mod` d) in *.
  destruct (Z.ltb_spec (2 * r) d); [split; nia|].
  destruct (Z.ltb_spec d (2 * r)); [split; nia|].
  destruct (Z.even q); split; nia.
Qed.

Lemma exponent_small (B n d : Z) :
  0 <= B <= 52 -> 0 < n -> 0 < d -> n < 2 ^ B * d ->
  Float64.exponent n d <= B - 53.
Proof.
  intros HB Hn Hd Hlt. unfold Float64.exponent.
  pose proof (Z.log2_spec n Hn) as [Ha _].
  pose proof (Z.log2_spec d Hd) as [_ Hb].
  pose proof (Z.log2_nonneg n) as Ha0.
  pose proof (Z.log2_nonneg d) as Hb0.
  set (a := Z.log2 n) in *. set (b := Z.log2 d) in *.
  assert (Hab : a <= B + b).
  { destruct (Z.le_gt_cases a (B + b)) as [|Hgt]; [done|exfalso].
    assert (2 ^ (B + Z.succ b) <= 2 ^ a) by (apply Z.pow_le_mono_r; lia).
    rewrite Z.pow_add_r in H by lia.
    assert (0 < 2 ^ B) by (apply Z.pow_pos_nonneg; lia).
    nia. }
  assert (He0 : a - b - 52 <= 0) by lia.
  destruct (Z.leb_spec (a - b - 52) 0) as [_|]; [|lia].
  destruct (Z.ltb_spec (n * 2 ^ (- (a - b - 52))) (2 ^ 52 * d)) as [|Hge]; [lia|].
  destruct (Z.le_gt_cases (a - b - 52) (B - 53)) as [|Hgt]; [done|exfalso].
  assert (HP : 2 ^ (- (a - b - 52)) <= 2 ^ (52 - B)) by (apply Z.pow_le_mono_r; lia).
  assert (HBB : 2 ^ (52 - B) * 2 ^ B = 2 ^ 52) by (rewrite <- Z.pow_add_r by lia; f_equal; lia).
  assert (0 < 2 ^ (- (a - b - 52))) by (apply Z.pow_pos_nonneg; lia).
  assert (0 < 2 ^ B) by (apply Z.pow_pos_nonneg; lia).
  assert (0 < 2 ^ (52 - B)) by (apply Z.pow_pos_nonneg; lia).
  assert (n * 2 ^ (- (a - b - 52)) <= n * 2 ^ (52 - B)) by nia.
  assert (n * 2 ^ (52 - B) < 2 ^ B * d * 2 ^ (52 - B)) by nia.
  assert (2 ^ B * d * 2 ^ (52 - B) = 2 ^ 52 * d) by (rewrite <- HBB; ring).
  lia.
Qed.

Lemma round_small (B n d : Z) :
  0 <= B <= 52 -> 0 < n -> 0 < d -> n < 2 ^ B * d ->
  exists k, 53 - B <= k /\
    Float64.round n d = (Float64.half_even (n * 2 ^ k) d, 2 ^ k).
Proof.
  intros HB Hn Hd Hlt. pose proof (exponent_small B n d HB Hn Hd Hlt) as He.
  exists (- Float64.exponent n d). split; [lia|].
  unfold Float64.round.
  destruct (Z.eqb_spec n 0); [lia|].
  destruct (Z.leb_spec (Float64.exponent n d) 0); [done|lia].
Qed.

Lemma of_int64_exact (z : Z) :
  0 <= z < 2 ^ 52 ->
  exists P, 0 < P /\ Float64.of_int64 z = (z * P, P).
Proof.
  intros Hz. unfold Float64.of_int64.
  destruct (Z.eq_dec z 0) as [->|Hz0]; [by exists 1|].
  destruct (round_small 52 z 1 ltac:(lia) ltac:(lia) ltac:(lia) ltac:(lia))
    as (k & Hk & ->).
  exists (2 ^ k). split; [apply Z.pow_pos_nonneg; lia|].
  f_equal. unfold Float64.half_even.
  rewrite Z.div_1_r, Z.mod_1_r. done.
Qed.

Lemma pow2_ge (a k : Z) : 0 <= a <= k -> 2 ^ a <= 2 ^ k.
Proof. intros. apply Z.pow_le_mono_r; lia. Qed.

(** The fraction of a second, as [Seconds] computes it, stays more than
    2^-30 below 1. *)
Lemma fraction_below_one (nsec P2 P9 : Z) :
  0 <= nsec < 1000000000 -> 0 < P2 -> 0 < P9 ->
  exists mq Pq, 0 <= mq /\ 0 < Pq /\ Pq < 2 ^ 30 * (Pq - mq) /\
    Float64.div (nsec * P2, P2) (1000000000 * P9, P9) = (mq, Pq).
Proof.
  intros Hn HP2 HP9. unfold Float64.div. cbn [fst snd].
  destruct (Z.eq_dec nsec 0) as [->|Hn0].
  { exists 0, 1. by rewrite !Z.mul_0_l. }
  assert (Hc : 0 < P2 * P9) by nia.
  set (c := P2 * P9) in *.
  replace (nsec * P2 * P9) with (nsec * c) by (unfold c; ring).
  replace (P2 * (1000000000 * P9)) with (1000000000 * c) by (unfold c; ring).
  destruct (round_small 0 (nsec * c) (1000000000 * c)
              ltac:(lia) ltac:(nia) ltac:(nia) ltac:(nia)) as (k & Hk & ->).
  pose proof (half_even_bounds (nsec * c * 2 ^ k) (1000000000 * c)) as Hb.
  assert (HP : 2 ^ 53 <= 2 ^ k) by (apply pow2_ge; lia).
  set (P := 2 ^ k) in *.
  assert (0 < P) by lia.
  destruct Hb as [Hlo Hhi]; [nia|nia|].
  set (m := Float64.half_even (nsec * c * P) (1000000000 * c)) in *.
  exists m, P. split; [|split; [done|split; [|done]]].
  - assert (0 <= (nsec * c * P) `div` (1000000000 * c)) by (apply Z.div_pos; nia). lia.
  - (* 2 * S * c * m <= 2 * nsec * c * P + S * c, so 2 S m <= 2 nsec P + S *)
    assert (2 * 1000000000 * m <= 2 * nsec * P + 1000000000) by nia.
    change (2 ^ 30) with 1073741824. change (2 ^ 53) with 9007199254740992 in HP.
    nia.
Qed.

Lemma whole_seconds_exact (d : Z) :
  0 <= d < 2 ^ 24 * Second -> whole_seconds d = d `div` Second.
Proof.
  intros Hd. unfold whole_seconds, Seconds.
  rewrite Z.abs_eq by lia.
  rewrite Z.quot_div_nonneg, Z.rem_mod_nonneg by (unfold Second; lia).
  pose proof (Z.div_mod d Second ltac:(done)) as Ed.
  pose proof (Z.mod_pos_bound d Second ltac:(done)) as Bn.
  assert (Bs : 0 <= d `div` Second < 2 ^ 24).
  { split; [apply Z.div_pos; unfold Second; lia|].
    apply Z.div_lt_upper_bound; unfold Second in *; lia. }
  set (sec := d `div` Second) in *. set (nsec := d `mod` Second) in *.
  destruct (Z.eq_dec d 0) as [->|Hd0]; [done|].
  rewrite Z.sgn_pos, Z.mul_1_l by lia.
  destruct (of_int64_exact sec ltac:(change (2 ^ 24) with 16777216 in Bs; change (2 ^ 52) with 4503599627370496; lia)) as (P1 & HP1 & ->).
  destruct (of_int64_exact nsec ltac:(unfold Second in Bn; change (2 ^ 52) with 4503599627370496; lia)) as (P2 & HP2 & ->).
  destruct (of_int64_exact 1000000000 ltac:(change (2 ^ 52) with 4503599627370496; lia)) as (P9 & HP9 & ->).
  destruct (fraction_below_one nsec P2 P9 ltac:(unfold Second in Bn; lia) HP2 HP9)
    as (mq & Pq & Hmq & HPq & Hgap & ->).
  unfold Float64.add, Float64.to_int64. cbn [fst snd].
  set (N := sec * P1 * Pq + mq * P1). set (D := P1 * Pq).
  assert (HD : 0 < D) by (unfold D; nia).
  assert (HlowN : sec * D <= N) by (unfold N, D; nia).
  assert (HupN : N < (sec + 1) * D).
  { unfold N, D. change (2 ^ 30) with 1073741824 in Hgap. nia. }
  destruct (Z.eq_dec N 0) as [HN0|HN0].
  { rewrite HN0. cbn. destruct (Z.eq_dec sec 0) as [|Hs]; [by symmetry|exfalso].
    assert (0 < sec * D) by (apply Z.mul_pos_pos; lia). lia. }
  destruct (round_small 24 N D ltac:(lia) ltac:(nia) HD) as (k & Hk & ->).
  { change (2 ^ 24) with 16777216 in *. nia. }
  cbn [fst snd].
  assert (HP : 2 ^ 29 <= 2 ^ k) by (apply pow2_ge; lia).
  set (P := 2 ^ k) in *.
  destruct (half_even_bounds (N * P) D ltac:(nia) HD) as [Hlo Hhi].
  set (m := Float64.half_even (N * P) D) in *.
  symmetry. apply Z.div_unique with (r := m - sec * P); [|lia].
  left. split.
  - assert (sec * P <= (N * P) `div` D); [|lia].
    apply Z.div_le_lower_bound; [done|]. nia.
  - (* 2 D m <= 2 N P + D, D < 2 P (D (sec+1) - N) *)
    change (2 ^ 30) with 1073741824 in Hgap. change (2 ^ 29) with 536870912 in HP.
    assert (D < 2 * P * ((sec + 1) * D - N)).
    { replace ((sec + 1) * D - N) with (P1 * (Pq - mq)) by (unfold N, D; ring).
      unfold D. nia. }
    nia.
Qed.

End SecondsFacts.

(** ** printResults *)

Section ReportFacts.

Lemma sums_wrap (l : list (nat * Result)) :
  let sums := foldr (uncurry accumulate) new_Result l in
  requests sums = wrap64 (foldr Z.add 0 (requests ∘ snd <$> l)) ∧
  success sums = wrap64 (foldr Z.add 0 (success ∘ snd <$> l)) ∧
  networkFailed sums = wrap64 (foldr Z.add 0 (networkFailed ∘ snd <$> l)) ∧
  badFailed sums = wrap64 (foldr Z.add 0 (badFailed ∘ snd <$> l)).
Proof.
  induction l as [|[i r] l IH]; [by vm_compute|].
  cbn [foldr fmap list_fmap uncurry fst snd compose accumulate requests success
       networkFailed badFailed] in *.
  destruct IH as (-> & -> & -> & ->). unfold add64.
  rewrite !wrap64_add_l. repeat split; f_equal; lia.
Qed.

Lemma printResults_sums results m since :
  let rep := printResults results m since in
  rep_requests rep = wrap64 (total requests results) ∧
  rep_success rep = wrap64 (total success results) ∧
  rep_networkFailed rep = wrap64 (total networkFailed results) ∧
  rep_badFailed rep = wrap64 (total badFailed results).
Proof.
  unfold printResults, total. cbn [rep_requests rep_success rep_networkFailed rep_badFailed].
  rewrite map_fold_foldr. apply sums_wrap.
Qed.

Lemma sumZ_perm (l1 l2 : list Z) : l1 ≡ₚ l2 → foldr Z.add 0 l1 = foldr Z.add 0 l2.
Proof. induction 1; simpl; lia. Qed.

(** Go ranges over a map in no particular order; the sums do not depend
    on it. *)
Lemma sums_any_order (results : gmap nat Result) (l : list (nat * Result)) :
  l ≡ₚ map_to_list results →
  foldr (uncurry accumulate) new_Result l = map_fold accumulate new_Result results.
Proof.
  intros Hperm. rewrite map_fold_foldr.
  pose proof (sums_wrap l) as (Hq & Hs & Hn & Hb).
  pose proof (sums_wrap (map_to_list results)) as (Hq' & Hs' & Hn' & Hb').
  cbv zeta in *.
  destruct (foldr (uncurry accumulate) new_Result l) as [q su nf bf].
  destruct (foldr (uncurry accumulate) new_Result (map_to_list results))
    as [q' su' nf' bf'].
  cbn [requests success networkFailed badFailed] in *.
  rewrite Hq, Hs, Hn, Hb, Hq', Hs', Hn', Hb'.
  by rewrite !(sumZ_perm _ _ (fmap_Permutation _ _ _ Hperm)).
Qed.

Lemma elapsed_max since :
  0 ≤ since < 2 ^ 24 * Second →
  (if whole_seconds since =? 0 then 1 else whole_seconds since)
  = Z.max 1 (since `div` Second).
Proof.
  intros Hs. rewrite whole_seconds_exact by done.
  pose proof (Z.div_pos since Second ltac:(lia) ltac:(unfold Second; lia)).
  destruct (Z.eqb_spec (since `div` Second) 0); lia.
Qed.

(** C5. [printResults] reports, for each of [requests], [success],
    [networkFailed] and [badFailed], the [int64] sum of that counter over
    all results of the map, which is the exact sum whenever that fits;
    for an elapsed time that is not negative and below 2^24 seconds (some
    194 days) it reports [max(1, whole seconds elapsed)] as the test
    time. The three rates are the summed [success], [readThroughput] and
    [writeThroughput], each divided by the reported test time with Go's
    integer division. *)
Theorem printResults_report (results : gmap nat Result) (m : Meter) (since : Z) :
  0 ≤ since < 2 ^ 24 * Second →
  let rep := printResults results m since in
  (rep_requests rep = wrap64 (total requests results) ∧
   rep_success rep = wrap64 (total success results) ∧
   rep_networkFailed rep = wrap64 (total networkFailed results) ∧
   rep_badFailed rep = wrap64 (total badFailed results)) ∧
  (in_int64 (total requests results) → rep_requests rep = total requests results) ∧
  (in_int64 (total success results) → rep_success rep = total success results) ∧
  (in_int64 (total networkFailed results) →
     rep_networkFailed rep = total networkFailed results) ∧
  (in_int64 (total badFailed results) → rep_badFailed rep = total badFailed results) ∧
  rep_elapsed rep = Z.max 1 (since `div` Second) ∧
  rep_rate rep = rep_success rep ÷ rep_elapsed rep ∧
  rep_read rep = readThroughput m ÷ rep_elapsed rep ∧
  rep_write rep = writeThroughput m ÷ rep_elapsed rep.
Proof.
  intros Hs rep. pose proof (printResults_sums results m since) as Hsums.
  fold rep in Hsums. destruct Hsums as (Hq & Hsu & Hn & Hb).
  split; [done|].
  split; [intros Hfit; by rewrite Hq, wrap64_id|].
  split; [intros Hfit; by rewrite Hsu, wrap64_id|].
  split; [intros Hfit; by rewrite Hn, wrap64_id|].
  split; [intros Hfit; by rewrite Hb, wrap64_id|].
  split; [by apply elapsed_max|]. done.
Qed.

End ReportFacts.

Lemma printResults_report_witness :
  0 ≤ 2500000000 < 2 ^ 24 * Second ∧
  printResults Sim.sample_results Sim.sample_meter 2500000000
  = {| rep_requests := 15; rep_success := 11; rep_networkFailed := 2;
       rep_badFailed := 2; rep_rate := 5; rep_read := 750; rep_write := 450;
       rep_elapsed := 2 |}.
Proof.
  assert (Hfit : ∀ z, 0 ≤ z ≤ 100 → in_int64 z)
    by (unfold in_int64, min_int64, max_int64; lia).
  assert (Hsince : 0 ≤ 2500000000 < 2 ^ 24 * Second) by (vm_compute; by split).
  pose proof (printResults_report Sim.sample_results Sim.sample_meter 2500000000
                Hsince) as (_ & Hq & Hs & Hn & Hb & He & Hrate & Hread & Hwrite).
  split; [exact Hsince|]. cbv zeta in *.
  specialize (Hs ltac:(apply Hfit; vm_compute; split; discriminate)) as Hs'.
  destruct (printResults Sim.sample_results Sim.sample_meter 2500000000) as
    [q su nf bf rate rd wr el].
  cbn [rep_requests rep_success rep_networkFailed rep_badFailed rep_rate rep_read
       rep_write rep_elapsed] in *.
  f_equal.
  - rewrite Hq; [reflexivity|apply Hfit; vm_compute; split; discriminate].
  - rewrite Hs'; reflexivity.
  - rewrite Hn; [reflexivity|apply Hfit; vm_compute; split; discriminate].
  - rewrite Hb; [reflexivity|apply Hfit; vm_compute; split; discriminate].
  - rewrite Hrate, Hs', He; reflexivity.
  - rewrite Hread, He; reflexivity.
  - rewrite Hwrite, He; reflexivity.
  - rewrite He; reflexivity.
Defined.

(** C5, as stated, fails for long runs: [Seconds] goes through [float64],
    and from 2^24 seconds on a fraction within some 2e-9 of the next
    second is rounded up to it. After 16777216.999999999 seconds
    [printResults] reports 16777217 seconds, not the 16777216 whole
    seconds elapsed, and for 16777216 bytes read a rate of 0, not 1. *)
Lemma printResults_rounds_long_runs_up :
  0 ≤ 16777216999999999 ∧
  Z.max 1 (16777216999999999 `div` Second) = 16777216 ∧
  rep_elapsed (printResults Sim.sample_results Lab.long_run_meter 16777216999999999)
  = 16777217 ∧
  rep_elapsed (printResults Sim.sample_results Lab.long_run_meter 16777216999999999)
  ≠ Z.max 1 (16777216999999999 `div` Second) ∧
  rep_read (printResults Sim.sample_results Lab.long_run_meter 16777216999999999) = 0 ∧
  readThroughput Lab.long_run_meter ÷ Z.max 1 (16777216999999999 `div` Second) = 1.
Proof. vm_compute. repeat split; discriminate. Qed.

(** ** Dispatching the clients *)

Section DispatchFacts.
Context {W : Type} `{FastHTTP W}.

Lemma total_empty f : total f ∅ = 0.
Proof. unfold total. by rewrite map_to_list_empty. Qed.

Lemma total_insert f i r (results : gmap nat Result) :
  results !! i = None → total f (<[i := r]> results) = f r + total f results.
Proof.
  intros Hfresh. unfold total.
  rewrite (sumZ_perm _ (f ∘ snd <$> (i, r) :: map_to_list results)); [done|].
  apply fmap_Permutation. by apply map_to_list_insert.
Qed.

(** With [c] clients in count mode, [results] gains [c] entries whose
    [requests] are all the same multiple of the number of URLs. *)
Lemma dispatch_by_count cfg fuel (ws : list W) : ∀ i (results0 : gmap nat Result),
  let k := len64 (urls cfg) in
  let p := passes_needed 0 (requestCount cfg) k in
  requestsDuration cfg = -1 → 0 < k → p * k ≤ max_int64 →
  (Z.to_nat p < fuel)%nat →
  (∀ j, (i ≤ j)%nat → results0 !! j = None) →
  ∃ results, dispatch fuel cfg i ws results0 = Some results ∧
    total requests results = total requests results0 + len64 ws * (p * k) ∧
    (∀ j, (i + length ws ≤ j)%nat → results !! j = None).
Proof.
  induction ws as [|w ws IH]; intros i results0 k p Hmode Hk Hfit Hfuel Hfresh.
  { exists results0. unfold len64. simpl. split; [done|]. split; [lia|].
    intros j Hj. apply Hfresh. lia. }
  cbn [dispatch].
  destruct (client_by_count cfg fuel (w, new_Result)) as ([w' r] & -> & Hreq);
    try done.
  cbn [snd requests new_Result] in Hreq.
  destruct (IH (S i) (<[i := r]> results0)) as (results & Hrun & Htot & Hnone);
    try done.
  { intros j Hj. rewrite lookup_insert_ne by lia. apply Hfresh. lia. }
  exists results. split; [done|]. split.
  - rewrite Htot, total_insert by (apply Hfresh; lia).
    rewrite Hreq. fold k p. unfold len64. rewrite length_cons. lia.
  - intros j Hj. apply Hnone. rewrite length_cons in Hj. lia.
Qed.

Lemma passes_needed_divisible n k :
  0 < k → 0 ≤ n → (k | n) → passes_needed 0 n k * k = n.
Proof.
  intros Hk Hn [q ->]. unfold passes_needed.
  destruct (Z.ltb_spec 0 (q * k)); [|lia].
  replace (q * k - 0 + k - 1) with (q * k + (k - 1)) by lia.
  rewrite Z.div_add_l, Z.div_small by lia. lia.
Qed.

(** When the number of URLs divides the request count (with one URL, for
    one), the clients of a run in count mode make [n × c] requests. *)
Lemma dispatch_by_count_divisible cfg fuel (ws : list W) :
  let k := len64 (urls cfg) in
  let n := requestCount cfg in
  requestsDuration cfg = -1 → 0 < k → 0 ≤ n ≤ max_int64 → (k | n) →
  (Z.to_nat n < fuel)%nat →
  ∃ results, dispatch fuel cfg 0 ws ∅ = Some results ∧
    total requests results = n * len64 ws.
Proof.
  intros k n Hmode Hk Hn Hdiv Hfuel.
  pose proof (passes_needed_divisible n k Hk ltac:(lia) Hdiv) as Hp.
  pose proof (passes_needed_nonneg 0 n k Hk) as Hp0.
  destruct (dispatch_by_count cfg fuel ws 0 ∅) as (results & Hrun & Htot & _);
    try done.
  - fold k n. lia.
  - fold k n. nia.
  - exists results. split; [done|]. rewrite Htot, total_empty. fold k n. lia.
Qed.

(** C2. With two URLs and a request count of 3, in any environment, the
    loop of [client] ends after two passes with [requests] = 4, and the run
    of [main] with one client reports 4 requests: more than the 3 × 1 that
    the request count stands for. *)
Theorem client_overshoots_request_count (w : W) :
  ∃ w' r,
    client 3 Sim.two_urls_three_requests (w, new_Result) = Some (w', r) ∧
    requests r = 4 ∧
    dispatch 3 Sim.two_urls_three_requests 0 [w] ∅ = Some {[0%nat := r]} ∧
    ∀ m since, rep_requests (printResults {[0%nat := r]} m since) = 4.
Proof.
  destruct (client_by_count Sim.two_urls_three_requests 3 (w, new_Result))
    as ([w' r] & Hrun & Hreq).
  { reflexivity. }
  { reflexivity. }
  { by vm_compute. }
  { by vm_compute. }
  { vm_compute. lia. }
  cbn [snd] in Hreq. change (requests r = 4) in Hreq.
  exists w', r. split; [done|]. split; [done|]. split.
  - cbn [dispatch]. rewrite Hrun. by rewrite insert_empty.
  - intros m since. unfold printResults. cbn [rep_requests].
    rewrite map_fold_singleton. cbn [accumulate requests new_Result].
    by rewrite Hreq.
Qed.

End DispatchFacts.

(** ** package client *)

Section ClientFacts.
Context {W : Type} `{HTTP W}.

Lemma perform_Request ctx w c req : cRequest (snd (perform ctx w c req)) = cRequest c.
Proof. unfold perform. by destruct (HTTPClient_Do _ _ _) as [w' [e|resp]]. Qed.

Lemma perform_RequestCount ctx w c req :
  RequestCount (cStatistic (snd (perform ctx w c req))) = incr (RequestCount (cStatistic c)).
Proof. unfold perform. by destruct (HTTPClient_Do _ _ _) as [w' [e|resp]]. Qed.

Lemma perform_balanced ctx w c req :
  Statistic_balanced (cStatistic c) →
  Statistic_balanced (cStatistic (snd (perform ctx w c req))).
Proof.
  unfold Statistic_balanced, perform. intros Hbal.
  destruct (HTTPClient_Do _ _ _) as [w' [e|resp]]; cbn; rewrite Hbal;
    unfold incr, add64; rewrite wrap64_add_l.
  - rewrite wrap64_add_r. f_equal. lia.
  - destruct ((200 <=? StatusCode resp) && (StatusCode resp <=? 299)); unfold incr, add64.
    + rewrite wrap64_add3_l. f_equal. lia.
    + rewrite wrap64_add3_m. f_equal. lia.
Qed.

Lemma perform_failure ctx w c req :
  fails w ctx →
  let s := cStatistic c in
  let s' := cStatistic (snd (perform ctx w c req)) in
  RequestCount s' = incr (RequestCount s) ∧
  NetworkFailedCount s' = incr (NetworkFailedCount s) ∧
  WriteThroughput s' = WriteThroughput s ∧
  ReadThroughput s' = ReadThroughput s.
Proof.
  intros Hfail. unfold perform.
  destruct (Hfail (set_headers (cRequest c) req)) as [e He].
  destruct (HTTPClient_Do _ _ _) as [w' [e'|resp]]; [done|]. by simpl in He.
Qed.

Lemma perform_response ctx w c req :
  responds w ctx →
  let s := cStatistic c in
  let s' := cStatistic (snd (perform ctx w c req)) in
  RequestCount s' = incr (RequestCount s) ∧
  NetworkFailedCount s' = NetworkFailedCount s ∧
  WriteThroughput s'
  = add64 (WriteThroughput s) (len64 (default [] (PostBody (cRequest c)))).
Proof.
  intros Hresp. unfold perform.
  destruct (Hresp (set_headers (cRequest c) req)) as [r Hr].
  destruct (HTTPClient_Do _ _ _) as [w' [e'|resp]]; [by simpl in Hr|done].
Qed.

(** A URL that does not parse: panic, with the client and the world as
    they were. *)
Lemma PerformRequestWithContent_bad_url ctx (st : W * Client) :
  url_Parse_ok (URL (cRequest (snd st))) = false →
  ∃ p, PerformRequestWithContent ctx st = (st, Panicked p).
Proof.
  destruct st as [w c]. cbn [snd]. intros Hbad.
  unfold PerformRequestWithContent, NewRequestWithContext. rewrite Hbad.
  destruct (PostBody (cRequest c)); eauto.
Qed.

(** A URL that parses: the call returns, having gone through [perform]. *)
Lemma PerformRequestWithContent_good_url ctx (st : W * Client) :
  url_Parse_ok (URL (cRequest (snd st))) = true →
  ∃ req, PerformRequestWithContent ctx st = (perform ctx (fst st) (snd st) req, Returned).
Proof.
  destruct st as [w c]. cbn [fst snd]. intros Hok.
  unfold PerformRequestWithContent, NewRequestWithContext. rewrite Hok.
  destruct (PostBody (cRequest c)); eauto.
Qed.

Lemma PerformRequestWithContent_cases ctx (st : W * Client) :
  (∃ p, PerformRequestWithContent ctx st = (st, Panicked p)) ∨
  (∃ req, PerformRequestWithContent ctx st = (perform ctx (fst st) (snd st) req, Returned)).
Proof.
  destruct (url_Parse_ok (URL (cRequest (snd st)))) eqn:Hurl.
  - right. by apply PerformRequestWithContent_good_url.
  - left. by apply PerformRequestWithContent_bad_url.
Qed.

Lemma PerformRequestWithContent_balanced ctx (st : W * Client) :
  Statistic_balanced (cStatistic (snd st)) →
  Statistic_balanced (cStatistic (snd (fst (PerformRequestWithContent ctx st)))).
Proof.
  intros Hbal.
  destruct (PerformRequestWithContent_cases ctx st) as [[p ->]|[req ->]]; [done|].
  cbn [fst]. by apply perform_balanced.
Qed.

Lemma PerformRequestWithContent_Request ctx (st : W * Client) :
  cRequest (snd (fst (PerformRequestWithContent ctx st))) = cRequest (snd st).
Proof.
  destruct (PerformRequestWithContent_cases ctx st) as [[p ->]|[req ->]]; [done|].
  cbn [fst]. apply perform_Request.
Qed.

Lemma amount_loop_balanced n : ∀ st : W * Client,
  Statistic_balanced (cStatistic (snd st)) →
  Statistic_balanced (cStatistic (snd (fst (amount_loop n st)))).
Proof.
  induction n as [|n IH]; intros st Hbal; [done|].
  cbn [amount_loop]. unfold PerformRequest.
  pose proof (PerformRequestWithContent_balanced None st Hbal) as Hstep.
  destruct (PerformRequestWithContent None st) as [st' [|p]]; [|done].
  by apply IH.
Qed.

Lemma discount_last_balanced s :
  Statistic_balanced s → Statistic_balanced (discount_last s).
Proof.
  unfold Statistic_balanced, discount_last. intros Hbal.
  destruct (NetworkFailedCount s =? 1); [|done]. cbn. rewrite Hbal.
  unfold decr, sub64.
  replace (wrap64 (SuccessCount s + FailureCount s + NetworkFailedCount s) - 1)
    with (wrap64 (SuccessCount s + FailureCount s + NetworkFailedCount s) + -1) by lia.
  rewrite wrap64_add_l, wrap64_add_r. f_equal. lia.
Qed.

Lemma duration_loop_balanced fuel timeout startTime ctx : ∀ st st' o,
  Statistic_balanced (cStatistic (snd st)) →
  duration_loop fuel timeout startTime ctx st = Some (st', o) →
  Statistic_balanced (cStatistic (snd st')).
Proof.
  induction fuel as [|fuel IH]; intros st st' o Hbal Hrun; [done|].
  cbn [duration_loop] in Hrun.
  destruct (now (fst st) - startTime <? timeout); [|by inversion Hrun; subst].
  pose proof (PerformRequestWithContent_balanced ctx st Hbal) as Hstep.
  destruct (PerformRequestWithContent ctx st) as [st1 [|p]].
  - by eapply IH.
  - by inversion Hrun; subst.
Qed.

Lemma RunForDuration_balanced fuel timeout : ∀ st st' o,
  Statistic_balanced (cStatistic (snd st)) →
  RunForDuration fuel timeout st = Some (st', o) →
  Statistic_balanced (cStatistic (snd st')).
Proof.
  intros st st' o Hbal. unfold RunForDuration.
  destruct (duration_loop _ _ _ _ _) as [[[w c] [|p]]|] eqn:Hloop; [| |done].
  - intros [= <- <-]. cbn. apply discount_last_balanced.
    by apply (duration_loop_balanced _ _ _ _ _ _ _ Hbal Hloop).
  - intros [= <- <-]. by apply (duration_loop_balanced _ _ _ _ _ _ _ Hbal Hloop).
Qed.

End ClientFacts.

(** ** The counters add up *)

Section Exact.
Context {W : Type} `{FastHTTP W}.

Lemma attempt_exact cfg (st : W * Result) tmpUrl :
  Result_exact (snd st) → requests (snd st) < max_int64 →
  Result_exact (snd (attempt cfg st tmpUrl)) ∧
  requests (snd (attempt cfg st tmpUrl)) = requests (snd st) + 1.
Proof.
  destruct st as [w r]. cbn [snd]. intros (Hs & Hn & Hb & Hsum) Hfit.
  pose proof (attempt_cases cfg w r tmpUrl) as (_ & Hreq & Hcase). cbv zeta in *.
  assert (∀ x, 0 ≤ x ≤ requests r → incr x = x + 1) as Hincr
    by (intros x Hx; apply incr_exact; unfold min_int64, max_int64 in *; lia).
  unfold Result_exact. rewrite Hreq, (Hincr (requests r)) by lia.
  destruct (err _).
  - destruct Hcase as (-> & -> & ->). rewrite Hincr by lia. lia.
  - destruct ((200 <=? _) && _); destruct Hcase as (-> & -> & ->);
      rewrite Hincr by lia; lia.
Qed.

Lemma attempts_exact cfg us : ∀ st : W * Result,
  Result_exact (snd st) → requests (snd st) + len64 us ≤ max_int64 →
  Result_exact (snd (fold_left (attempt cfg) us st)) ∧
  requests (snd (fold_left (attempt cfg) us st)) = requests (snd st) + len64 us.
Proof.
  induction us as [|u us IH]; intros st Hex Hfit.
  { cbn [fold_left]. unfold len64. simpl. split; [done|lia]. }
  unfold len64 in *. rewrite length_cons in Hfit. cbn [fold_left].
  destruct (attempt_exact cfg st u Hex ltac:(lia)) as (Hex1 & Hreq1).
  destruct (IH (attempt cfg st u) Hex1 ltac:(lia)) as (Hex' & Hreq').
  split; [done|]. rewrite Hreq', Hreq1, length_cons. lia.
Qed.

End Exact.

(** C4. In cmd/gobench, [requests == success + networkFailed + badFailed]
    holds of a fresh [Result], every attempt keeps it whatever its outcome,
    and so it holds after any sequence of attempts; as long as fewer than
    2^63 attempts were made the equation holds over the integers and
    [requests] is the number of attempts. In package client,
    [RequestCount == SuccessCount + FailureCount + NetworkFailedCount]
    holds of a fresh [Statistic] and every [PerformRequestWithContent]
    keeps it, whether it returns or panics, as do [RunForAmount] and
    [RunForDuration]. *)
Theorem counters_stay_balanced :
  (Result_balanced new_Result ∧ Statistic_balanced new_Statistic) ∧
  (∀ W (HW : FastHTTP W) cfg (st : W * Result) tmpUrl,
     Result_balanced (snd st) → Result_balanced (snd (attempt cfg st tmpUrl))) ∧
  (∀ W (HW : FastHTTP W) cfg (w : W) (us : list string),
     let r := snd (fold_left (attempt cfg) us (w, new_Result)) in
     Result_balanced r ∧
     (len64 us ≤ max_int64 →
        requests r = len64 us ∧
        requests r = success r + networkFailed r + badFailed r)) ∧
  (∀ W (HW : HTTP W) ctx (st : W * Client),
     Statistic_balanced (cStatistic (snd st)) →
     Statistic_balanced (cStatistic (snd (fst (PerformRequestWithContent ctx st))))) ∧
  (∀ W (HW : HTTP W) requestCount (st : W * Client),
     Statistic_balanced (cStatistic (snd st)) →
     Statistic_balanced (cStatistic (snd (fst (RunForAmount requestCount st))))) ∧
  (∀ W (HW : HTTP W) fuel timeout (st st' : W * Client) o,
     Statistic_balanced (cStatistic (snd st)) →
     RunForDuration fuel timeout st = Some (st', o) →
     Statistic_balanced (cStatistic (snd st'))).
Proof.
  split; [split; by vm_compute|].
  split; [intros; by apply attempt_balanced|].
  split.
  { intros W HW cfg w us r. split.
    - apply attempts_balanced. by vm_compute.
    - intros Hfit.
      destruct (attempts_exact cfg us (w, new_Result)) as ((_ & _ & _ & Hsum) & Hreq).
      + unfold Result_exact. cbn. lia.
      + cbn. lia.
      + fold r in Hsum, Hreq. cbn in Hreq. split; [lia|done]. }
  split; [intros; by apply PerformRequestWithContent_balanced|].
  split; [intros; by apply amount_loop_balanced|].
  intros. by eapply RunForDuration_balanced.
Qed.

Lemma counters_stay_balanced_witness :
  (Result_balanced new_Result ∧
   Result_balanced (snd (attempt Sim.two_urls_three_requests ([Sim.refused], new_Result)
                           "http://localhost/a"))) ∧
  (len64 (urls Sim.two_urls_three_requests) ≤ max_int64 ∧
   requests (snd (pass Sim.two_urls_three_requests ([Sim.ok 200; Sim.ok 500], new_Result)))
   = 2) ∧
  (Statistic_balanced (cStatistic (snd Sim.post3_unreachable)) ∧
   Statistic_balanced
     (cStatistic (snd (fst (PerformRequestWithContent None Sim.post3_unreachable))))) ∧
  (Statistic_balanced (cStatistic (snd Sim.post3_bad_url)) ∧
   Statistic_balanced
     (cStatistic (snd (fst (RunForAmount 1 Sim.post3_bad_url))))).
Proof.
  destruct counters_stay_balanced as ((Hnew & Hnew') & Hatt & Hseq & Hperf & Hamount & _).
  split; [|split; [|split]].
  - split; [exact Hnew|]. apply (Hatt _ _ _ ([Sim.refused], new_Result)). exact Hnew.
  - assert (Hlen : len64 (urls Sim.two_urls_three_requests) ≤ max_int64) by by vm_compute.
    split; [exact Hlen|].
    destruct (Hseq _ _ Sim.two_urls_three_requests [Sim.ok 200; Sim.ok 500]
                (urls Sim.two_urls_three_requests)) as (_ & Hex).
    destruct (Hex Hlen) as (Hreq & _). exact Hreq.
  - split; [exact Hnew'|]. apply Hperf. exact Hnew'.
  - split; [exact Hnew'|]. apply Hamount. exact Hnew'.
Defined.

(** ** Panics, write throughput and the discount of RunForDuration *)

Section ClientClaims.
Context {W : Type} `{HTTP W}.

(** C9. When the request cannot be built, because the URL does not parse,
    [PerformRequestWithContent] panics and leaves the client as it was: no
    counter has moved and nothing was sent. When the URL parses, the call
    returns and does not panic. *)
Theorem PerformRequestWithContent_panics_on_bad_url (ctx : Ctx) (st : W * Client) :
  (url_Parse_ok (URL (cRequest (snd st))) = false →
     ∃ p, PerformRequestWithContent ctx st = (st, Panicked p)) ∧
  (url_Parse_ok (URL (cRequest (snd st))) = true →
     snd (PerformRequestWithContent ctx st) = Returned ∧
     RequestCount (cStatistic (snd (fst (PerformRequestWithContent ctx st))))
     = incr (RequestCount (cStatistic (snd st)))).
Proof.
  split; intros Hurl.
  - by apply PerformRequestWithContent_bad_url.
  - destruct (PerformRequestWithContent_good_url ctx st Hurl) as [req ->].
    split; [done|]. cbn [fst]. apply perform_RequestCount.
Qed.

(** As many requests as asked for, unless one of them panics. *)
Lemma amount_loop_count n : ∀ st : W * Client,
  url_Parse_ok (URL (cRequest (snd st))) = true →
  0 ≤ RequestCount (cStatistic (snd st)) →
  RequestCount (cStatistic (snd st)) + Z.of_nat n ≤ max_int64 →
  snd (amount_loop n st) = Returned ∧
  RequestCount (cStatistic (snd (fst (amount_loop n st))))
  = RequestCount (cStatistic (snd st)) + Z.of_nat n.
Proof.
  induction n as [|n IH]; intros st Hurl Hr Hfit; [cbn; split; [done|lia]|].
  cbn [amount_loop]. unfold PerformRequest.
  destruct (PerformRequestWithContent_good_url None st Hurl) as [req Hperf].
  pose proof (PerformRequestWithContent_Request None st) as Hrq.
  pose proof (perform_RequestCount None (fst st) (snd st) req) as Hreq.
  rewrite Hperf in *. destruct (perform None (fst st) (snd st) req) as [w1 c1].
  set (st1 := (w1, c1)) in *. cbn [fst snd] in Hrq, Hreq.
  rewrite incr_exact in Hreq by (unfold min_int64, max_int64 in *; lia).
  destruct (IH st1) as (Hret' & Hreq'); [by rewrite Hrq|lia|lia|].
  split; [done|]. rewrite Hreq', Hreq. lia.
Qed.

Lemma RunForAmount_one (st : W * Client) :
  RunForAmount 1 st = PerformRequestWithContent None st.
Proof.
  unfold RunForAmount. change (Z.to_nat 1) with 1%nat. cbn [amount_loop].
  unfold PerformRequest. by destruct (PerformRequestWithContent None st) as [st' [|p]].
Qed.

(** One POST by [RunForAmount(1)]: the body is counted when the request
    obtained a response, and only then. *)
Lemma RunForAmount_one_post (w : W) (c : Client) (body : list byte) :
  PostBody (cRequest c) = Some body →
  url_Parse_ok (URL (cRequest c)) = true →
  snd (RunForAmount 1 (w, c)) = Returned ∧
  WriteThroughput (cStatistic (snd (fst (RunForAmount 1 (w, c)))))
  = match snd (HTTPClient_Do w None (Behaviour.post_request (cRequest c) body)) with
    | inr _ => add64 (WriteThroughput (cStatistic c)) (len64 body)
    | inl _ => WriteThroughput (cStatistic c)
    end.
Proof.
  intros Hbody Hurl. rewrite RunForAmount_one.
  unfold PerformRequestWithContent, NewRequestWithContext. rewrite Hbody, Hurl.
  split; [done|]. cbn [fst snd]. unfold perform, Behaviour.post_request.
  destruct (HTTPClient_Do w None _) as [w' [e|resp]]; cbn [fst snd cStatistic set_Statistic
    WriteThroughput]; [done|].
  by rewrite Hbody.
Qed.

Lemma perform_world ctx w c req :
  ∃ req', fst (perform ctx w c req) = fst (HTTPClient_Do w ctx req').
Proof.
  exists (set_headers (cRequest c) req). unfold perform.
  by destruct (HTTPClient_Do _ _ _) as [w' [e|resp]].
Qed.

(** With a transport that takes time and a URL that parses, the loop of
    [RunForDuration] comes to its end. *)
Lemma duration_loop_returns timeout startTime ctx fuel : ∀ st : W * Client,
  takes_time →
  url_Parse_ok (URL (cRequest (snd st))) = true →
  (Z.to_nat (timeout - (now (fst st) - startTime)) < fuel)%nat →
  ∃ st', duration_loop fuel timeout startTime ctx st = Some (st', Returned).
Proof.
  induction fuel as [|fuel IH]; intros st Htime Hurl Hfuel; [lia|].
  cbn [duration_loop].
  destruct (Z.ltb_spec (now (fst st) - startTime) timeout) as [Hlt|Hge]; [|eauto].
  destruct (PerformRequestWithContent_good_url ctx st Hurl) as [req Hperf].
  pose proof (PerformRequestWithContent_Request ctx st) as Hreq.
  rewrite Hperf in *. cbn [fst] in Hreq.
  destruct (perform_world ctx (fst st) (snd st) req) as [req' Hw].
  pose proof (Htime (fst st) ctx req') as Hnow. rewrite <- Hw in Hnow.
  apply IH; [done|by rewrite Hreq|lia].
Qed.

(** What the [if] that ends [RunForDuration] tests is the whole
    [NetworkFailedCount], not the failure of the last request. With a
    transport that takes time and a URL that parses, [RunForDuration]
    returns, and what it leaves in the [Statistic] is what its loop left
    there, except that when the [NetworkFailedCount] left by the loop is
    exactly one (whatever made that request fail), [RequestCount] and
    [NetworkFailedCount] are both one less; when that count is zero or
    more than one, nothing is changed. *)
Lemma RunForDuration_discounts_single_failure (fuel : nat) (timeout : Z)
    (st : W * Client) :
  takes_time →
  url_Parse_ok (URL (cRequest (snd st))) = true →
  (Z.to_nat timeout < fuel)%nat →
  ∃ w' raw reported,
    duration_loop fuel timeout (now (fst st)) (Some (now (fst st) + timeout)) st
    = Some ((w', raw), Returned) ∧
    RunForDuration fuel timeout st = Some ((w', reported), Returned) ∧
    cRequest reported = cRequest raw ∧
    (NetworkFailedCount (cStatistic raw) = 1 →
       RequestCount (cStatistic reported) = wrap64 (RequestCount (cStatistic raw) - 1) ∧
       NetworkFailedCount (cStatistic reported) = 0 ∧
       SuccessCount (cStatistic reported) = SuccessCount (cStatistic raw) ∧
       FailureCount (cStatistic reported) = FailureCount (cStatistic raw) ∧
       IOFailedCount (cStatistic reported) = IOFailedCount (cStatistic raw) ∧
       ReadThroughput (cStatistic reported) = ReadThroughput (cStatistic raw) ∧
       WriteThroughput (cStatistic reported) = WriteThroughput (cStatistic raw)) ∧
    (NetworkFailedCount (cStatistic raw) ≠ 1 →
       cStatistic reported = cStatistic raw).
Proof.
  intros Htime Hurl Hfuel.
  destruct (duration_loop_returns timeout (now (fst st)) (Some (now (fst st) + timeout))
              fuel st Htime Hurl) as [[w' raw] Hloop].
  { replace (timeout - (now (fst st) - now (fst st))) with timeout by lia. done. }
  exists w', raw, (set_Statistic raw (discount_last (cStatistic raw))).
  split; [done|]. split; [unfold RunForDuration; by rewrite Hloop|].
  split; [done|]. cbn [cStatistic set_Statistic]. unfold discount_last.
  split; intros Hnf.
  - rewrite Hnf. change (1 =? 1) with true.
    cbn [RequestCount NetworkFailedCount SuccessCount FailureCount IOFailedCount
         ReadThroughput WriteThroughput].
    split; [reflexivity|]. split; [by vm_compute|]. by repeat split.
  - by destruct (Z.eqb_spec (NetworkFailedCount (cStatistic raw)) 1).
Qed.

End ClientClaims.

(** ** The scripted transport *)

Lemma world_takes_time : @takes_time Sim.world _.
Proof.
  intros w ctx req. cbn [now HTTPClient_Do Sim.world_HTTP]. unfold Sim.world_Do.
  destruct (Sim.pending w) as [|e rest]; destruct ctx as [deadline|];
    try destruct (Z.leb_spec deadline (Sim.clock w + Z.max 1 1));
    try destruct (Z.leb_spec deadline (Sim.clock w + Z.max 1 (Sim.latency e)));
    cbn [fst Sim.clock]; lia.
Qed.

(** The panic of the POST branch comes from [req.Header.Set] on the nil
    request, that of the GET branch from the [panic] statement. *)
Example bad_url_panics :
  PerformRequestWithContent None Sim.post3_bad_url
  = (Sim.post3_bad_url, Panicked NilPointerDereference) ∧
  PerformRequestWithContent None Sim.get_bad_url
  = (Sim.get_bad_url, Panicked (PanicMessage "Could not create http request")).
Proof. split; reflexivity. Qed.

Lemma PerformRequestWithContent_panics_on_bad_url_witness :
  (url_Parse_ok (W := Sim.world) (URL (cRequest (snd Sim.post3_bad_url))) = false ∧
   ∃ p, PerformRequestWithContent None Sim.post3_bad_url = (Sim.post3_bad_url, Panicked p)) ∧
  (url_Parse_ok (W := Sim.world) (URL (cRequest (snd Sim.get_bad_url))) = false ∧
   ∃ p, PerformRequestWithContent None Sim.get_bad_url = (Sim.get_bad_url, Panicked p)) ∧
  (url_Parse_ok (W := Sim.world) (URL (cRequest (snd Sim.post3_answered))) = true ∧
   snd (PerformRequestWithContent None Sim.post3_answered) = Returned).
Proof.
  split; [|split].
  - split; [reflexivity|].
    destruct (PerformRequestWithContent_panics_on_bad_url None Sim.post3_bad_url)
      as (Hbad & _).
    exact (Hbad eq_refl).
  - split; [reflexivity|].
    destruct (PerformRequestWithContent_panics_on_bad_url None Sim.get_bad_url)
      as (Hbad & _).
    exact (Hbad eq_refl).
  - split; [reflexivity|].
    destruct (PerformRequestWithContent_panics_on_bad_url None Sim.post3_answered)
      as (_ & Hgood).
    destruct (Hgood eq_refl) as (Hret & _). exact Hret.
Defined.

(** The two programs draw the line between success and failure differently:
    status 250 is a bad request for [Gobench.client] and a success for
    [Client.PerformRequestWithContent], whose range is [200,299]. *)
Example status_250_differs :
  badFailed (snd (attempt Sim.two_urls_three_requests ([Sim.ok 250], new_Result)
                    "http://localhost/a")) = 1 ∧
  SuccessCount (cStatistic (snd (fst (PerformRequest
     (Sim.fresh [Sim.answer 400 250 Sim.abcd], Sim.new_Client "http://localhost" None)))))
  = 1.
Proof. split; reflexivity. Qed.

(** C1. [RunForDuration] is to remove the request that the deadline
    cut off ("the last request can be interrupted by context timeout, we
    remove this from statistic"), and it does not: in a run of 1000
    nanoseconds whose first request fails by itself and whose second
    request is cut off by the deadline, exactly one failure is due to the
    cutoff, and [RunForDuration] reports what the loop counted, 2
    requests and 2 network failures, where the rule gives 1 and 1. *)
Theorem RunForDuration_keeps_cutoff_failure_after_another :
  RunForDuration 3 1000 Sim.failure_then_cutoff
  = duration_loop 3 1000 0 (Some 1000) Sim.failure_then_cutoff ∧
  (snd <$> RunForDuration 3 1000 Sim.failure_then_cutoff) = Some Returned ∧
  (Sim.cutoff_failures ∘ fst ∘ fst <$> RunForDuration 3 1000 Sim.failure_then_cutoff)
  = Some 1 ∧
  (RequestCount ∘ cStatistic ∘ snd ∘ fst <$> RunForDuration 3 1000 Sim.failure_then_cutoff)
  = Some 2 ∧
  (NetworkFailedCount ∘ cStatistic ∘ snd ∘ fst
     <$> RunForDuration 3 1000 Sim.failure_then_cutoff)
  = Some 2.
Proof. by vm_compute. Qed.

Lemma RunForDuration_discounts_single_failure_witness :
  @takes_time Sim.world _ ∧
  url_Parse_ok (W := Sim.world) (URL (cRequest (snd Sim.answer_then_cutoff))) = true ∧
  (Z.to_nat 1000 < 1001)%nat ∧
  (NetworkFailedCount ∘ cStatistic ∘ snd ∘ fst
     <$> duration_loop 1001 1000 0 (Some 1000) Sim.answer_then_cutoff) = Some 1 ∧
  (RequestCount ∘ cStatistic ∘ snd ∘ fst
     <$> duration_loop 1001 1000 0 (Some 1000) Sim.answer_then_cutoff) = Some 2 ∧
  (NetworkFailedCount ∘ cStatistic ∘ snd ∘ fst
     <$> RunForDuration 1001 1000 Sim.answer_then_cutoff) = Some 0 ∧
  (RequestCount ∘ cStatistic ∘ snd ∘ fst
     <$> RunForDuration 1001 1000 Sim.answer_then_cutoff) = Some 1.
Proof.
  pose proof world_takes_time as Ht.
  assert (Hfuel : (Z.to_nat 1000 < 1001)%nat) by lia.
  destruct (RunForDuration_discounts_single_failure (H := Sim.world_HTTP)
              1001 1000 Sim.answer_then_cutoff
              Ht ltac:(reflexivity) Hfuel) as (w' & raw & rep & Hloop & Hrun & _ & Hone & _).
  change (now (fst Sim.answer_then_cutoff)) with 0 in Hloop.
  change (0 + 1000) with 1000 in Hloop.
  assert (NetworkFailedCount (cStatistic raw) = 1 ∧ RequestCount (cStatistic raw) = 2)
    as (Hnf & Hreq).
  { vm_compute in Hloop. injection Hloop as _ <-. split; reflexivity. }
  destruct (Hone Hnf) as (Hreq' & Hnf' & _).
  split; [exact Ht|]. split; [reflexivity|]. split; [exact Hfuel|].
  rewrite Hrun, Hloop. cbn [fmap option_fmap option_map compose fst snd].
  rewrite Hreq', Hnf', Hnf, Hreq. repeat split; reflexivity.
Defined.

(** * Further properties of cmd/gobench *)

Section WorkerLoop.
Context {W : Type} `{FastHTTP W}.

Lemma passes_needed_bounds n k :
  0 < k → 0 ≤ n →
  n ≤ passes_needed 0 n k * k < n + k ∧ 0 ≤ passes_needed 0 n k ≤ n.
Proof.
  intros Hk Hn. unfold passes_needed.
  destruct (Z.ltb_spec 0 n) as [Hpos|?]; [|lia].
  replace (n - 0 + k - 1) with (n + k - 1) by lia.
  pose proof (Z.div_mod (n + k - 1) k ltac:(lia)) as Hdm.
  pose proof (Z.mod_pos_bound (n + k - 1) k Hk) as Hmod.
  assert ((n + k - 1) `div` k ≤ n) by (apply Z.div_le_upper_bound; nia).
  assert (0 ≤ (n + k - 1) `div` k) by (apply Z.div_pos; lia).
  nia.
Qed.

(** X1. In count mode, with at least one URL and a request count [n >= 0],
    a worker that starts from a fresh [Result] returns, and the [requests]
    it ends with is the least multiple of the number of URLs that is not
    below [n]. *)
Theorem client_count_mode_requests (cfg : configuration) (w : W) (fuel : nat) :
  requestsDuration cfg = -1 →
  0 < len64 (urls cfg) →
  0 ≤ requestCount cfg →
  requestCount cfg + len64 (urls cfg) ≤ max_int64 →
  (Z.to_nat (requestCount cfg) < fuel)%nat →
  ∃ w' r,
    client fuel cfg (w, new_Result) = Some (w', r) ∧
    requestCount cfg ≤ requests r < requestCount cfg + len64 (urls cfg) ∧
    (len64 (urls cfg) | requests r) ∧
    Result_balanced r.
Proof.
  intros Hmode Hk Hn Hfit Hfuel.
  pose proof (passes_needed_bounds (requestCount cfg) (len64 (urls cfg)) Hk Hn)
    as (Hq & Hp).
  destruct (client_by_count cfg fuel (w, new_Result)) as ([w' r] & Hrun & Hreq);
    try done.
  - cbn [snd requests new_Result]. lia.
  - cbn [snd requests new_Result]. lia.
  - cbn [snd requests new_Result] in Hreq. exists w', r.
    split; [done|]. split; [lia|]. split.
    + exists (passes_needed 0 (requestCount cfg) (len64 (urls cfg))). lia.
    + apply (client_balanced fuel cfg (w, new_Result) (w', r)); [by vm_compute|done].
Qed.

(** X2. A worker never leaves its loop in duration mode, and never leaves
    it in count mode when the URL list is empty and the request count has
    not been reached: however long it runs, [client] has not returned. *)
Theorem client_never_returns (cfg : configuration) (st : W * Result) (fuel : nat) :
  requestsDuration cfg ≠ -1 ∨
  (urls cfg = [] ∧ requests (snd st) < requestCount cfg) →
  client fuel cfg st = None.
Proof.
  intros [Hmode|[Hurls Hlt]]; [by apply client_by_duration|].
  induction fuel as [|fuel IH]; [done|].
  cbn [client]. unfold keep_going.
  destruct (Z.ltb_spec (requests (snd st)) (requestCount cfg)); [|lia].
  cbn [orb]. unfold pass. rewrite Hurls. exact IH.
Qed.

Lemma dispatch_balanced fuel cfg (ws : list W) : ∀ i (results0 results : gmap nat Result),
  (∀ j r, results0 !! j = Some r → Result_balanced r) →
  dispatch fuel cfg i ws results0 = Some results →
  ∀ j r, results !! j = Some r → Result_balanced r.
Proof.
  induction ws as [|w ws IH]; intros i results0 results Hbal Hrun.
  { cbn in Hrun. by inversion Hrun; subst. }
  cbn [dispatch] in Hrun.
  destruct (client fuel cfg (w, new_Result)) as [[w' r']|] eqn:Hc; [|done].
  eapply IH; [|exact Hrun].
  intros j r. destruct (decide (i = j)) as [->|Hne].
  - rewrite lookup_insert_eq. intros [= <-].
    apply (client_balanced fuel cfg (w, new_Result) (w', r')); [by vm_compute|done].
  - rewrite lookup_insert_ne by done. apply Hbal.
Qed.

Lemma wrap64_wrap z : wrap64 (wrap64 z) = wrap64 z.
Proof. apply wrap64_id, wrap64_range. Qed.

Lemma balanced_sum (l : list (nat * Result)) :
  (∀ p, p ∈ l → Result_balanced (snd p)) →
  wrap64 (foldr Z.add 0 (requests ∘ snd <$> l))
  = wrap64 (foldr Z.add 0 (success ∘ snd <$> l)
            + foldr Z.add 0 (networkFailed ∘ snd <$> l)
            + foldr Z.add 0 (badFailed ∘ snd <$> l)).
Proof.
  induction l as [|[i r] l IH]; intros Hbal; [done|].
  cbn [fmap list_fmap foldr compose snd].
  rewrite <- wrap64_add_r, IH by (intros p Hp; apply Hbal; by right).
  rewrite (Hbal (i, r)) by by left. cbn [snd].
  rewrite wrap64_add_l, wrap64_add_r. f_equal. lia.
Qed.

(** X3. After a run in count mode the numbers of the report add up: the
    requests printed are the sum, in [int64], of the successful, the
    network-failed and the bad requests printed. *)
Theorem report_adds_up (fuel : nat) (cfg : configuration) (ws : list W)
    (results : gmap nat Result) (m : Meter) (since : Z) :
  dispatch fuel cfg 0 ws ∅ = Some results →
  let rep := printResults results m since in
  rep_requests rep
  = wrap64 (rep_success rep + rep_networkFailed rep + rep_badFailed rep).
Proof.
  intros Hrun rep.
  pose proof (printResults_sums results m since) as (Hq & Hs & Hn & Hb).
  fold rep in Hq, Hs, Hn, Hb. rewrite Hq, Hs, Hn, Hb.
  rewrite wrap64_add3_l, wrap64_add3_m, wrap64_add_r.
  unfold total. apply balanced_sum. intros [j r] Hin.
  apply elem_of_map_to_list in Hin. cbn [snd].
  by eapply (dispatch_balanced fuel cfg ws 0 ∅ results).
Qed.

(** X4. In count mode, when the number of URLs divides the request count
    [n] (with a single URL it always does), [c] clients make [n] requests
    each and the report shows [n × c] requests. *)
Theorem report_requests_count_times_clients (fuel : nat) (cfg : configuration)
    (ws : list W) (m : Meter) (since : Z) :
  requestsDuration cfg = -1 →
  0 < len64 (urls cfg) →
  0 ≤ requestCount cfg →
  (len64 (urls cfg) | requestCount cfg) →
  requestCount cfg * len64 ws ≤ max_int64 →
  requestCount cfg ≤ max_int64 →
  (Z.to_nat (requestCount cfg) < fuel)%nat →
  ∃ results,
    dispatch fuel cfg 0 ws ∅ = Some results ∧
    rep_requests (printResults results m since) = requestCount cfg * len64 ws.
Proof.
  intros Hmode Hk Hn Hdiv Hfit Hmax Hfuel.
  destruct (dispatch_by_count_divisible cfg fuel ws) as (results & Hrun & Htot);
    try done.
  exists results. split; [done|].
  pose proof (printResults_sums results m since) as (Hq & _). cbv zeta in Hq.
  rewrite Hq, Htot. apply wrap64_id. unfold in_int64, min_int64.
  pose proof (len64_nonneg ws). nia.
Qed.

End WorkerLoop.

Lemma client_count_mode_requests_witness :
  (requestsDuration Sim.two_urls_three_requests = -1 ∧
   0 < len64 (urls Sim.two_urls_three_requests) ∧
   0 ≤ requestCount Sim.two_urls_three_requests ∧
   requestCount Sim.two_urls_three_requests + len64 (urls Sim.two_urls_three_requests)
     ≤ max_int64 ∧
   (Z.to_nat (requestCount Sim.two_urls_three_requests) < 4)%nat) ∧
  ∃ w' r,
    client 4 Sim.two_urls_three_requests ([Sim.ok 200], new_Result) = Some (w', r) ∧
    requestCount Sim.two_urls_three_requests ≤ requests r
      < requestCount Sim.two_urls_three_requests + len64 (urls Sim.two_urls_three_requests) ∧
    (len64 (urls Sim.two_urls_three_requests) | requests r) ∧
    Result_balanced r.
Proof.
  assert (H1 : 0 < len64 (urls Sim.two_urls_three_requests)) by reflexivity.
  assert (H2 : 0 ≤ requestCount Sim.two_urls_three_requests) by by vm_compute.
  assert (H3 : requestCount Sim.two_urls_three_requests
               + len64 (urls Sim.two_urls_three_requests) ≤ max_int64) by by vm_compute.
  assert (H4 : (Z.to_nat (requestCount Sim.two_urls_three_requests) < 4)%nat)
    by (vm_compute; lia).
  split; [by repeat split|].
  exact (client_count_mode_requests Sim.two_urls_three_requests [Sim.ok 200] 4
           eq_refl H1 H2 H3 H4).
Defined.

Lemma client_never_returns_witness :
  (requestsDuration (Sim.by_duration ["http://localhost/a"%string] 10) ≠ -1 ∧
   client 1000 (Sim.by_duration ["http://localhost/a"%string] 10) ([], new_Result) = None) ∧
  ((urls (Sim.by_count [] 5) = [] ∧ requests new_Result < requestCount (Sim.by_count [] 5)) ∧
   client 1000 (Sim.by_count [] 5) ([Sim.ok 200], new_Result) = None).
Proof.
  split.
  - assert (Hmode : requestsDuration (Sim.by_duration ["http://localhost/a"%string] 10) ≠ -1)
      by (cbn; lia).
    split; [exact Hmode|].
    exact (client_never_returns _ ([], new_Result) 1000 (or_introl Hmode)).
  - assert (Hempty : urls (Sim.by_count [] 5) = []
                     ∧ requests new_Result < requestCount (Sim.by_count [] 5))
      by (split; reflexivity).
    split; [exact Hempty|].
    exact (client_never_returns _ ([Sim.ok 200], new_Result) 1000 (or_intror Hempty)).
Defined.

Lemma report_adds_up_witness :
  ∃ results,
    dispatch 4 Sim.two_urls_three_requests 0 [[Sim.ok 200; Sim.ok 500]; []] ∅
    = Some results ∧
    rep_requests (printResults results Sim.sample_meter 0)
    = wrap64 (rep_success (printResults results Sim.sample_meter 0)
              + rep_networkFailed (printResults results Sim.sample_meter 0)
              + rep_badFailed (printResults results Sim.sample_meter 0)).
Proof.
  destruct (dispatch 4 Sim.two_urls_three_requests 0 [[Sim.ok 200; Sim.ok 500]; []] ∅)
    as [results|] eqn:Hrun; [|by vm_compute in Hrun].
  exists results. split; [reflexivity|].
  exact (report_adds_up 4 Sim.two_urls_three_requests _ results Sim.sample_meter 0 Hrun).
Defined.

Lemma report_requests_count_times_clients_witness :
  (requestsDuration Lab.one_url_three_requests = -1 ∧
   0 < len64 (urls Lab.one_url_three_requests) ∧
   0 ≤ requestCount Lab.one_url_three_requests ∧
   (len64 (urls Lab.one_url_three_requests)
    | requestCount Lab.one_url_three_requests) ∧
   requestCount Lab.one_url_three_requests
     * len64 Lab.two_servers ≤ max_int64 ∧
   requestCount Lab.one_url_three_requests ≤ max_int64 ∧
   (Z.to_nat (requestCount Lab.one_url_three_requests) < 4)%nat) ∧
  ∃ results,
    dispatch 4 Lab.one_url_three_requests 0 Lab.two_servers ∅
    = Some results ∧
    rep_requests (printResults results Sim.sample_meter 0)
    = requestCount Lab.one_url_three_requests
      * len64 Lab.two_servers.
Proof.
  assert (H1 : 0 < len64 (urls Lab.one_url_three_requests))
    by reflexivity.
  assert (H2 : 0 ≤ requestCount Lab.one_url_three_requests)
    by by vm_compute.
  assert (H3 : (len64 (urls Lab.one_url_three_requests)
                | requestCount Lab.one_url_three_requests))
    by (exists 3; reflexivity).
  assert (H4 : requestCount Lab.one_url_three_requests
               * len64 Lab.two_servers ≤ max_int64) by by vm_compute.
  assert (H5 : requestCount Lab.one_url_three_requests ≤ max_int64)
    by by vm_compute.
  assert (H6 : (Z.to_nat (requestCount Lab.one_url_three_requests) < 4)%nat)
    by (vm_compute; lia).
  split; [by repeat split|].
  exact (report_requests_count_times_clients 4 Lab.one_url_three_requests Lab.two_servers Sim.sample_meter 0
           eq_refl H1 H2 H3 H4 H5 H6).
Defined.

(** * The traffic under the counters *)

Section Accounting.
Context {C : Type} `{NetConnContract C}.

Lemma accounting_step conns m a b o :
  0 ≤ readThroughput m → 0 ≤ writeThroughput m →
  readThroughput m + len64 (op_buf o) ≤ max_int64 →
  writeThroughput m + len64 (op_buf o) ≤ max_int64 →
  let s1 := io_step (conns, m) o in
  let s2 := Traffic.raw_step (conns, (a, b)) o in
  fst s1 = fst s2 ∧
  readThroughput (snd s1) = readThroughput m + (fst (snd s2) - a) ∧
  writeThroughput (snd s1) = writeThroughput m + (snd (snd s2) - b).
Proof.
  intros Hr Hw Hrr Hwr.
  destruct o as [i bf|i bf]; cbn [io_step Traffic.raw_step op_buf] in *;
    destruct (conns !! i) as [c|]; cbn; try (split; [done|lia]).
  - pose proof (conn_Read_n c bf) as Hn.
    destruct (io_err (conn_Read c bf)); cbn; [split; [done|lia]|].
    split; [done|]. split; [|lia].
    rewrite add64_exact; [lia|]. unfold in_int64, min_int64, max_int64 in *. lia.
  - pose proof (conn_Write_n c bf) as Hn.
    destruct (io_err (conn_Write c bf)); cbn; [split; [done|lia]|].
    split; [done|]. split; [lia|].
    rewrite add64_exact; [lia|]. unfold in_int64, min_int64, max_int64 in *. lia.
Qed.

Lemma accounting_run ops : ∀ conns m a b,
  0 ≤ readThroughput m → 0 ≤ writeThroughput m →
  readThroughput m + ops_room ops ≤ max_int64 →
  writeThroughput m + ops_room ops ≤ max_int64 →
  let s1 := io_run ops (conns, m) in
  let s2 := Traffic.raw_run ops (conns, (a, b)) in
  fst s1 = fst s2 ∧
  readThroughput (snd s1) = readThroughput m + (fst (snd s2) - a) ∧
  writeThroughput (snd s1) = writeThroughput m + (snd (snd s2) - b).
Proof.
  induction ops as [|o ops IH]; intros conns m a b Hr Hw Hrr Hwr.
  { cbn. split; [done|lia]. }
  rewrite ops_room_cons in *.
  pose proof (ops_room_nonneg ops) as Hroom.
  pose proof (len64_nonneg (op_buf o)) as Hlen.
  pose proof (accounting_step conns m a b o Hr Hw ltac:(lia) ltac:(lia)) as Hstep.
  pose proof (io_step_bounds conns m o Hr Hw ltac:(lia) ltac:(lia)) as Hbnd.
  cbv zeta in *. unfold io_run, Traffic.raw_run in *. cbn [fold_left].
  destruct (io_step (conns, m) o) as [conns1 m1].
  destruct (Traffic.raw_step (conns, (a, b)) o) as [conns2 [a2 b2]].
  cbn [fst snd] in Hstep, Hbnd. destruct Hstep as (<- & Hrd & Hwr1).
  specialize (IH conns1 m1 a2 b2 ltac:(lia) ltac:(lia) ltac:(lia) ltac:(lia)).
  destruct IH as (IH1 & IH2 & IH3). split; [done|]. lia.
Qed.

(** X5. Over a whole run [MyConn] is transparent and its counters are
    exact: the connections end as they would without the wrapper, and each
    counter has grown by exactly the bytes of the calls in its direction
    that returned no error (for connections that keep the contract of
    [io.Reader] and [io.Writer], while the totals fit [int64]). *)
Theorem MyConn_run_transparent_and_exact (ops : list io_op) (conns : list C) (m : Meter) :
  0 ≤ readThroughput m → 0 ≤ writeThroughput m →
  readThroughput m + ops_room ops ≤ max_int64 →
  writeThroughput m + ops_room ops ≤ max_int64 →
  fst (io_run ops (conns, m)) = fst (Traffic.raw_run ops (conns, (0, 0))) ∧
  readThroughput (snd (io_run ops (conns, m)))
  = readThroughput m + fst (snd (Traffic.raw_run ops (conns, (0, 0)))) ∧
  writeThroughput (snd (io_run ops (conns, m)))
  = writeThroughput m + snd (snd (Traffic.raw_run ops (conns, (0, 0)))).
Proof.
  intros Hr Hw Hrr Hwr.
  pose proof (accounting_run ops conns m 0 0 Hr Hw Hrr Hwr) as (H1 & H2 & H3).
  split; [done|]. lia.
Qed.

End Accounting.

Lemma MyConn_run_transparent_and_exact_witness :
  (0 ≤ readThroughput new_Meter ∧ 0 ≤ writeThroughput new_Meter ∧
   readThroughput new_Meter + ops_room (Sim.ops1 ++ Sim.ops2) ≤ max_int64 ∧
   writeThroughput new_Meter + ops_room (Sim.ops1 ++ Sim.ops2) ≤ max_int64) ∧
  fst (io_run (Sim.ops1 ++ Sim.ops2) (Sim.pool, new_Meter))
  = fst (Traffic.raw_run (Sim.ops1 ++ Sim.ops2) (Sim.pool, (0, 0))) ∧
  readThroughput (snd (io_run (Sim.ops1 ++ Sim.ops2) (Sim.pool, new_Meter)))
  = readThroughput new_Meter
    + fst (snd (Traffic.raw_run (Sim.ops1 ++ Sim.ops2) (Sim.pool, (0, 0)))) ∧
  writeThroughput (snd (io_run (Sim.ops1 ++ Sim.ops2) (Sim.pool, new_Meter)))
  = writeThroughput new_Meter
    + snd (snd (Traffic.raw_run (Sim.ops1 ++ Sim.ops2) (Sim.pool, (0, 0)))).
Proof.
  assert (Hpre : 0 ≤ readThroughput new_Meter ∧ 0 ≤ writeThroughput new_Meter ∧
    readThroughput new_Meter + ops_room (Sim.ops1 ++ Sim.ops2) ≤ max_int64 ∧
    writeThroughput new_Meter + ops_room (Sim.ops1 ++ Sim.ops2) ≤ max_int64).
  { vm_compute. repeat split; discriminate. }
  split; [exact Hpre|].
  destruct Hpre as (H1 & H2 & H3 & H4).
  exact (MyConn_run_transparent_and_exact (Sim.ops1 ++ Sim.ops2) Sim.pool new_Meter
           H1 H2 H3 H4).
Defined.

(** ** The write throughput of a POST *)

(** C8. In package client, a fresh [Client] with a post body of 3 bytes
    and a URL that parses runs [RunForAmount(1)]: the run returns, with
    [WriteThroughput] 3 if the request it sent obtained a response,
    whatever the status, and 0 if that request failed in the transport.
    In cmd/gobench the counter is not about the body at all:
    [writeThroughput] holds the bytes of every [Write] on a dialled
    connection that returned no error, whatever was written (for
    connections that keep the contract of [io.Writer], while the total
    fits [int64]), and the report prints that count divided by the test
    time. *)
Theorem post_write_throughput :
  (∀ (W : Type) (HW : HTTP W) (w : W) (c : Client) (body : list byte),
     PostBody (cRequest c) = Some body → len64 body = 3 →
     cStatistic c = new_Statistic →
     url_Parse_ok (URL (cRequest c)) = true →
     snd (RunForAmount 1 (w, c)) = Returned ∧
     WriteThroughput (cStatistic (snd (fst (RunForAmount 1 (w, c)))))
     = match snd (HTTPClient_Do w None (Behaviour.post_request (cRequest c) body)) with
       | inr _ => 3
       | inl _ => 0
       end) ∧
  (∀ (C : Type) (HC : NetConn C) (HL : NetConnContract C) (ops : list io_op)
     (conns : list C) (results : gmap nat Result) (since : Z),
     ops_room ops ≤ max_int64 →
     writeThroughput (snd (io_run ops (conns, new_Meter)))
     = snd (snd (Traffic.raw_run ops (conns, (0, 0)))) ∧
     rep_write (printResults results (snd (io_run ops (conns, new_Meter))) since)
     = snd (snd (Traffic.raw_run ops (conns, (0, 0))))
       ÷ rep_elapsed (printResults results (snd (io_run ops (conns, new_Meter))) since)).
Proof.
  split.
  - intros W HW w c body Hbody Hlen Hnew Hurl.
    destruct (RunForAmount_one_post w c body Hbody Hurl) as (Hret & ->).
    split; [done|]. rewrite Hnew, Hlen.
    by destruct (snd (HTTPClient_Do w None _)).
  - intros C HC HL ops conns results since Hroom.
    pose proof (accounting_run ops conns new_Meter 0 0) as Hacc.
    cbn [readThroughput writeThroughput new_Meter] in Hacc.
    destruct Hacc as (_ & _ & Hw); [lia..|].
    assert (Hwr : writeThroughput (snd (io_run ops (conns, new_Meter)))
                  = snd (snd (Traffic.raw_run ops (conns, (0, 0))))) by lia.
    split; [done|]. by rewrite <- Hwr.
Qed.

Lemma post_write_throughput_witness :
  (PostBody (cRequest (snd Sim.post3_answered)) = Some Sim.buf3 ∧
   len64 Sim.buf3 = 3 ∧
   cStatistic (snd Sim.post3_answered) = new_Statistic ∧
   url_Parse_ok (W := Sim.world) (URL (cRequest (snd Sim.post3_answered))) = true ∧
   WriteThroughput (cStatistic (snd (fst (RunForAmount 1 Sim.post3_answered)))) = 3) ∧
  (ops_room (Sim.ops1 ++ Sim.ops2) ≤ max_int64 ∧
   writeThroughput (snd (io_run (Sim.ops1 ++ Sim.ops2) (Sim.pool, new_Meter)))
   = snd (snd (Traffic.raw_run (Sim.ops1 ++ Sim.ops2) (Sim.pool, (0, 0))))).
Proof.
  destruct post_write_throughput as (Hclient & Hgobench).
  split.
  - split; [reflexivity|]. split; [reflexivity|]. split; [reflexivity|].
    split; [reflexivity|].
    destruct (Hclient Sim.world Sim.world_HTTP (fst Sim.post3_answered)
                (snd Sim.post3_answered) Sim.buf3 eq_refl eq_refl eq_refl eq_refl)
      as (_ & Hw).
    exact Hw.
  - assert (Hroom : ops_room (Sim.ops1 ++ Sim.ops2) ≤ max_int64)
      by (vm_compute; discriminate).
    split; [exact Hroom|].
    destruct (Hgobench Sim.conn Sim.conn_NetConn conn_NetConnContract
                (Sim.ops1 ++ Sim.ops2) Sim.pool ∅ 0 Hroom) as (Hw & _).
    exact Hw.
Defined.

(** C8, as stated, fails in both programs. In package client a POST of
    three bytes to a server that cannot be reached completes
    [RunForAmount(1)] with [WriteThroughput] 0. In cmd/gobench a POST of
    three bytes goes through [MyConn.Write] with its request line and
    headers, 58 bytes here, and [writeThroughput] and the report show 58. *)
Lemma post_of_three_bytes_not_counted_as_three :
  (PostBody (cRequest (snd Sim.post3_unreachable)) = Some Sim.buf3 ∧
   len64 Sim.buf3 = 3 ∧
   snd (RunForAmount 1 Sim.post3_unreachable) = Returned ∧
   RequestCount (cStatistic (snd (fst (RunForAmount 1 Sim.post3_unreachable)))) = 1 ∧
   WriteThroughput (cStatistic (snd (fst (RunForAmount 1 Sim.post3_unreachable)))) = 0 ∧
   WriteThroughput (cStatistic (snd (fst (RunForAmount 1 Sim.post3_unreachable)))) ≠ 3) ∧
  (Lab.post3_wire = [OpWrite 0 (Lab.post3_head ++ Sim.buf3)] ∧
   len64 Lab.post3_head = 55 ∧
   writeThroughput (snd (io_run Lab.post3_wire ([Lab.wide_conn], new_Meter))) = 58 ∧
   rep_write (printResults ∅ (snd (io_run Lab.post3_wire ([Lab.wide_conn], new_Meter)))
                Second) = 58 ∧
   rep_write (printResults ∅ (snd (io_run Lab.post3_wire ([Lab.wide_conn], new_Meter)))
                Second) ≠ 3).
Proof. vm_compute. repeat split; discriminate. Qed.

(** * Start-up of cmd/gobench *)

Section StringFacts.

Lemma string_app_nil_r (s : string) : (s ++ EmptyString)%string = s.
Proof.
  induction s as [|c s IH]; [done|].
  change (String c (s ++ EmptyString)%string = String c s). by rewrite IH.
Qed.

Lemma string_app_assoc (s t u : string) : ((s ++ t) ++ u)%string = (s ++ (t ++ u))%string.
Proof.
  induction s as [|c s IH]; [done|].
  change (String c ((s ++ t) ++ u)%string = String c (s ++ (t ++ u))%string).
  by rewrite IH.
Qed.

Lemma is_empty_true s : Startup.is_empty s = true ↔ s = EmptyString.
Proof. by destruct s. Qed.

Lemma is_empty_false s : Startup.is_empty s = false → s ≠ EmptyString.
Proof. by destruct s. Qed.

End StringFacts.

Section ReadLinesFacts.
Context {R : Type} `{Startup.LineReader R}.

Lemma unfinished_all fs : forallb snd fs = true → Startup.unfinished fs = fs.
Proof. destruct fs as [|f fs]; [done|]. intros Hall. cbn [Startup.unfinished]. by rewrite Hall. Qed.

(** What the loop makes of the fragments the reader hands out. *)
Lemma readLines_loop_fragments fuel : ∀ reader buffer lines fs e,
  Startup.fragments fuel reader = Some (fs, e) →
  ∃ new,
    Startup.readLines_loop fuel reader buffer lines = Some (lines ++ new, e) ∧
    length new = Startup.line_ends fs ∧
    (Startup.joined new
       ++ (if forallb snd fs then buffer ++ Startup.bytes_of fs
           else Startup.bytes_of (Startup.unfinished fs)))%string
    = (buffer ++ Startup.bytes_of fs)%string ∧
    (forallb (negb ∘ snd) fs = true → buffer = EmptyString → new = fst <$> fs).
Proof.
  induction fuel as [|fuel IH]; intros reader buffer lines fs e Hfs; [done|].
  cbn [Startup.fragments Startup.readLines_loop] in *.
  destruct (Startup.ReadLine reader) as [reader' [[part prefix] [err|]]].
  { injection Hfs as <- <-. exists []. rewrite app_nil_r. by repeat split. }
  destruct (Startup.fragments fuel reader') as [[fs' e']|] eqn:Hfs'; [|done].
  injection Hfs as <- ->. destruct prefix.
  - destruct (IH reader' (buffer ++ part)%string lines fs' e Hfs')
      as (new & Hrun & Hlen & Hbytes & _).
    exists new. split; [done|]. split; [done|]. split; [|done].
    cbn [forallb snd andb Startup.bytes_of foldr fst Startup.unfinished] in *.
    fold (Startup.bytes_of fs') in *.
    rewrite <- !string_app_assoc. destruct (forallb snd fs'); exact Hbytes.
  - destruct (IH reader' EmptyString (lines ++ [(buffer ++ part)%string]) fs' e Hfs')
      as (new & Hrun & Hlen & Hbytes & Hplain).
    exists ((buffer ++ part)%string :: new).
    split; [by rewrite Hrun, <- app_assoc|].
    split; [unfold Startup.line_ends in *; cbn; by rewrite Hlen|].
    split.
    + cbn [forallb snd andb Startup.bytes_of foldr fst Startup.unfinished Startup.joined] in *.
      fold (Startup.bytes_of fs') (Startup.joined new) in *.
      rewrite !string_app_assoc. f_equal. f_equal.
      destruct (forallb snd fs') eqn:Hall; [|done].
      by rewrite unfinished_all.
    + cbn [forallb compose snd negb andb fmap list_fmap fst].
      intros Hall ->. by rewrite Hplain.
Qed.

(** X6. [readLines] gives back an error of [os.Open] with no lines. When
    the file opens and the reader eventually fails, it gives back the lines
    read until then, with no error if the failure is the end of the file
    and with that error otherwise. There is one line for each fragment
    that ends a line; fragments of an over-long line are joined in order,
    so the lines hold all bytes of the fragments but those of a last line
    that was never ended; and when no fragment is a prefix, the lines are
    the fragments themselves. *)
Theorem readLines_lines (fuel : nat) (path : string) :
  (∀ e, Startup.os_Open path = inr e →
     Startup.readLines fuel path = Some ([], Some e)) ∧
  (∀ reader fs e,
     Startup.os_Open path = inl reader →
     Startup.fragments fuel reader = Some (fs, e) →
     ∃ lines,
       Startup.readLines fuel path
       = Some (lines, match e with Startup.EOF => None | _ => Some e end) ∧
       length lines = Startup.line_ends fs ∧
       (Startup.joined lines ++ Startup.bytes_of (Startup.unfinished fs))%string
       = Startup.bytes_of fs ∧
       (forallb (negb ∘ snd) fs = true → lines = fst <$> fs)).
Proof.
  split.
  - intros e Hopen. unfold Startup.readLines. by rewrite Hopen.
  - intros reader fs e Hopen Hfs. unfold Startup.readLines. rewrite Hopen.
    destruct (readLines_loop_fragments fuel reader EmptyString [] fs e Hfs)
      as (new & -> & Hlen & Hbytes & Hplain).
    exists new. cbn [app]. split; [by destruct e|]. split; [done|]. split.
    + destruct (forallb snd fs) eqn:Hall; [|done].
      by rewrite unfinished_all.
    + intros Hall. by apply Hplain.
Qed.

End ReadLinesFacts.

Lemma readLines_lines_witness :
  (Startup.os_Open (R := Lab.reader) "missing.txt" = inr (Startup.IOError "no such file") ∧
   Startup.readLines (R := Lab.reader) 5 "missing.txt"
   = Some ([], Some (Startup.IOError "no such file"))) ∧
  (Startup.os_Open "urls.txt" = inl Lab.urls_txt ∧
   Startup.fragments 5 Lab.urls_txt = Some (Lab.coming Lab.urls_txt, Startup.EOF) ∧
   ∃ lines,
     Startup.readLines (R := Lab.reader) 5 "urls.txt" = Some (lines, None) ∧
     length lines = Startup.line_ends (Lab.coming Lab.urls_txt) ∧
     (Startup.joined lines
        ++ Startup.bytes_of (Startup.unfinished (Lab.coming Lab.urls_txt)))%string
     = Startup.bytes_of (Lab.coming Lab.urls_txt) ∧
     (forallb (negb ∘ snd) (Lab.coming Lab.urls_txt) = true →
        lines = fst <$> Lab.coming Lab.urls_txt)).
Proof.
  split.
  - split; [reflexivity|].
    destruct (readLines_lines (R := Lab.reader) 5 "missing.txt") as (Hopen & _).
    exact (Hopen _ eq_refl).
  - split; [reflexivity|]. split; [reflexivity|].
    destruct (readLines_lines (R := Lab.reader) 5 "urls.txt") as (_ & Hread).
    exact (Hread Lab.urls_txt (Lab.coming Lab.urls_txt) Startup.EOF eq_refl eq_refl).
Defined.

Example readLines_urls_txt :
  Startup.readLines (R := Lab.reader) 5 "urls.txt"
  = Some (["http://localhost/a"; "http://localhost/b"; "http://localhost/c"]%string, None).
Proof. reflexivity. Qed.

Section NewConfigurationFacts.
Context {R : Type} `{Startup.LineReader R} `{Startup.FileSystem}.

(** X7. Whatever the flags, a configuration that [newConfiguration]
    returns has a target (a URL or a URL file was given) and exactly one
    of the two modes: either [requestCount] or [requestsDuration] is -1 and
    the other is not. Its URLs are the lines of the URL file followed by
    the URL of [-u], when given. *)
Theorem newConfiguration_validated (fuel : nat) (fl : Startup.flags)
    (cfg : configuration) (cs : Startup.client_settings) :
  Startup.newConfiguration fuel fl = Some (inr (cfg, cs)) →
  (Startup.urlsFilePath fl ≠ EmptyString ∨ Startup.url fl ≠ EmptyString) ∧
  ((requestCount cfg = -1 ∧ requestsDuration cfg ≠ -1) ∨
   (requestCount cfg ≠ -1 ∧ requestsDuration cfg = -1)) ∧
  requestCount cfg = Startup.requestCount fl ∧
  requestsDuration cfg = Startup.requestsDuration fl ∧
  (∃ fileLines,
     urls cfg = fileLines
                ++ (if Startup.is_empty (Startup.url fl) then [] else [Startup.url fl]) ∧
     (if Startup.is_empty (Startup.urlsFilePath fl) then fileLines = []
      else Startup.readLines fuel (Startup.urlsFilePath fl) = Some (fileLines, None))).
Proof.
  unfold Startup.newConfiguration. intros Hnew.
  destruct (Startup.is_empty (Startup.urlsFilePath fl)) eqn:Hfile;
    destruct (Startup.is_empty (Startup.url fl)) eqn:Hurl;
    cbn [andb] in Hnew; try done;
    destruct (Z.eqb_spec (Startup.requestCount fl) (-1)) as [Hc|Hc];
    destruct (Z.eqb_spec (Startup.requestsDuration fl) (-1)) as [Hd|Hd];
    cbn [andb negb] in Hnew; try done;
    repeat case_match; simplify_eq/=;
    (split; [first [right; by apply is_empty_false | left; by apply is_empty_false]|]);
    (split; [lia|]); (split; [done|]); (split; [done|]);
    eexists; (split; [|reflexivity]); by rewrite ?app_nil_r.
Qed.

(** X8. In a configuration that [newConfiguration] returns, a body given
    with [-b] makes the method POST and is the post data, whatever [-d]
    names; without [-b], the content of the file of [-d] is the post data
    and the method is POST; without both, the method is GET and there is
    no post data. *)
Theorem newConfiguration_body (fuel : nat) (fl : Startup.flags)
    (cfg : configuration) (cs : Startup.client_settings) :
  Startup.newConfiguration fuel fl = Some (inr (cfg, cs)) →
  (Startup.postBody fl ≠ EmptyString →
     method cfg = "POST"%string ∧
     postData cfg = Some (list_byte_of_string (Startup.postBody fl))) ∧
  (Startup.postBody fl = EmptyString → Startup.postDataFilePath fl ≠ EmptyString →
     method cfg = "POST"%string ∧
     ∃ data, Startup.os_ReadFile (Startup.postDataFilePath fl) = inl data ∧
             postData cfg = Some data) ∧
  (Startup.postBody fl = EmptyString → Startup.postDataFilePath fl = EmptyString →
     method cfg = "GET"%string ∧ postData cfg = None).
Proof.
  unfold Startup.newConfiguration. intros Hnew.
  repeat case_match; simplify_eq/=;
    repeat match goal with
           | Hx : Startup.is_empty _ = true |- _ => apply is_empty_true in Hx
           | Hx : Startup.is_empty _ = false |- _ => apply is_empty_false in Hx
           end;
    (split; [intros ?|split; intros ? ?]); try done; eauto.
Qed.

(** X9. A file named by [-d] that cannot be read ends the start-up with
    the fatal error of the body file, also when [-b] gives a body that
    would replace the content of the file. *)
Theorem newConfiguration_unreadable_body (fuel : nat) (fl : Startup.flags) (e : Startup.io_error) :
  Startup.urlsFilePath fl = EmptyString →
  Startup.url fl ≠ EmptyString →
  (Startup.requestCount fl = -1 ∧ Startup.requestsDuration fl ≠ -1 ∨
   Startup.requestCount fl ≠ -1 ∧ Startup.requestsDuration fl = -1) →
  Startup.postDataFilePath fl ≠ EmptyString →
  Startup.os_ReadFile (Startup.postDataFilePath fl) = inr e →
  Startup.newConfiguration fuel fl
  = Some (inl (Startup.FatalBody (Startup.postDataFilePath fl) e)).
Proof.
  intros Hfile Hurl Hmode Hpath Hread. unfold Startup.newConfiguration.
  rewrite Hfile, Hread. cbn [Startup.is_empty andb].
  destruct (Startup.url fl) as [|c u]; [done|].
  destruct (Startup.postDataFilePath fl) as [|c' p']; [done|].
  cbn [Startup.is_empty].
  destruct (Z.eqb_spec (Startup.requestCount fl) (-1));
    destruct (Z.eqb_spec (Startup.requestsDuration fl) (-1)); cbn [andb negb];
    first [done | lia].
Qed.

End NewConfigurationFacts.

Lemma newConfiguration_validated_witness :
  ∃ cfg cs,
    Startup.newConfiguration (R := Lab.reader) (H0 := Lab.disk) 5
      (Lab.run_flags "http://localhost/z" "urls.txt" 3 (-1) EmptyString EmptyString)
    = Some (inr (cfg, cs)) ∧
    requestCount cfg = 3 ∧ requestsDuration cfg = -1 ∧
    urls cfg = ["http://localhost/a"; "http://localhost/b"; "http://localhost/c";
                "http://localhost/z"]%string.
Proof.
  destruct (Startup.newConfiguration (R := Lab.reader) (H0 := Lab.disk) 5
      (Lab.run_flags "http://localhost/z" "urls.txt" 3 (-1) EmptyString EmptyString))
    as [[stop|[cfg cs]]|] eqn:Hnew; [by vm_compute in Hnew| |by vm_compute in Hnew].
  exists cfg, cs. split; [reflexivity|].
  destruct (newConfiguration_validated (H0 := Lab.disk) _ _ _ _ Hnew)
    as (_ & _ & Hc & Hd & fileLines & Hurls & Hfile).
  split; [exact Hc|]. split; [exact Hd|].
  rewrite Hurls. cbn in Hfile. injection Hfile as <-. reflexivity.
Defined.

Lemma newConfiguration_body_witness :
  ∃ cfg cs,
    Startup.newConfiguration (R := Lab.reader) (H0 := Lab.disk) 5
      (Lab.run_flags "http://localhost/z" EmptyString 3 (-1) "data.json" "{}")
    = Some (inr (cfg, cs)) ∧
    Startup.postBody
      (Lab.run_flags "http://localhost/z" EmptyString 3 (-1) "data.json" "{}")
    ≠ EmptyString ∧
    method cfg = "POST"%string ∧
    postData cfg = Some (list_byte_of_string "{}").
Proof.
  destruct (Startup.newConfiguration (R := Lab.reader) (H0 := Lab.disk) 5
      (Lab.run_flags "http://localhost/z" EmptyString 3 (-1) "data.json" "{}"))
    as [[stop|[cfg cs]]|] eqn:Hnew; [by vm_compute in Hnew| |by vm_compute in Hnew].
  exists cfg, cs. split; [reflexivity|].
  assert (Hb : Startup.postBody
      (Lab.run_flags "http://localhost/z" EmptyString 3 (-1) "data.json" "{}")
    ≠ EmptyString) by discriminate.
  split; [exact Hb|].
  destruct (newConfiguration_body (H0 := Lab.disk) _ _ _ _ Hnew) as (Hbody & _).
  exact (Hbody Hb).
Defined.

Lemma newConfiguration_unreadable_body_witness :
  (Startup.urlsFilePath
     (Lab.run_flags "http://localhost/z" EmptyString 3 (-1) "nope.json" "{}")
   = EmptyString ∧
   Startup.url (Lab.run_flags "http://localhost/z" EmptyString 3 (-1) "nope.json" "{}")
   ≠ EmptyString ∧
   Startup.postDataFilePath
     (Lab.run_flags "http://localhost/z" EmptyString 3 (-1) "nope.json" "{}")
   ≠ EmptyString ∧
   Startup.os_ReadFile (FileSystem := Lab.disk) "nope.json"
   = inr (Startup.IOError "no such file")) ∧
  Startup.newConfiguration (R := Lab.reader) (H0 := Lab.disk) 5
    (Lab.run_flags "http://localhost/z" EmptyString 3 (-1) "nope.json" "{}")
  = Some (inl (Startup.FatalBody "nope.json" (Startup.IOError "no such file"))).
Proof.
  assert (Hu : Startup.url
      (Lab.run_flags "http://localhost/z" EmptyString 3 (-1) "nope.json" "{}")
    ≠ EmptyString) by discriminate.
  assert (Hp : Startup.postDataFilePath
      (Lab.run_flags "http://localhost/z" EmptyString 3 (-1) "nope.json" "{}")
    ≠ EmptyString) by discriminate.
  split; [by repeat split|].
  apply (newConfiguration_unreadable_body (R := Lab.reader) (H0 := Lab.disk) 5
           (Lab.run_flags "http://localhost/z" EmptyString 3 (-1) "nope.json" "{}")
           (Startup.IOError "no such file") eq_refl Hu); [|exact Hp|reflexivity].
  right. split; [cbn; lia|reflexivity].
Defined.

Section IdleRun.
Context {R : Type} `{Startup.LineReader R} `{Startup.FileSystem}.
Context {W : Type} `{FastHTTP W}.




End IdleRun.


(** * The constructors of package client *)

Section SplitFacts.

Lemma string_app_cons c (a b : string) : (String c a ++ b)%string = String c (a ++ b)%string.
Proof. reflexivity. Qed.

Lemma Split_nonempty s sep : Construct.Split s sep ≠ [].
Proof.
  destruct s as [|c s]; [done|]. cbn [Construct.Split].
  destruct (Ascii.eqb c sep); [done|]. by destruct (Construct.Split s sep).
Qed.

Lemma Split_length s sep :
  length (Construct.Split s sep) = S (Construct.occurrences sep s).
Proof.
  induction s as [|c s IH]; [done|]. cbn [Construct.Split Construct.occurrences].
  destruct (Ascii.eqb c sep); [cbn; by rewrite IH|].
  pose proof (Split_nonempty s sep).
  destruct (Construct.Split s sep); [done|]. cbn in *. lia.
Qed.

Lemma occurrences_app sep (a b : string) :
  Construct.occurrences sep (a ++ b)
  = (Construct.occurrences sep a + Construct.occurrences sep b)%nat.
Proof.
  induction a as [|c a IH]; [done|].
  rewrite string_app_cons. cbn [Construct.occurrences]. rewrite IH. lia.
Qed.

(** Splitting at the first separator. *)
Lemma Split_app_sep (a b : string) sep :
  Construct.occurrences sep a = 0%nat →
  Construct.Split (a ++ String sep b) sep = a :: Construct.Split b sep.
Proof.
  induction a as [|c a IH]; intros Hocc.
  - change (EmptyString ++ String sep b)%string with (String sep b).
    cbn [Construct.Split]. by rewrite Ascii.eqb_refl.
  - rewrite string_app_cons. cbn [Construct.Split Construct.occurrences] in *.
    destruct (Ascii.eqb c sep); [done|]. by rewrite IH.
Qed.

Lemma Split_clean (a : string) sep :
  Construct.occurrences sep a = 0%nat → Construct.Split a sep = [a].
Proof.
  induction a as [|c a IH]; intros Hocc; [done|].
  cbn [Construct.Split Construct.occurrences] in *.
  destruct (Ascii.eqb c sep); [done|]. by rewrite IH.
Qed.

(** Joining and splitting again. *)
Lemma Split_concat (items : list string) sep :
  items ≠ [] →
  Forall (λ x, Construct.occurrences sep x = 0%nat) items →
  Construct.Split (String.concat (String sep EmptyString) items) sep = items.
Proof.
  intros Hne Hclean. induction Hclean as [|x items Hx Hclean IH]; [done|].
  destruct items as [|y items].
  - cbn [String.concat]. by apply Split_clean.
  - change (String.concat (String sep EmptyString) (x :: y :: items))
      with (x ++ String sep (String.concat (String sep EmptyString) (y :: items)))%string.
    rewrite Split_app_sep by done. by rewrite IH.
Qed.

End SplitFacts.

Section NewRequestFacts.
Context `{Construct.Strings} `{Startup.FileSystem}.

Lemma add_header_ignored (m : gmap string string) (header : string) :
  Construct.occurrences "=" header ≠ 1%nat → Construct.add_header m header = m.
Proof.
  intros Hocc. unfold Construct.add_header.
  pose proof (Split_length header "=") as Hlen.
  destruct (Construct.Split header "=") as [|k [|v [|x xs]]]; try done.
  cbn in Hlen. lia.
Qed.

Lemma add_header_pair (m : gmap string string) (k v : string) :
  Construct.occurrences "=" k = 0%nat → Construct.occurrences "=" v = 0%nat →
  Construct.add_header m (k ++ String "=" v)
  = <[Construct.TrimSpace k := Construct.TrimSpace v]> m.
Proof.
  intros Hk Hv. unfold Construct.add_header.
  by rewrite Split_app_sep, Split_clean.
Qed.

Lemma fold_add_header_filter (items : list string) : ∀ m : gmap string string,
  fold_left Construct.add_header items m
  = fold_left Construct.add_header (List.filter Construct.well_formed items) m.
Proof.
  induction items as [|h items IH]; intros m; [done|].
  cbn [fold_left List.filter]. unfold Construct.well_formed at 1.
  destruct (Nat.eqb_spec (Construct.occurrences "=" h) 1) as [Hone|Hne].
  - cbn [fold_left]. apply IH.
  - rewrite add_header_ignored by done. apply IH.
Qed.

End NewRequestFacts.

Section NewRequestClaims.
Context `{Construct.Strings} `{Startup.FileSystem}.

Lemma NewRequest_headers url path body ct ka auth hs rq :
  Construct.NewRequest url path body ct ka auth hs = inr rq →
  AdditionalHeaders rq
  = Some (fold_left Construct.add_header (Construct.Split hs ",") (Construct.headers0 auth)).
Proof.
  unfold Construct.NewRequest, Construct.headers0. intros Hnew.
  repeat case_match; by simplify_eq/=.
Qed.

(** X11. The additional headers that [NewRequest] parses depend only on
    the comma-separated items with exactly one ["="]: an item without
    ["="], or with two or more (a value that itself contains ["="]), adds
    nothing and is dropped without notice. *)
Theorem NewRequest_skips_malformed_headers (url path body ct : string) (ka : bool)
    (auth hs : string) (rq : Request) :
  Construct.NewRequest url path body ct ka auth hs = inr rq →
  AdditionalHeaders rq
  = Some (fold_left Construct.add_header
            (List.filter Construct.well_formed (Construct.Split hs ","))
            (Construct.headers0 auth)) ∧
  ∀ m header, Construct.well_formed header = false → Construct.add_header m header = m.
Proof.
  intros Hnew. split.
  - rewrite (NewRequest_headers _ _ _ _ _ _ _ _ Hnew). f_equal.
    apply fold_add_header_filter.
  - intros m header Hwf. apply add_header_ignored.
    unfold Construct.well_formed in Hwf. by apply Nat.eqb_neq.
Qed.

Lemma item_clean kv :
  Construct.clean (fst kv) → Construct.clean (snd kv) →
  Construct.occurrences "," (Construct.item kv) = 0%nat.
Proof.
  intros [Hk _] [Hv _]. unfold Construct.item.
  rewrite occurrences_app, Hk. cbn [Construct.occurrences]. by rewrite Hv.
Qed.

Lemma fold_add_header_items (kvs : list (string * string)) : ∀ m : gmap string string,
  Forall (λ kv, Construct.clean (fst kv) ∧ Construct.clean (snd kv)) kvs →
  fold_left Construct.add_header (Construct.item <$> kvs) m
  = fold_left (λ m kv, <[Construct.TrimSpace (fst kv) := Construct.TrimSpace (snd kv)]> m)
      kvs m.
Proof.
  induction kvs as [|kv kvs IH]; intros m Hclean; [done|].
  apply Forall_cons in Hclean as [[[_ Hk] [_ Hv]] Hrest].
  cbn [fmap list_fmap fold_left].
  change (Construct.item kv) with (fst kv ++ String "=" (snd kv))%string.
  rewrite add_header_pair by done. by apply IH.
Qed.

(** X12. Keys and values free of [","] and ["="], written as
    [key=value] items joined by commas, are read back by [NewRequest] one
    by one: the additional headers are the authorization header, if any,
    with each trimmed key set to its trimmed value in the order given, a
    later item replacing an earlier one with the same key. *)
Theorem NewRequest_headers_round_trip (url path body ct : string) (ka : bool)
    (auth : string) (kvs : list (string * string)) (rq : Request) :
  Forall (λ kv, Construct.clean (fst kv) ∧ Construct.clean (snd kv)) kvs →
  Construct.NewRequest url path body ct ka auth
    (String.concat "," (Construct.item <$> kvs)) = inr rq →
  AdditionalHeaders rq
  = Some (fold_left
            (λ m kv, <[Construct.TrimSpace (fst kv) := Construct.TrimSpace (snd kv)]> m)
            kvs (Construct.headers0 auth)).
Proof.
  intros Hclean Hnew. rewrite (NewRequest_headers _ _ _ _ _ _ _ _ Hnew). f_equal.
  destruct kvs as [|kv kvs]; [done|].
  rewrite Split_concat; [by apply fold_add_header_items|done|].
  apply Forall_fmap. eapply Forall_impl; [exact Hclean|].
  intros kv' [Hk Hv]. by apply item_clean.
Qed.

(** X13. [NewRequest] takes the post body from the file when a file is
    named, whatever the body given in words, and fails when that file
    cannot be read; without a file it takes the body given in words; with
    neither, the request has no body, and [PerformRequestWithContent]
    then sends a GET without body, where it sends a POST with the body
    otherwise. *)
Theorem NewRequest_body {W : Type} `{HTTP W} (url path body ct : string) (ka : bool)
    (auth hs : string) :
  (path ≠ EmptyString →
     match Startup.os_ReadFile path with
     | inl data => ∃ rq, Construct.NewRequest url path body ct ka auth hs = inr rq ∧
                         PostBody rq = Some data
     | inr e => Construct.NewRequest url path body ct ka auth hs = inl e
     end) ∧
  (path = EmptyString →
     ∃ rq, Construct.NewRequest url path body ct ka auth hs = inr rq ∧
           URL rq = url ∧
           PostBody rq = (if Startup.is_empty body then None
                          else Some (list_byte_of_string body))) ∧
  (∀ rq timeout ctx (w : W),
     Construct.NewRequest url path body ct ka auth hs = inr rq →
     url_Parse_ok url = true →
     ∃ req, PerformRequestWithContent ctx (w, Construct.NewClient timeout rq)
            = (perform ctx w (Construct.NewClient timeout rq) req, Returned) ∧
            hr_body req = PostBody rq ∧
            hr_method req = match PostBody rq with
                            | Some _ => "POST"
                            | None => "GET"
                            end%string).
Proof.
  split; [|split].
  - intros Hpath. unfold Construct.NewRequest.
    destruct path as [|c p]; [done|]. cbn [Startup.is_empty].
    destruct (Startup.os_ReadFile (String c p)); eauto.
  - intros ->. unfold Construct.NewRequest. cbn [Startup.is_empty]. eauto.
  - intros rq timeout ctx w Hnew Hurl.
    assert (URL rq = url) as Hu.
    { unfold Construct.NewRequest in Hnew. repeat case_match; by simplify_eq/=. }
    unfold PerformRequestWithContent, NewRequestWithContext, Construct.NewClient.
    cbn [cRequest]. rewrite Hu, Hurl. destruct (PostBody rq); eauto.
Qed.

End NewRequestClaims.

Lemma NewRequest_skips_malformed_headers_witness :
  ∃ rq,
    @Construct.NewRequest Lab.blanks Lab.disk "http://localhost" EmptyString EmptyString
      EmptyString true EmptyString "a=b,broken,token=abc==" = inr rq ∧
    AdditionalHeaders rq
    = Some (fold_left (@Construct.add_header Lab.blanks)
              (List.filter Construct.well_formed
                 (Construct.Split "a=b,broken,token=abc==" ","))
              (Construct.headers0 EmptyString)) ∧
    AdditionalHeaders rq = Some {[ "a"%string := "b"%string ]}.
Proof.
  destruct (@Construct.NewRequest Lab.blanks Lab.disk "http://localhost" EmptyString
              EmptyString EmptyString true EmptyString "a=b,broken,token=abc==")
    as [e|rq] eqn:Hnew; [by vm_compute in Hnew|].
  exists rq. split; [reflexivity|].
  destruct (NewRequest_skips_malformed_headers _ _ _ _ _ _ _ _ Hnew) as (Hh & _).
  split; [exact Hh|]. rewrite Hh. reflexivity.
Defined.

Lemma NewRequest_headers_round_trip_witness :
  Forall (λ kv, Construct.clean (fst kv) ∧ Construct.clean (snd kv)) Lab.test_headers ∧
  ∃ rq,
    @Construct.NewRequest Lab.blanks Lab.disk "http://localhost" EmptyString
      "{}" "application/json" true "authorizationHeader"
      (String.concat "," (Construct.item <$> Lab.test_headers)) = inr rq ∧
    AdditionalHeaders rq
    = Some (<["key3"%string := "value3"%string]>
             (<["key2"%string := "value2"%string]>
               (<["key1"%string := "value1"%string]>
                 (<["Authorization"%string := "authorizationHeader"%string]> ∅)))).
Proof.
  assert (Hclean : Forall (λ kv, Construct.clean (fst kv) ∧ Construct.clean (snd kv))
                     Lab.test_headers)
    by (repeat constructor).
  split; [exact Hclean|].
  destruct (@Construct.NewRequest Lab.blanks Lab.disk "http://localhost" EmptyString
              "{}" "application/json" true "authorizationHeader"
              (String.concat "," (Construct.item <$> Lab.test_headers)))
    as [e|rq] eqn:Hnew; [by vm_compute in Hnew|].
  exists rq. split; [reflexivity|].
  rewrite (NewRequest_headers_round_trip _ _ _ _ _ _ _ _ Hclean Hnew). reflexivity.
Defined.

Lemma NewRequest_body_witness :
  ("data.json"%string ≠ EmptyString ∧
   ∃ rq, @Construct.NewRequest Lab.blanks Lab.disk "http://localhost" "data.json"
           "ignored" EmptyString true EmptyString EmptyString = inr rq ∧
         PostBody rq = Some Sim.buf3) ∧
  ("nope.json"%string ≠ EmptyString ∧
   @Construct.NewRequest Lab.blanks Lab.disk "http://localhost" "nope.json"
     "ignored" EmptyString true EmptyString EmptyString
   = inl (Startup.IOError "no such file")).
Proof.
  assert (H1 : "data.json"%string ≠ EmptyString) by discriminate.
  assert (H2 : "nope.json"%string ≠ EmptyString) by discriminate.
  split.
  - split; [exact H1|].
    destruct (@NewRequest_body Lab.blanks Lab.disk Lab.steady _ "http://localhost"
                "data.json" "ignored" EmptyString true EmptyString EmptyString)
      as (Hfile & _).
    exact (Hfile H1).
  - split; [exact H2|].
    destruct (@NewRequest_body Lab.blanks Lab.disk Lab.steady _ "http://localhost"
                "nope.json" "ignored" EmptyString true EmptyString EmptyString)
      as (Hfile & _).
    exact (Hfile H2).
Defined.

(** * Runs of package client *)

Section ClientRuns.
Context {W : Type} `{HTTP W}.

Lemma perform_Do ctx w c req :
  perform ctx w c req
  = let s := cStatistic c in
    match HTTPClient_Do w ctx (set_headers (cRequest c) req) with
    | (w', inl _) =>
        (w', set_Statistic c
               {| ReadThroughput := ReadThroughput s;
                  WriteThroughput := WriteThroughput s;
                  RequestCount := incr (RequestCount s);
                  SuccessCount := SuccessCount s;
                  FailureCount := FailureCount s;
                  NetworkFailedCount := incr (NetworkFailedCount s);
                  IOFailedCount := IOFailedCount s |})
    | (w', inr resp) =>
        let ok := (200 <=? StatusCode resp) && (StatusCode resp <=? 299) in
        (w', set_Statistic c
               {| ReadThroughput := add64 (ReadThroughput s) (len64 (Body resp));
                  WriteThroughput :=
                    add64 (WriteThroughput s) (len64 (default [] (PostBody (cRequest c))));
                  RequestCount := incr (RequestCount s);
                  SuccessCount := if ok then incr (SuccessCount s) else SuccessCount s;
                  FailureCount := if ok then FailureCount s else incr (FailureCount s);
                  NetworkFailedCount := NetworkFailedCount s;
                  IOFailedCount :=
                    match BodyErr resp with
                    | Some _ => incr (IOFailedCount s)
                    | None => IOFailedCount s
                    end |})
    end.
Proof. reflexivity. Qed.

Lemma perform_exact ctx w c req :
  Behaviour.Statistic_exact (cStatistic c) →
  RequestCount (cStatistic c) < max_int64 →
  Behaviour.Statistic_exact (cStatistic (snd (perform ctx w c req))) ∧
  RequestCount (cStatistic (snd (perform ctx w c req))) = RequestCount (cStatistic c) + 1.
Proof.
  intros (Hs & Hf & Hn & Hio & Hsum & Hle) Hfit. rewrite perform_Do. cbv zeta.
  assert (∀ x, 0 ≤ x ≤ RequestCount (cStatistic c) → incr x = x + 1) as Hincr
    by (intros x Hx; apply incr_exact; unfold min_int64, max_int64 in *; lia).
  unfold Behaviour.Statistic_exact.
  destruct (HTTPClient_Do _ _ _) as [w' [e|resp]];
    cbn [snd cStatistic set_Statistic RequestCount SuccessCount FailureCount
         NetworkFailedCount IOFailedCount].
  - rewrite !Hincr by lia. lia.
  - destruct ((200 <=? StatusCode resp) && (StatusCode resp <=? 299));
      destruct (BodyErr resp); rewrite !Hincr by lia; lia.
Qed.

Lemma amount_loop_exact n : ∀ st : W * Client,
  Behaviour.Statistic_exact (cStatistic (snd st)) →
  RequestCount (cStatistic (snd st)) + Z.of_nat n ≤ max_int64 →
  Behaviour.Statistic_exact (cStatistic (snd (fst (amount_loop n st)))) ∧
  RequestCount (cStatistic (snd (fst (amount_loop n st))))
  ≤ RequestCount (cStatistic (snd st)) + Z.of_nat n.
Proof.
  induction n as [|n IH]; intros st Hex Hfit; [cbn; split; [done|lia]|].
  cbn [amount_loop]. unfold PerformRequest.
  destruct (PerformRequestWithContent_cases None st) as [[p ->]|[req ->]].
  { cbn [fst snd]. split; [done|lia]. }
  destruct (perform_exact None (fst st) (snd st) req Hex ltac:(lia)) as (Hex1 & Hreq1).
  destruct (IH (perform None (fst st) (snd st) req) Hex1 ltac:(lia)) as (Hex' & Hreq').
  split; [done|lia].
Qed.

(** X14. Starting from a fresh [Statistic], after [RunForAmount(n)] with
    [0 <= n < 2^63], however the requests went and whether or not the run
    panicked: no counter is negative, [RequestCount] is at most [n] and is
    exactly [SuccessCount + FailureCount + NetworkFailedCount], and
    [IOFailedCount] is at most [SuccessCount + FailureCount]: a response
    whose body could not be read is still counted by its status. *)
Theorem RunForAmount_counts (n : Z) (st : W * Client) :
  cStatistic (snd st) = new_Statistic →
  0 ≤ n ≤ max_int64 →
  let s := cStatistic (snd (fst (RunForAmount n st))) in
  0 ≤ SuccessCount s ∧ 0 ≤ FailureCount s ∧ 0 ≤ NetworkFailedCount s ∧
  0 ≤ IOFailedCount s ≤ SuccessCount s + FailureCount s ∧
  RequestCount s = SuccessCount s + FailureCount s + NetworkFailedCount s ∧
  RequestCount s ≤ n.
Proof.
  intros Hnew Hn s. subst s. unfold RunForAmount.
  destruct (amount_loop_exact (Z.to_nat n) st) as ((H1 & H2 & H3 & H4 & H5 & H6) & Hle).
  - rewrite Hnew. unfold Behaviour.Statistic_exact. cbn. lia.
  - rewrite Hnew. cbn [RequestCount new_Statistic]. lia.
  - rewrite Hnew in Hle. cbn [RequestCount new_Statistic] in Hle. lia.
Qed.

Lemma PerformRequest_answered (size : Z) (st : W * Client) :
  Behaviour.always_answers size →
  url_Parse_ok (URL (cRequest (snd st))) = true →
  ∃ st', PerformRequest st = (st', Returned) ∧
    cRequest (snd st') = cRequest (snd st) ∧
    let s := cStatistic (snd st) in
    let s' := cStatistic (snd st') in
    RequestCount s' = incr (RequestCount s) ∧
    SuccessCount s' = incr (SuccessCount s) ∧
    FailureCount s' = FailureCount s ∧
    NetworkFailedCount s' = NetworkFailedCount s ∧
    IOFailedCount s' = IOFailedCount s ∧
    ReadThroughput s' = add64 (ReadThroughput s) size ∧
    WriteThroughput s'
    = add64 (WriteThroughput s) (len64 (default [] (PostBody (cRequest (snd st))))).
Proof.
  intros Hsrv Hurl. unfold PerformRequest.
  destruct (PerformRequestWithContent_good_url None st Hurl) as [req ->].
  eexists. split; [reflexivity|]. rewrite perform_Do. cbv zeta.
  destruct (Hsrv (fst st) (set_headers (cRequest (snd st)) req))
    as (resp & Hdo & Hst & Herr & Hsize).
  destruct (HTTPClient_Do _ _ _) as [w' [e|resp']]; cbn [snd] in Hdo; [done|].
  injection Hdo as ->. cbn [snd cStatistic cRequest set_Statistic RequestCount
    SuccessCount FailureCount NetworkFailedCount IOFailedCount ReadThroughput
    WriteThroughput].
  replace ((200 <=? StatusCode resp) && (StatusCode resp <=? 299)) with true
    by (symmetry; apply andb_true_iff; lia).
  rewrite Herr, Hsize. by repeat split.
Qed.

Lemma amount_loop_answered (size : Z) (n : nat) : ∀ (st : W * Client) (a : Z),
  Behaviour.always_answers size →
  url_Parse_ok (URL (cRequest (snd st))) = true →
  0 ≤ size → 0 ≤ a →
  let b := len64 (default [] (PostBody (cRequest (snd st)))) in
  let s := cStatistic (snd st) in
  RequestCount s = a → SuccessCount s = a → FailureCount s = 0 →
  NetworkFailedCount s = 0 → IOFailedCount s = 0 →
  ReadThroughput s = a * size → WriteThroughput s = a * b →
  a + Z.of_nat n ≤ max_int64 →
  (a + Z.of_nat n) * size ≤ max_int64 →
  (a + Z.of_nat n) * b ≤ max_int64 →
  snd (amount_loop n st) = Returned ∧
  let s' := cStatistic (snd (fst (amount_loop n st))) in
  RequestCount s' = a + Z.of_nat n ∧ SuccessCount s' = a + Z.of_nat n ∧
  FailureCount s' = 0 ∧ NetworkFailedCount s' = 0 ∧ IOFailedCount s' = 0 ∧
  ReadThroughput s' = (a + Z.of_nat n) * size ∧
  WriteThroughput s' = (a + Z.of_nat n) * b.
Proof.
  induction n as [|n IH]; intros st a Hsrv Hurl Hsize Ha b s Hrc Hsc Hfc Hnf Hio Hrt Hwt
    Hfit Hfitr Hfitw; subst s.
  { cbn [amount_loop fst snd]. rewrite Z.add_0_r. by repeat split. }
  cbn [amount_loop].
  destruct (PerformRequest_answered size st Hsrv Hurl)
    as (st1 & -> & Hrq & Hrc1 & Hsc1 & Hfc1 & Hnf1 & Hio1 & Hrt1 & Hwt1).
  cbv zeta in *. fold b in Hwt1.
  pose proof (len64_nonneg (default [] (PostBody (cRequest (snd st))))) as Hb. fold b in Hb.
  rewrite Hrc, incr_exact in Hrc1 by (unfold min_int64, max_int64 in *; lia).
  rewrite Hsc, incr_exact in Hsc1 by (unfold min_int64, max_int64 in *; lia).
  rewrite Hrt, add64_exact in Hrt1 by (unfold in_int64, min_int64, max_int64 in *; nia).
  rewrite Hwt, add64_exact in Hwt1 by (unfold in_int64, min_int64, max_int64 in *; nia).
  specialize (IH st1 (a + 1)). cbv zeta in IH. rewrite Hrq in IH. fold b in IH.
  replace (a + Z.of_nat (S n)) with (a + 1 + Z.of_nat n) in * by lia.
  apply IH; try done; try lia; rewrite ?Hrq; try done; congruence || lia.
Qed.

(** X15. Against a server that answers every request with a status in
    [200,299] and a body of [size] bytes, a fresh client with a URL that
    parses ends [RunForAmount(n)], [n >= 0], without panic and with [n]
    requests, all of them successes, [n × size] bytes read and [n] times
    the length of the post body written (while these products fit
    [int64]). *)
Theorem RunForAmount_all_answered (size n : Z) (st : W * Client) :
  Behaviour.always_answers size →
  url_Parse_ok (URL (cRequest (snd st))) = true →
  cStatistic (snd st) = new_Statistic →
  0 ≤ size → 0 ≤ n ≤ max_int64 →
  n * size ≤ max_int64 →
  n * len64 (default [] (PostBody (cRequest (snd st)))) ≤ max_int64 →
  snd (RunForAmount n st) = Returned ∧
  let s := cStatistic (snd (fst (RunForAmount n st))) in
  RequestCount s = n ∧ SuccessCount s = n ∧
  FailureCount s = 0 ∧ NetworkFailedCount s = 0 ∧ IOFailedCount s = 0 ∧
  ReadThroughput s = n * size ∧
  WriteThroughput s = n * len64 (default [] (PostBody (cRequest (snd st)))).
Proof.
  intros Hsrv Hurl Hnew Hsize Hn Hfitr Hfitw. unfold RunForAmount.
  pose proof (amount_loop_answered size (Z.to_nat n) st 0 Hsrv Hurl Hsize ltac:(lia))
    as Hloop.
  cbv zeta in Hloop. rewrite Hnew in Hloop. cbn [RequestCount SuccessCount FailureCount
    NetworkFailedCount IOFailedCount ReadThroughput WriteThroughput new_Statistic] in Hloop.
  replace (0 + Z.of_nat (Z.to_nat n)) with n in Hloop by lia.
  apply Hloop; lia.
Qed.

End ClientRuns.

Section DurationRuns.
Context {W : Type} `{HTTP W}.

Lemma decr_incr x : in_int64 x → decr (incr x) = x.
Proof.
  intros Hx. unfold decr, sub64, incr, add64.
  replace (wrap64 (x + 1) - 1) with (wrap64 (x + 1) + -1) by lia.
  rewrite wrap64_add_l. replace (x + 1 + -1) with x by lia. by apply wrap64_id.
Qed.

Lemma perform_until_deadline deadline w c req :
  Behaviour.answers_until_deadline →
  Behaviour.all_succeeded (cStatistic c) →
  let st' := perform (Some deadline) w c req in
  Behaviour.all_succeeded (cStatistic (snd st')) ∨
  (Behaviour.cut_off (cStatistic (snd st')) ∧ deadline ≤ now (fst st')).
Proof.
  intros Hsrv (Hnf & Hfc & Hrc & Hfit). rewrite perform_Do. cbv zeta.
  specialize (Hsrv w deadline (set_headers (cRequest c) req)).
  destruct (HTTPClient_Do _ _ _) as [w' [e|resp]];
    cbn [fst snd cStatistic set_Statistic].
  - right. split; [|done]. unfold Behaviour.cut_off. cbn. rewrite Hnf, Hfc, Hrc.
    split; [by vm_compute|]. split; [done|]. split; [done|]. by rewrite <- Hrc.
  - left. unfold Behaviour.all_succeeded. cbn.
    replace ((200 <=? StatusCode resp) && (StatusCode resp <=? 299)) with true
      by (symmetry; apply andb_true_iff; lia).
    rewrite Hrc. split; [done|]. split; [done|]. split; [done|]. apply wrap64_range.
Qed.

Lemma duration_loop_clean timeout startTime fuel : ∀ st : W * Client,
  takes_time → Behaviour.answers_until_deadline →
  url_Parse_ok (URL (cRequest (snd st))) = true →
  Behaviour.all_succeeded (cStatistic (snd st)) →
  (Z.to_nat (timeout - (now (fst st) - startTime)) < fuel)%nat →
  ∃ st', duration_loop fuel timeout startTime (Some (startTime + timeout)) st
         = Some (st', Returned) ∧
         (Behaviour.all_succeeded (cStatistic (snd st')) ∨ Behaviour.cut_off (cStatistic (snd st'))).
Proof.
  induction fuel as [|fuel IH]; intros st Htime Hsrv Hurl Hall Hfuel; [lia|].
  cbn [duration_loop].
  destruct (Z.ltb_spec (now (fst st) - startTime) timeout) as [Hlt|Hge]; [|eauto].
  destruct (PerformRequestWithContent_good_url (Some (startTime + timeout)) st Hurl)
    as [req Hperf].
  pose proof (PerformRequestWithContent_Request (Some (startTime + timeout)) st) as Hreq.
  rewrite Hperf in *. cbn [fst] in Hreq.
  destruct (perform_world (Some (startTime + timeout)) (fst st) (snd st) req) as [req' Hw].
  pose proof (Htime (fst st) (Some (startTime + timeout)) req') as Hnow.
  rewrite <- Hw in Hnow.
  destruct (perform_until_deadline (startTime + timeout) (fst st) (snd st) req Hsrv Hall)
    as [Hall'|[Hcut Hpast]].
  - apply IH; [done|done|by rewrite Hreq|done|lia].
  - destruct fuel as [|fuel]; [lia|]. cbn [duration_loop].
    destruct (Z.ltb_spec
      (now (fst (perform (Some (startTime + timeout)) (fst st) (snd st) req)) - startTime)
      timeout); [lia|]. eauto.
Qed.

(** X16. With a server that answers every request with a status in
    [200,299] unless the deadline cuts the request off, a client that has
    seen no failure so far ends [RunForDuration] with as many successes as
    requests and no network failure: the request that the deadline cut
    off is taken out of the counts. *)
Theorem RunForDuration_clean_run (fuel : nat) (timeout : Z) (st : W * Client) :
  takes_time → Behaviour.answers_until_deadline →
  url_Parse_ok (URL (cRequest (snd st))) = true →
  Behaviour.all_succeeded (cStatistic (snd st)) →
  (Z.to_nat timeout < fuel)%nat →
  ∃ w' c',
    RunForDuration fuel timeout st = Some ((w', c'), Returned) ∧
    RequestCount (cStatistic c') = SuccessCount (cStatistic c') ∧
    NetworkFailedCount (cStatistic c') = 0 ∧
    FailureCount (cStatistic c') = 0.
Proof.
  intros Htime Hsrv Hurl Hall Hfuel.
  destruct (duration_loop_clean timeout (now (fst st)) fuel st Htime Hsrv Hurl Hall)
    as ([w' raw] & Hloop & Hend).
  { replace (timeout - (now (fst st) - now (fst st))) with timeout by lia. done. }
  exists w', (set_Statistic raw (discount_last (cStatistic raw))).
  split; [unfold RunForDuration; by rewrite Hloop|].
  cbn [snd cStatistic set_Statistic] in *. unfold discount_last.
  destruct Hend as [(Hnf & Hfc & Hrc & _)|(Hnf & Hfc & Hrc & Hfit)]; rewrite Hnf.
  - change (0 =? 1) with false. cbv iota. done.
  - change (1 =? 1) with true. cbn. rewrite Hrc, decr_incr by done.
    split; [done|]. split; [by vm_compute|done].
Qed.

(** X17. The two runs at their edges. [RunForAmount(n)] with [n <= 0]
    returns with the client untouched; with [n >= 1] and a URL that does
    not parse it panics at the first request, the client untouched.
    [RunForDuration(d)] with [d <= 0] sends nothing, and yet subtracts one
    request and one network failure from a statistic that came in with
    exactly one network failure. *)
Theorem runs_at_their_edges (n timeout : Z) (fuel : nat) (st : W * Client) :
  (n ≤ 0 → RunForAmount n st = (st, Returned)) ∧
  (0 < n → url_Parse_ok (URL (cRequest (snd st))) = false →
     ∃ p, RunForAmount n st = (st, Panicked p)) ∧
  (timeout ≤ 0 →
     RunForDuration (S fuel) timeout st
     = Some ((fst st, set_Statistic (snd st) (discount_last (cStatistic (snd st)))),
             Returned) ∧
     (NetworkFailedCount (cStatistic (snd st)) = 1 →
        RequestCount (discount_last (cStatistic (snd st)))
        = decr (RequestCount (cStatistic (snd st))) ∧
        NetworkFailedCount (discount_last (cStatistic (snd st))) = 0)).
Proof.
  split; [|split].
  - intros Hn. unfold RunForAmount. by replace (Z.to_nat n) with 0%nat by lia.
  - intros Hn Hurl. unfold RunForAmount.
    destruct (Z.to_nat n) as [|k] eqn:Hk; [lia|]. cbn [amount_loop].
    unfold PerformRequest.
    destruct (PerformRequestWithContent_bad_url None st Hurl) as [p ->]. eauto.
  - intros Ht. split.
    + unfold RunForDuration. cbn [duration_loop].
      destruct (Z.ltb_spec (now (fst st) - now (fst st)) timeout); [lia|].
      by destruct st.
    + intros Hnf. unfold discount_last. rewrite Hnf. change (1 =? 1) with true.
      cbn. split; [done|by vm_compute].
Qed.

End DurationRuns.

(** ** The mock server *)

Lemma steady_takes_time : @takes_time Lab.steady _.
Proof.
  intros w ctx req. cbn [now HTTPClient_Do Lab.steady_HTTP]. unfold Lab.steady_Do.
  destruct ctx as [deadline|];
    try destruct (Z.leb_spec deadline (Lab.time w + Z.max 1 (Lab.pace w)));
    cbn [fst Lab.time]; lia.
Qed.

Lemma steady_always_answers : @Behaviour.always_answers Lab.steady _ 13.
Proof. intros w req. eexists. split; [reflexivity|]. by repeat split. Qed.

Lemma steady_answers_until_deadline : @Behaviour.answers_until_deadline Lab.steady _.
Proof.
  intros w deadline req. cbn [HTTPClient_Do Lab.steady_HTTP]. unfold Lab.steady_Do.
  destruct (Z.leb_spec deadline (Lab.time w + Z.max 1 (Lab.pace w))); cbn; lia.
Qed.

Lemma RunForAmount_counts_witness :
  (cStatistic (snd Lab.mixed_client) = new_Statistic ∧ 0 ≤ 3 ≤ max_int64) ∧
  0 ≤ IOFailedCount (cStatistic (snd (fst (RunForAmount 3 Lab.mixed_client))))
    ≤ SuccessCount (cStatistic (snd (fst (RunForAmount 3 Lab.mixed_client))))
      + FailureCount (cStatistic (snd (fst (RunForAmount 3 Lab.mixed_client)))) ∧
  RequestCount (cStatistic (snd (fst (RunForAmount 3 Lab.mixed_client))))
  = SuccessCount (cStatistic (snd (fst (RunForAmount 3 Lab.mixed_client))))
    + FailureCount (cStatistic (snd (fst (RunForAmount 3 Lab.mixed_client))))
    + NetworkFailedCount (cStatistic (snd (fst (RunForAmount 3 Lab.mixed_client)))) ∧
  RequestCount (cStatistic (snd (fst (RunForAmount 3 Lab.mixed_client)))) ≤ 3.
Proof.
  assert (Hn : 0 ≤ 3 ≤ max_int64) by (unfold max_int64; lia).
  split; [by split|].
  destruct (RunForAmount_counts 3 Lab.mixed_client eq_refl Hn)
    as (_ & _ & _ & Hio & Hsum & Hle).
  by repeat split.
Defined.

Lemma RunForAmount_all_answered_witness :
  (@Behaviour.always_answers Lab.steady _ 13 ∧
   url_Parse_ok (W := Lab.steady) (URL (cRequest (snd Lab.test_client))) = true ∧
   cStatistic (snd Lab.test_client) = new_Statistic ∧
   0 ≤ 13 ∧ 0 ≤ 10 ≤ max_int64 ∧ 10 * 13 ≤ max_int64 ∧
   10 * len64 (default [] (PostBody (cRequest (snd Lab.test_client)))) ≤ max_int64) ∧
  snd (RunForAmount 10 Lab.test_client) = Returned ∧
  RequestCount (cStatistic (snd (fst (RunForAmount 10 Lab.test_client)))) = 10 ∧
  SuccessCount (cStatistic (snd (fst (RunForAmount 10 Lab.test_client)))) = 10 ∧
  ReadThroughput (cStatistic (snd (fst (RunForAmount 10 Lab.test_client)))) = 10 * 13.
Proof.
  assert (Hn : 0 ≤ 10 ≤ max_int64) by (unfold max_int64; lia).
  assert (Hr : 10 * 13 ≤ max_int64) by (unfold max_int64; lia).
  assert (Hw : 10 * len64 (default [] (PostBody (cRequest (snd Lab.test_client))))
               ≤ max_int64) by by vm_compute.
  assert (Hu : url_Parse_ok (W := Lab.steady) (URL (cRequest (snd Lab.test_client))) = true)
    by reflexivity.
  split.
  { split; [apply steady_always_answers|]. split; [exact Hu|]. split; [reflexivity|].
    split; [lia|]. split; [exact Hn|]. split; [exact Hr|exact Hw]. }
  destruct (RunForAmount_all_answered (H := Lab.steady_HTTP) 13 10 Lab.test_client
              steady_always_answers Hu eq_refl ltac:(lia) Hn Hr Hw)
    as (Hret & Hrc & Hsc & _ & _ & _ & Hrt & _).
  by repeat split.
Defined.

Lemma RunForDuration_clean_run_witness :
  (@takes_time Lab.steady _ ∧ @Behaviour.answers_until_deadline Lab.steady _ ∧
   url_Parse_ok (W := Lab.steady) (URL (cRequest (snd Lab.test_client))) = true ∧
   Behaviour.all_succeeded (cStatistic (snd Lab.test_client)) ∧
   (Z.to_nat 1000 < 1001)%nat) ∧
  ∃ w' c',
    RunForDuration 1001 1000 Lab.test_client = Some ((w', c'), Returned) ∧
    RequestCount (cStatistic c') = SuccessCount (cStatistic c') ∧
    NetworkFailedCount (cStatistic c') = 0 ∧
    FailureCount (cStatistic c') = 0.
Proof.
  assert (Hu : url_Parse_ok (W := Lab.steady) (URL (cRequest (snd Lab.test_client))) = true)
    by reflexivity.
  assert (Hall : Behaviour.all_succeeded (cStatistic (snd Lab.test_client))).
  { unfold Behaviour.all_succeeded, in_int64, min_int64, max_int64. cbn. lia. }
  assert (Hfuel : (Z.to_nat 1000 < 1001)%nat) by lia.
  split.
  { split; [apply steady_takes_time|]. split; [apply steady_answers_until_deadline|].
    by repeat split. }
  exact (RunForDuration_clean_run (H := Lab.steady_HTTP) 1001 1000 Lab.test_client
           steady_takes_time steady_answers_until_deadline Hu Hall Hfuel).
Defined.

Example RunForDuration_test_client :
  (RequestCount ∘ cStatistic ∘ snd ∘ fst <$> RunForDuration 1001 1000 Lab.test_client)
  = Some 3 ∧
  (ReadThroughput ∘ cStatistic ∘ snd ∘ fst <$> RunForDuration 1001 1000 Lab.test_client)
  = Some 39.
Proof. by vm_compute. Qed.

Lemma runs_at_their_edges_witness :
  (0 ≤ 0 ∧ RunForAmount 0 Sim.post3_bad_url = (Sim.post3_bad_url, Returned)) ∧
  (0 < 2 ∧
   url_Parse_ok (W := Sim.world) (URL (cRequest (snd Sim.post3_bad_url))) = false ∧
   ∃ p, RunForAmount 2 Sim.post3_bad_url = (Sim.post3_bad_url, Panicked p)) ∧
  (-5 ≤ 0 ∧
   RunForDuration 1 (-5) Sim.post3_answered
   = Some ((fst Sim.post3_answered,
            set_Statistic (snd Sim.post3_answered)
              (discount_last (cStatistic (snd Sim.post3_answered)))), Returned)).
Proof.
  assert (Hu : url_Parse_ok (W := Sim.world) (URL (cRequest (snd Sim.post3_bad_url))) = false)
    by reflexivity.
  split; [|split].
  - split; [lia|].
    destruct (runs_at_their_edges (H := Sim.world_HTTP) 0 0 0 Sim.post3_bad_url)
      as (Hzero & _).
    exact (Hzero ltac:(lia)).
  - split; [lia|]. split; [exact Hu|].
    destruct (runs_at_their_edges (H := Sim.world_HTTP) 2 0 0 Sim.post3_bad_url)
      as (_ & Hpanic & _).
    exact (Hpanic ltac:(lia) Hu).
  - split; [lia|].
    destruct (runs_at_their_edges (H := Sim.world_HTTP) 0 (-5) 0 Sim.post3_answered)
      as (_ & _ & Hzero).
    destruct (Hzero ltac:(lia)) as (Hrun & _). exact Hrun.
Defined.

